(** * Cosmos ingestion pipeline: the [Ingest] class of
    [cosmos/ingestion/ingest/ingest.py]

    The development embeds the orchestration class of the ingestion
    pipeline: [pdf_to_images] (the page rasteriser wrapper),
    [_ingest_local] (stage chain, result collection, aggregation),
    [_ingest_distributed] and [ingest].

    Code that [ingest.py] imports but that lives in other modules
    ([parse_pdf], [resize_png], the stage functions, [aggregate_router],
    the [gs] subprocess, the image decoder) is taken as a parameter, packed
    in the record [World].  Python exceptions are values of [Py.exc];
    a call that may raise returns a [Py.result]. *)

From Stdlib Require Import List String Ascii ZArith Bool Arith Lia.
From Stdlib Require Import Decimal DecimalNat DecimalString.
From Stdlib Require QArith.
Import ListNotations.

Local Open Scope string_scope.
Local Open Scope list_scope.

(* ================================================================== *)
(** ** Python values, exceptions and a few library functions          *)
(* ================================================================== *)

Module Py.

(** The exception classes that the module raises itself or that the
    interpreter raises on its behalf.  Every one of them derives from
    [Exception], which is what the handler of line 204 catches. *)
Inductive exc : Type :=
| KeyError (key : string)
| ValueError (msg : string)
| IndexError (msg : string)
| TypeError (msg : string)
| AttributeError (name : string)
| ZeroDivisionError
| NotImplementedError (msg : string)
| OSError (msg : string)
| Exception (msg : string).

Inductive result (A : Type) : Type :=
| Ok (a : A)
| Raise (e : exc).
Arguments Ok {A} a.
Arguments Raise {A} e.

Definition bind {A B} (r : result A) (k : A -> result B) : result B :=
  match r with
  | Ok a => k a
  | Raise e => Raise e
  end.

(** [[f(x) for x in xs]]: evaluation stops at the first element that
    raises. *)
Fixpoint for_each {A B} (f : A -> result B) (xs : list A)
  : result (list B) :=
  match xs with
  | [] => Ok []
  | x :: xs' =>
      bind (f x) (fun y =>
      bind (for_each f xs') (fun ys => Ok (y :: ys)))
  end.

(** [enumerate(xs)] *)
Fixpoint enumerate_from {A} (i : nat) (xs : list A) : list (nat * A) :=
  match xs with
  | [] => []
  | x :: xs' => (i, x) :: enumerate_from (S i) xs'
  end.

Definition enumerate {A} (xs : list A) : list (nat * A) :=
  enumerate_from 0 xs.

(** [x[0]] on a list. *)
Definition getitem0 {A} (xs : list A) : result A :=
  match xs with
  | x :: _ => Ok x
  | [] => Raise (IndexError "list index out of range")
  end.

(** [xs[i]] on a list, for a non-negative index. *)
Definition getitem {A} (xs : list A) (i : nat) : result A :=
  match nth_error xs i with
  | Some x => Ok x
  | None => Raise (IndexError "list index out of range")
  end.

(** [scores, classes = zip( *cls )] for a list of pairs: the transpose of
    an empty list has no rows, so the unpacking raises [ValueError]. *)
Definition zip_star {A B} (cls : list (A * B))
  : result (list A * list B) :=
  match cls with
  | [] => Raise (ValueError "not enough values to unpack (expected 2, got 0)")
  | _ => Ok (map fst cls, map snd cls)
  end.

Definition slash : ascii := "/"%char.

Fixpoint has_slash (p : string) : bool :=
  match p with
  | EmptyString => false
  | String c p' => Ascii.eqb c slash || has_slash p'
  end.

(** [os.path.basename]: what follows the last slash. *)
Fixpoint basename (p : string) : string :=
  match p with
  | EmptyString => EmptyString
  | String c p' =>
      if has_slash p' then basename p'
      else if Ascii.eqb c slash then p' else p
  end.

Fixpoint ends_with_slash (p : string) : bool :=
  match p with
  | EmptyString => false
  | String c EmptyString => Ascii.eqb c slash
  | String _ p' => ends_with_slash p'
  end.

(** [os.path.join(a, b)] on POSIX, two components. *)
Definition path_join (a b : string) : string :=
  match b with
  | String c _ =>
      if Ascii.eqb c slash then b
      else match a with
           | EmptyString => b
           | _ => if ends_with_slash a then a ++ b
                  else a ++ String slash b
           end
  | EmptyString =>
      match a with
      | EmptyString => EmptyString
      | _ => if ends_with_slash a then a else a ++ String slash EmptyString
      end
  end.

(** [s[-1]] *)
Fixpoint last_char (s : string) : option ascii :=
  match s with
  | EmptyString => None
  | String c EmptyString => Some c
  | String _ s' => last_char s'
  end.

Definition digit_value (c : ascii) : option Z :=
  let n := nat_of_ascii c in
  if (48 <=? n)%nat && (n <=? 57)%nat then Some (Z.of_nat (n - 48))
  else None.

Definition is_digit (c : ascii) : bool :=
  match digit_value c with
  | Some _ => true
  | None => false
  end.

(** [int(c)] for a string of one character. *)
Definition int_of_char (c : ascii) : result Z :=
  match digit_value c with
  | Some z => Ok z
  | None => Raise (ValueError "invalid literal for int() with base 10")
  end.

(** [str(n)] / the [%d] conversion, for a natural number. *)
Definition decimal (n : nat) : string :=
  NilEmpty.string_of_uint (Nat.to_uint n).

(** How an f-string renders an optional string. *)
Definition fstr (o : option string) : string :=
  match o with
  | Some s => s
  | None => "None"
  end.

End Py.

Notation "x <- r ;; k" := (Py.bind r (fun x => k))
  (at level 61, r at next level, right associativity).

(* ================================================================== *)
(** ** [glob.glob] on one directory                                    *)
(* ================================================================== *)

Module Glob.

Inductive tok : Type :=
| Lit (c : ascii)
| AnyChar                      (* ? *)
| Star                         (* * *)
| Class (stuff : list ascii).  (* [stuff] *)

Definition is_char (c : ascii) (d : string) : bool :=
  match d with
  | String d0 EmptyString => Ascii.eqb c d0
  | _ => false
  end.

(** Index of the first closing bracket. *)
Fixpoint find_close (p : list ascii) : option nat :=
  match p with
  | [] => None
  | c :: p' =>
      if is_char c "]" then Some 0%nat
      else option_map S (find_close p')
  end.

(** [rest] is the pattern after an opening bracket.  A leading [!] and a
    closing bracket that comes first are part of the set; the set ends at
    the next closing bracket.  The result is the length of the set. *)
Definition bracket_end (rest : list ascii) : option nat :=
  let j0 := match rest with
            | c :: _ => if is_char c "!" then 1%nat else 0%nat
            | [] => 0%nat
            end in
  let j1 := match nth_error rest j0 with
            | Some c => if is_char c "]" then S j0 else j0
            | None => j0
            end in
  option_map (Nat.add j1) (find_close (skipn j1 rest)).

(** [fnmatch.translate]; [skip] characters were consumed by a set. *)
Fixpoint translate_from (skip : nat) (pat : list ascii) : list tok :=
  match pat with
  | [] => []
  | c :: rest =>
      match skip with
      | S k => translate_from k rest
      | O =>
          if is_char c "*" then Star :: translate_from 0 rest
          else if is_char c "?" then AnyChar :: translate_from 0 rest
          else if is_char c "[" then
            match bracket_end rest with
            | Some j => Class (firstn j rest) :: translate_from (S j) rest
            | None => Lit c :: translate_from 0 rest
            end
          else Lit c :: translate_from 0 rest
      end
  end.

Definition translate (pat : string) : list tok :=
  translate_from 0 (list_ascii_of_string pat).

Definition ascii_le (a b : ascii) : bool :=
  (nat_of_ascii a <=? nat_of_ascii b)%nat.

Fixpoint in_set (stuff : list ascii) (c : ascii) : bool :=
  match stuff with
  | [] => false
  | lo :: rest =>
      match rest with
      | dash :: hi :: rest' =>
          if is_char dash "-"
          then (ascii_le lo c && ascii_le c hi) || in_set rest' c
          else Ascii.eqb lo c || in_set rest c
      | _ => Ascii.eqb lo c || in_set rest c
      end
  end.

Definition class_accepts (stuff : list ascii) (c : ascii) : bool :=
  match stuff with
  | bang :: stuff' =>
      if is_char bang "!" then negb (in_set stuff' c) else in_set stuff c
  | [] => false
  end.

(** A token other than [Star] consumes exactly one character. *)
Definition accepts (t : tok) (c : ascii) : bool :=
  match t with
  | Lit d => Ascii.eqb d c
  | AnyChar => true
  | Class stuff => class_accepts stuff c
  | Star => false
  end.

Fixpoint match_toks (ts : list tok) (name : list ascii) : bool :=
  match ts with
  | [] => match name with [] => true | _ => false end
  | Star :: ts' =>
      (fix star (n : list ascii) : bool :=
         match_toks ts' n
         || match n with
            | [] => false
            | _ :: n' => star n'
            end) name
  | t :: ts' =>
      match name with
      | [] => false
      | c :: n' => accepts t c && match_toks ts' n'
      end
  end.

(** The tail of the pattern built at line 218: an underscore and a
    question mark. *)
Definition one_more : list ascii := ["_"%char; "?"%char].

(** [glob.has_magic]: the characters that make a name a pattern. *)
Definition magic_char (c : ascii) : bool :=
  is_char c "*" || is_char c "?" || is_char c "[".

Definition has_magic (s : string) : bool :=
  existsb magic_char (list_ascii_of_string s).

Definition fnmatch (name pat : string) : bool :=
  match_toks (translate pat) (list_ascii_of_string name).

Definition ishidden (s : string) : bool :=
  match s with
  | String c _ => is_char c "."
  | EmptyString => false
  end.

(** [glob._glob1]: the entries of the directory that match the pattern;
    dot files are only seen by a pattern that starts with a dot. *)
Definition glob1 (entries : list string) (pattern : string) : list string :=
  let names := if ishidden pattern then entries
               else filter (fun x => negb (ishidden x)) entries in
  filter (fun x => fnmatch x pattern) names.

(** [glob.glob(dirname + "/" + pattern)] for a directory whose entries are
    [entries]: matches come back joined to the directory. *)
Definition glob (dirname : string) (entries : list string)
           (pattern : string) : list string :=
  map (Py.path_join dirname) (glob1 entries pattern).

End Glob.

(* ================================================================== *)
(** ** The distributed client                                          *)
(* ================================================================== *)

Module Dask.

(** The function a task runs, with the arguments that
    [functools.partial] froze into it. *)
Inductive task : Type :=
| T_pdf_to_images (dataset_id images_tmp pdf : string)
| T_propose_and_pad (visualize : bool)
| T_detect
| T_regroup
| T_pool_text (skip_ocr : bool)
| T_xgboost_postprocess
| T_rules_postprocess.

(** [resources={'process': 1}] and [resources={'GPU': 1}]. *)
Inductive resource : Type := process | GPU.

(** What a run does to the outside, in program order. *)
Inductive event : Type :=
| Submit (t : task) (r : resource) (priority : option Z)
| ToParquet (path : string)
| Rmtree (path : string).

(** A computation of the orchestrating process: the events it caused so
    far, and a value or the exception that ended it. *)
Definition run (A : Type) : Type := (list event * Py.result A)%type.

Definition ret {A} (a : A) : run A := ([], Py.Ok a).

Definition bind {A B} (m : run A) (k : A -> run B) : run B :=
  match m with
  | (l1, Py.Ok a) => let (l2, r) := k a in (l1 ++ l2, r)
  | (l1, Py.Raise e) => (l1, Py.Raise e)
  end.

Definition lift {A} (r : Py.result A) : run A := ([], r).

Definition emit (e : event) : run unit := ([e], Py.Ok tt).

(** A future holds the outcome of its task. *)
Definition future (A : Type) : Type := Py.result A.

Definition ready {A} (xs : list A) : list (future A) := map Py.Ok xs.

(** [[client.submit(f, x, resources=r) for x in xs]] *)
Definition submit_each {A B} (t : A -> task) (r : resource)
           (f : A -> Py.result B) (xs : list A) : run (list (future B)) :=
  (map (fun x => Submit (t x) r None) xs, Py.Ok (map f xs)).

(** [client.map(f, xs, resources=r, priority=p)]: one task per element; a
    task whose input future failed fails with the same exception. *)
Definition client_map {A B} (t : task) (r : resource) (p : option Z)
           (f : A -> Py.result B) (xs : list (future A))
  : run (list (future B)) :=
  (map (fun _ => Submit t r p) xs,
   Py.Ok (map (fun x => Py.bind x f) xs)).

(** [[i.result() for i in futures]]: re-raises the exception of the first
    failed future. *)
Definition results {A} (xs : list (future A)) : run (list A) :=
  lift (Py.for_each (fun x => x) xs).

End Dask.

Notation "x <~ m ;; k" := (Dask.bind m (fun x => k))
  (at level 61, m at next level, right associativity).

(* ================================================================== *)
(** ** The pipeline                                                    *)
(* ================================================================== *)

(** Python numbers ([int] and [float]) with the two operations the module
    applies to them.  [num_div] is [/]; it has no value when Python raises
    [ZeroDivisionError]. *)
Class PyNum (Num : Type) : Type := {
  num_of_Z : Z -> Num;
  num_mul : Num -> Num -> Num;
  num_div : Num -> Num -> option Num
}.

Section Model.

Context {Num Agg : Type} `{PyNum Num}.

(** One row of the geometry frame that [parse_pdf] returns. *)
Record MetaRow : Type := {
  meta_page : Z;
  meta_x1 : Num;
  meta_x2 : Num;
  meta_y1 : Num;
  meta_y2 : Num;
  meta_text : string
}.

Definition set_x1 (v : Num) (r : MetaRow) : MetaRow :=
  {| meta_page := meta_page r; meta_x1 := v; meta_x2 := meta_x2 r;
     meta_y1 := meta_y1 r; meta_y2 := meta_y2 r; meta_text := meta_text r |}.
Definition set_x2 (v : Num) (r : MetaRow) : MetaRow :=
  {| meta_page := meta_page r; meta_x1 := meta_x1 r; meta_x2 := v;
     meta_y1 := meta_y1 r; meta_y2 := meta_y2 r; meta_text := meta_text r |}.
Definition set_y1 (v : Num) (r : MetaRow) : MetaRow :=
  {| meta_page := meta_page r; meta_x1 := meta_x1 r; meta_x2 := meta_x2 r;
     meta_y1 := v; meta_y2 := meta_y2 r; meta_text := meta_text r |}.
Definition set_y2 (v : Num) (r : MetaRow) : MetaRow :=
  {| meta_page := meta_page r; meta_x1 := meta_x1 r; meta_x2 := meta_x2 r;
     meta_y1 := meta_y1 r; meta_y2 := v; meta_text := meta_text r |}.

(** [(bb, cls, text)]: a box, its (score, class) pairs, its text. *)
Definition Detection : Type :=
  (list Num * list (Num * string) * string)%type.

(** An entry of [xgboost_content]; the collector reads the second and the
    fourth component. *)
Definition XgbEntry : Type := (list Num * string * string * Num)%type.

(** The dictionary pickled for one page.  The rasteriser writes the first
    eight keys; [content] and [xgboost_content] are set by later stages
    and are [None] while the key is absent. *)
Record Obj : Type := {
  obj_orig_w : Num;
  obj_orig_h : Num;
  obj_dataset_id : string;
  obj_pdf_name : string;
  obj_meta : option (list MetaRow);
  obj_dims : list Z;
  obj_pdf_limit : option (list Num);
  obj_page_num : Z;
  obj_content : option (list Detection);
  obj_xgboost_content : option (list XgbEntry)
}.

(** What [pdf_to_images] appends for a page: the triple that names the
    pickle it wrote (carried here with the pickled dictionary), or the
    dictionary itself when there is no directory. *)
Inductive PageItem : Type :=
| Pickled (tmp_dir pdf_name : string) (page_num : Z) (pickled : Obj)
| InMemory (obj : Obj).

Definition item_obj (it : PageItem) : Obj :=
  match it with
  | Pickled _ _ _ o => o
  | InMemory o => o
  end.

(** [final_obj] of the collector loop. *)
Record Row : Type := {
  row_pdf_name : string;
  row_dataset_id : string;
  row_page_num : Z;
  row_bounding_box : list Num;
  row_classes : list string;
  row_scores : list Num;
  row_content : string;
  row_postprocess_cls : option string;
  row_postprocess_score : option Num
}.

(** A row of [result_df] once the two derived columns are added. *)
Record ResultRow : Type := {
  row : Row;
  detect_cls : string;
  detect_score : Num
}.

(** The functions [ingest.py] imports from the rest of the package and
    from its libraries. *)
Record World : Type := {
  get_pdf_names : string -> list string;
  parse_pdf : string -> Py.result (option (list MetaRow) * option (list Num));
  (** [subprocess.run(argv)]: the return code, unless the program cannot
      be started. *)
  subprocess_run : list string -> Py.result Z;
  (** The entries of the image directory when it is scanned after the
      [gs] run for the given file. *)
  scandir : string -> string -> list string;
  (** [Image.open(...).convert('RGB').size] for the file at a path. *)
  image_open : string -> Py.result (Z * Z);
  (** [img_size] of [resize_png(img, return_size=True)]. *)
  resize_png : Z * Z -> Z * Z;
  propose_and_pad : bool -> PageItem -> Py.result Obj;
  detect : Obj -> Py.result Obj;
  regroup : Obj -> Py.result Obj;
  pool_text : bool -> Obj -> Py.result Obj;
  xgboost_postprocess : Obj -> Py.result Obj;
  rules_postprocess : Obj -> Py.result Obj;
  aggregate_router : list ResultRow -> string -> Py.result Agg
}.

Variable W : World.

(** *** Frame operations used on the geometry frame *)

(** [meta2.page == k] *)
Definition series_eq (s : list Z) (k : Z) : list bool :=
  map (fun v => Z.eqb v k) s.

(** [meta2.x1 * scale] *)
Definition series_mul (s : list Num) (k : Num) : list Num :=
  map (fun v => num_mul v k) s.

(** [meta2.loc[mask, column] = values]: rows under the mask take the value
    at their own index. *)
Fixpoint loc_assign (mask : list bool) (set : Num -> MetaRow -> MetaRow)
         (values : list Num) (df : list MetaRow) : list MetaRow :=
  match df, mask, values with
  | r :: df', b :: mask', v :: values' =>
      (if b then set v r else r) :: loc_assign mask' set values' df'
  | _, _, _ => df
  end.

(** [limit[i]] *)
Definition subscript (limit : option (list Num)) (i : nat) : Py.result Num :=
  match limit with
  | None => Py.Raise (Py.TypeError "'NoneType' object is not subscriptable")
  | Some l => Py.getitem l i
  end.

Definition true_div (a b : Num) : Py.result Num :=
  match num_div a b with
  | Some q => Py.Ok q
  | None => Py.Raise Py.ZeroDivisionError
  end.

(** Lines 242-249: the copy of [meta] with the boxes of page
    [page_num - 1] scaled.  The trip through [to_dict] and JSON changes
    the container, not the numbers. *)
Definition rescale_meta (meta : list MetaRow) (page_num : Z)
           (scale_w scale_h : Num) : list MetaRow :=
  let on_page m := series_eq (map meta_page m) (page_num - 1) in
  let meta2 := meta in
  let meta2 := loc_assign (on_page meta2) set_x1
                 (series_mul (map meta_x1 meta2) scale_w) meta2 in
  let meta2 := loc_assign (on_page meta2) set_x2
                 (series_mul (map meta_x2 meta2) scale_w) meta2 in
  let meta2 := loc_assign (on_page meta2) set_y1
                 (series_mul (map meta_y1 meta2) scale_h) meta2 in
  let meta2 := loc_assign (on_page meta2) set_y2
                 (series_mul (map meta_y2 meta2) scale_h) meta2 in
  meta2.

(** *** [Ingest.pdf_to_images] *)

Definition dquote : string := String (ascii_of_nat 34) EmptyString.

(** The command of lines 208-216. *)
Definition gs_argv (tmp_dir pdf_name filename : string) : list string :=
  [ "gs"; "-dBATCH"; "-dNOPAUSE"; "-sDEVICE=png16m";
    "-dGraphicsAlphaBits=4"; "-dTextAlphaBits=4"; "-r600";
    ("-sOutputFile=" ++ dquote ++ tmp_dir ++ "/" ++ pdf_name ++ "_%d"
       ++ dquote)%string;
    filename ].

(** The file that the output template [<pdf_name>_%d] names for page
    [k]. *)
Definition gs_page_file (pdf_name : string) (k : nat) : string :=
  (pdf_name ++ "_" ++ Py.decimal k)%string.

(** The pattern of line 218, without the directory. *)
Definition page_pattern (pdf_name : string) : string :=
  (pdf_name ++ "_?")%string.

(** Lines 220-223. *)
Definition page_num_of (image : string) : Py.result Z :=
  match Py.last_char image with
  | None => Py.Raise (Py.IndexError "string index out of range")
  | Some c =>
      match Py.int_of_char c with
      | Py.Ok n => Py.Ok n
      | Py.Raise (Py.ValueError _) => Py.Raise (Py.Exception image)
      | Py.Raise e => Py.Raise e
      end
  end.

(** The body of the loop over the rasterised pages, lines 220-259. *)
Definition page_object (dataset_id : string) (tmp_dir : option string)
           (pdf_name : string) (meta : option (list MetaRow))
           (limit : option (list Num)) (image : string)
  : Py.result PageItem :=
  page_num <- page_num_of image ;;
  size <- image_open W image ;;
  let '(img_w, img_h) := size in
  let '(w, h) := resize_png W size in
  let dims := [0; 0; w; h]%Z in
  geometry <-
    match meta with
    | Some meta =>
        orig_w <- subscript limit 2 ;;
        orig_h <- subscript limit 3 ;;
        scale_w <- true_div (num_of_Z w) orig_w ;;
        scale_h <- true_div (num_of_Z h) orig_h ;;
        Py.Ok (orig_w, orig_h,
               Some (rescale_meta meta page_num scale_w scale_h))
    | None => Py.Ok (num_of_Z img_w, num_of_Z img_h, None)
    end ;;
  let '(orig_w, orig_h, meta2) := geometry in
  let obj := {| obj_orig_w := orig_w; obj_orig_h := orig_h;
                obj_dataset_id := dataset_id; obj_pdf_name := pdf_name;
                obj_meta := meta2; obj_dims := dims;
                obj_pdf_limit := limit; obj_page_num := page_num;
                obj_content := None; obj_xgboost_content := None |} in
  Py.Ok match tmp_dir with
        | Some d => Pickled d pdf_name page_num obj
        | None => InMemory obj
        end.

Definition pdf_to_images (dataset_id : string) (tmp_dir : option string)
           (filename : option string)
  : Py.result (option (list PageItem)) :=
  match filename with
  | None => Py.Ok None
  | Some filename =>
      let pdf_name := Py.basename filename in
      match parse_pdf W filename with
      | Py.Raise (Py.TypeError _) => Py.Ok (Some [])
      | Py.Raise _ => Py.Ok (Some [])
      | Py.Ok (meta, limit) =>
          _ <- subprocess_run W
                 (gs_argv (Py.fstr tmp_dir) pdf_name filename) ;;
          let names :=
            Glob.glob (Py.fstr tmp_dir)
                      (scandir W (Py.fstr tmp_dir) filename)
                      (page_pattern pdf_name) in
          objs <- Py.for_each
                    (page_object dataset_id tmp_dir pdf_name meta limit)
                    names ;;
          Py.Ok (Some objs)
      end
  end.

(** *** The [Ingest] object *)

(** The attributes [__init__] sets.  [images_tmp] exists only when a tmp
    directory was given. *)
Record Ingest : Type := {
  client : string;
  use_xgboost_postprocess : bool;
  use_rules_postprocess : bool;
  use_semantic_detection : bool;
  tmp_dir : option string;
  images_tmp : option string
}.

(** [Ingest.__init__]; a client that is not passed in is opened on the
    scheduler address. *)
Definition __init__ (scheduler_address : string)
           (use_semantic_detection : bool) (client : option string)
           (tmp_dir : option string)
           (use_xgboost_postprocess use_rules_postprocess : bool)
  : Ingest :=
  {| client := match client with
               | Some c => c
               | None => scheduler_address
               end;
     use_xgboost_postprocess := use_xgboost_postprocess;
     use_rules_postprocess := use_rules_postprocess;
     use_semantic_detection := use_semantic_detection;
     tmp_dir := tmp_dir;
     images_tmp := match tmp_dir with
                   | Some d => Some (Py.path_join d "images")
                   | None => None
                   end |}.

(** [self.images_tmp] *)
Definition get_images_tmp (self : Ingest) : Py.result string :=
  match images_tmp self with
  | Some d => Py.Ok d
  | None => Py.Raise (Py.AttributeError "images_tmp")
  end.

(** *** Lines 71-79: rasterise every document, flatten the pages *)

(** [[i for i in images if i is not None]] *)
Fixpoint not_none {A} (xs : list (option A)) : list A :=
  match xs with
  | [] => []
  | Some x :: xs' => x :: not_none xs'
  | None :: xs' => not_none xs'
  end.

Definition rasterize (self : Ingest) (pdf_directory dataset_id : string)
  : Dask.run (list PageItem) :=
  let pdfnames := get_pdf_names W pdf_directory in
  images_tmp <~ Dask.lift (get_images_tmp self) ;;
  images <~ Dask.submit_each
              (Dask.T_pdf_to_images dataset_id images_tmp) Dask.process
              (fun pdf => pdf_to_images dataset_id (Some images_tmp)
                                        (Some pdf))
              pdfnames ;;
  images <~ Dask.results images ;;
  let images := not_none images in
  let images := List.concat images in
  Dask.ret images.

(** *** Lines 81-91: the stage chain *)

Definition stage_chain (self : Ingest) (visualize_proposals skip_ocr : bool)
           (images : list PageItem) : Dask.run (list (Dask.future Obj)) :=
  images <~ Dask.client_map (Dask.T_propose_and_pad visualize_proposals)
              Dask.process (Some 8%Z)
              (propose_and_pad W visualize_proposals)
              (Dask.ready images) ;;
  if use_semantic_detection self then
    images <~ Dask.client_map Dask.T_detect Dask.GPU (Some 8%Z)
                (detect W) images ;;
    images <~ Dask.client_map Dask.T_regroup Dask.process None
                (regroup W) images ;;
    images <~ Dask.client_map (Dask.T_pool_text skip_ocr) Dask.process None
                (pool_text W skip_ocr) images ;;
    if use_xgboost_postprocess self then
      images <~ Dask.client_map Dask.T_xgboost_postprocess Dask.process
                  None (xgboost_postprocess W) images ;;
      if use_rules_postprocess self then
        Dask.client_map Dask.T_rules_postprocess Dask.process None
          (rules_postprocess W) images
      else Dask.ret images
    else Dask.ret images
  else Dask.ret images.

(** *** Lines 94-116: the collector loop *)

(** Lines 99-115 for the detection at index [ind] of [obj]. *)
Definition final_obj (obj : Obj) (ind : nat) (c : Detection)
  : Py.result Row :=
  let '(bb, cls, text) := c in
  unzipped <- Py.zip_star cls ;;
  let '(scores, classes) := unzipped in
  post <-
    match obj_xgboost_content obj with
    | Some xgboost_content =>
        entry <- Py.getitem xgboost_content ind ;;
        let '(_, postprocess_cls, _, postprocess_score) := entry in
        Py.Ok (Some postprocess_cls, Some postprocess_score)
    | None => Py.Ok (None, None)
    end ;;
  let '(postprocess_cls, postprocess_score) := post in
  Py.Ok {| row_pdf_name := obj_pdf_name obj;
           row_dataset_id := obj_dataset_id obj;
           row_page_num := obj_page_num obj;
           row_bounding_box := bb;
           row_classes := classes;
           row_scores := scores;
           row_content := text;
           row_postprocess_cls := postprocess_cls;
           row_postprocess_score := postprocess_score |}.

(** The rows one terminal work item appends to [results]. *)
Definition collect_item (obj : Obj) : Py.result (list Row) :=
  match obj_content obj with
  | None => Py.Raise (Py.KeyError "content")
  | Some content =>
      Py.for_each (fun ic => final_obj obj (fst ic) (snd ic))
                  (Py.enumerate content)
  end.

Definition collect (images : list Obj) : Py.result (list Row) :=
  per_item <- Py.for_each collect_item images ;;
  Py.Ok (List.concat per_item).

(** *** Lines 117-119: the frame and its derived columns *)

(** [df[name]] for a frame built from a list of dictionaries: a frame
    built from the empty list has no columns. *)
Definition column {A} (name : string) (get : Row -> A) (df : list Row)
  : Py.result (list A) :=
  match df with
  | [] => Py.Raise (Py.KeyError name)
  | _ => Py.Ok (map get df)
  end.

Definition with_detect_columns (results : list Row)
  : Py.result (list ResultRow) :=
  classes <- column "classes" row_classes results ;;
  detect_cls <- Py.for_each Py.getitem0 classes ;;
  scores <- column "scores" row_scores results ;;
  detect_score <- Py.for_each Py.getitem0 scores ;;
  Py.Ok (map (fun rcs =>
                {| row := fst rcs;
                   detect_cls := fst (snd rcs);
                   detect_score := snd (snd rcs) |})
             (combine results (combine detect_cls detect_score))).

(** *** Lines 120-123: the aggregations *)

Fixpoint aggregate_all (result_df : list ResultRow)
         (dataset_id result_path : string) (aggregations : list string)
  : Dask.run unit :=
  match aggregations with
  | [] => Dask.ret tt
  | aggregation :: rest =>
      aggregate_df <~ Dask.lift (aggregate_router W result_df aggregation) ;;
      let name := (dataset_id ++ "_" ++ aggregation ++ ".parquet")%string in
      _ <~ Dask.emit (Dask.ToParquet (Py.path_join result_path name)) ;;
      aggregate_all result_df dataset_id result_path rest
  end.

(** *** [Ingest._ingest_local]

    [build_frame] is lines 71-119, up to the frame with its derived
    columns; [_ingest_local] goes on with the aggregations and the
    output.  The method returns nothing; the value here is [result_df],
    the frame it writes at line 124. *)
Definition build_frame (self : Ingest) (pdf_directory dataset_id : string)
           (visualize_proposals skip_ocr : bool)
  : Dask.run (list ResultRow) :=
  images <~ rasterize self pdf_directory dataset_id ;;
  images <~ stage_chain self visualize_proposals skip_ocr images ;;
  images <~ Dask.results images ;;
  results <~ Dask.lift (collect images) ;;
  Dask.lift (with_detect_columns results).

Definition _ingest_local (self : Ingest)
           (pdf_directory dataset_id result_path : string)
           (visualize_proposals aggregate skip_ocr : bool)
           (aggregations : list string) : Dask.run (list ResultRow) :=
  result_df <~ build_frame self pdf_directory dataset_id
                 visualize_proposals skip_ocr ;;
  _ <~ aggregate_all result_df dataset_id result_path aggregations ;;
  _ <~ Dask.emit (Dask.ToParquet
                    (Py.path_join result_path
                                  (dataset_id ++ ".parquet")%string)) ;;
  tmp <~ Dask.lift
           match tmp_dir self with
           | Some d => Py.Ok d
           | None => Py.Raise (Py.TypeError "rmtree: path is None")
           end ;;
  _ <~ Dask.emit (Dask.Rmtree tmp) ;;
  Dask.ret result_df.

(** *** [Ingest._ingest_distributed] *)
Definition _ingest_distributed (self : Ingest)
           (pdf_directory dataset_id : string)
  : Dask.run (list ResultRow) :=
  Dask.lift
    (Py.Raise
       (Py.NotImplementedError
          "Distributed setup currently not implemented via Ingest class. Set a tmp directory.")).

(** *** [Ingest.ingest] *)
Definition ingest (self : Ingest)
           (pdf_directory dataset_id result_path : string)
           (skip_ocr visualize_proposals : bool)
           (aggregations : list string) : Dask.run (list ResultRow) :=
  match tmp_dir self with
  | Some _ =>
      _ingest_local self pdf_directory dataset_id result_path
                    visualize_proposals false skip_ocr aggregations
  | None => _ingest_distributed self pdf_directory dataset_id
  end.

End Model.

Arguments World : clear implicits.
Arguments MetaRow : clear implicits.
Arguments Obj : clear implicits.
Arguments PageItem : clear implicits.
Arguments Row : clear implicits.
Arguments ResultRow : clear implicits.
Arguments Detection : clear implicits.
Arguments XgbEntry : clear implicits.

(* ================================================================== *)
(** ** The design document's descriptions, for comparison             *)
(* ================================================================== *)

Section Reference.

Context {Num Agg : Type} `{PyNum Num}.

(** The stage order as the design states it (steps 3 to 5): proposal;
    with semantic detection, then detection, regroup and text pooling;
    with the classifier postprocess, then that stage; with the rule
    postprocess on top, then that stage. *)
Definition spec_stage_order (visualize skip_ocr sem xgb rules : bool)
  : list Dask.task :=
  [Dask.T_propose_and_pad visualize]
  ++ (if sem
      then [Dask.T_detect; Dask.T_regroup; Dask.T_pool_text skip_ocr]
           ++ (if xgb
               then [Dask.T_xgboost_postprocess]
                    ++ (if rules then [Dask.T_rules_postprocess] else [])
               else [])
      else []).

(** The stage order for the flags of an [Ingest] object. *)
Definition order_for (self : Ingest) (visualize skip_ocr : bool)
  : list Dask.task :=
  spec_stage_order visualize skip_ocr
                   (use_semantic_detection self)
                   (use_xgboost_postprocess self)
                   (use_rules_postprocess self).

(** Detection runs on the accelerator, every other stage on a process
    slot. *)
Definition stage_resource (t : Dask.task) : Dask.resource :=
  match t with
  | Dask.T_detect => Dask.GPU
  | _ => Dask.process
  end.

Definition stage_priority (t : Dask.task) : option Z :=
  match t with
  | Dask.T_propose_and_pad _ | Dask.T_detect => Some 8%Z
  | _ => None
  end.

(** One block of submissions: the stage, once per work item. *)
Definition stage_block (n : nat) (t : Dask.task) : list Dask.event :=
  repeat (Dask.Submit t (stage_resource t) (stage_priority t)) n.

Definition stage_fn (W : World Num Agg) (t : Dask.task)
  : Obj Num -> Py.result (Obj Num) :=
  match t with
  | Dask.T_detect => detect W
  | Dask.T_regroup => regroup W
  | Dask.T_pool_text skip_ocr => pool_text W skip_ocr
  | Dask.T_xgboost_postprocess => xgboost_postprocess W
  | Dask.T_rules_postprocess => rules_postprocess W
  | _ => @Py.Ok _
  end.

(** One work item taken through the proposal stage and then through the
    given later stages, in order. *)
Definition through_stages (W : World Num Agg) (visualize : bool)
           (later : list Dask.task) (it : PageItem Num)
  : Py.result (Obj Num) :=
  fold_left (fun acc t => Py.bind acc (stage_fn W t)) later
            (propose_and_pad W visualize it).

Definition ran (t : Dask.task) (log : list Dask.event) : Prop :=
  exists r p, In (Dask.Submit t r p) log.

(** The row the design asks of the collector for the detection at index
    [ind] of a work item. *)
Definition spec_row (obj : Obj Num) (ind : nat) (c : Detection Num)
  : Row Num :=
  let '(bb, cls, text) := c in
  {| row_pdf_name := obj_pdf_name obj;
     row_dataset_id := obj_dataset_id obj;
     row_page_num := obj_page_num obj;
     row_bounding_box := bb;
     row_classes := map snd cls;
     row_scores := map fst cls;
     row_content := text;
     row_postprocess_cls :=
       match obj_xgboost_content obj with
       | Some post => option_map (fun e : XgbEntry Num => snd (fst (fst e)))
                                 (nth_error post ind)
       | None => None
       end;
     row_postprocess_score :=
       match obj_xgboost_content obj with
       | Some post => option_map (fun e : XgbEntry Num => snd e)
                                 (nth_error post ind)
       | None => None
       end |}.

(** A detection the collector can turn into a row. *)
Definition has_classes (c : Detection Num) : Prop := snd (fst c) <> [].

(** The postprocess output, when there is one, has an entry for every
    detection. *)
Definition postprocess_covers (obj : Obj Num) (n : nat) : Prop :=
  match obj_xgboost_content obj with
  | Some post => (n <= List.length post)%nat
  | None => True
  end.

(** The box of one geometry row scaled per axis. *)
Definition scale_box (scale_w scale_h : Num) (r : MetaRow Num)
  : MetaRow Num :=
  {| meta_page := meta_page r;
     meta_x1 := num_mul (meta_x1 r) scale_w;
     meta_x2 := num_mul (meta_x2 r) scale_w;
     meta_y1 := num_mul (meta_y1 r) scale_h;
     meta_y2 := num_mul (meta_y2 r) scale_h;
     meta_text := meta_text r |}.

(** The geometry frame as the design wants it in the object of page
    [page_num]: the boxes of that page (numbered from zero in the frame)
    scaled, the other rows as they were. *)
Definition scaled_on_page (meta : list (MetaRow Num)) (page_num : Z)
           (scale_w scale_h : Num) : list (MetaRow Num) :=
  map (fun r => if Z.eqb (meta_page r) (page_num - 1)
                then scale_box scale_w scale_h r else r) meta.

Definition parses (W : World Num Agg) (filename : string) : bool :=
  match parse_pdf W filename with
  | Py.Ok _ => true
  | Py.Raise _ => false
  end.

(** The same installation with another directory listing. *)
Definition with_pdf_names (W : World Num Agg)
           (names : string -> list string) : World Num Agg :=
  {| get_pdf_names := names;
     parse_pdf := parse_pdf W;
     subprocess_run := subprocess_run W;
     scandir := scandir W;
     image_open := image_open W;
     resize_png := resize_png W;
     propose_and_pad := propose_and_pad W;
     detect := detect W;
     regroup := regroup W;
     pool_text := pool_text W;
     xgboost_postprocess := xgboost_postprocess W;
     rules_postprocess := rules_postprocess W;
     aggregate_router := aggregate_router W |}.

(** The same installation with a [gs] that exits with another status
    whenever it can be started. *)
Definition with_exit_status (W : World Num Agg) (status : Z)
  : World Num Agg :=
  {| get_pdf_names := get_pdf_names W;
     parse_pdf := parse_pdf W;
     subprocess_run := fun argv =>
                         _ <- subprocess_run W argv ;; Py.Ok status;
     scandir := scandir W;
     image_open := image_open W;
     resize_png := resize_png W;
     propose_and_pad := propose_and_pad W;
     detect := detect W;
     regroup := regroup W;
     pool_text := pool_text W;
     xgboost_postprocess := xgboost_postprocess W;
     rules_postprocess := rules_postprocess W;
     aggregate_router := aggregate_router W |}.

(** A run that raises before it submitted any task: failing at start-up,
    in the design's words. *)
Definition fails_before_work {A} (r : Dask.run A) : Prop :=
  (exists e, snd r = Py.Raise e)
  /\ forall t res p, ~ In (Dask.Submit t res p) (fst r).

(** The documents of a directory that [parse_pdf] accepts. *)
Definition parsable_names (W : World Num Agg) (pdf_directory : string)
  : list string :=
  filter (parses W) (get_pdf_names W pdf_directory).

(** The same installation, its directories stripped of the documents
    that do not parse. *)
Definition without_unparsable (W : World Num Agg) : World Num Agg :=
  with_pdf_names W (parsable_names W).

End Reference.

(* ================================================================== *)
(** ** A small concrete installation                                   *)
(* ================================================================== *)

Module Demo.

Import QArith.
Local Open Scope Q_scope.

(** Exact rationals stand in for Python numbers. *)
#[global] Instance Q_num : PyNum Q := {|
  num_of_Z := inject_Z;
  num_mul := Qmult;
  num_div := fun a b => if Qeq_bool b 0 then None else Some (Qdiv a b)
|}.

Definition Agg : Type := nat.

(** Two text boxes on the first page, one on the second. *)
Definition meta_a : list (MetaRow Q) :=
  [ {| meta_page := 0; meta_x1 := 72; meta_x2 := 540;
       meta_y1 := 72; meta_y2 := 100; meta_text := "Title" |};
    {| meta_page := 0; meta_x1 := 72; meta_x2 := 306;
       meta_y1 := 120; meta_y2 := 700; meta_text := "Body" |};
    {| meta_page := 1; meta_x1 := 100; meta_x2 := 500;
       meta_y1 := 90; meta_y2 := 400; meta_text := "Table" |} ].

Definition limit_a : list Q := [0; 0; 612; 792].

(** [in/a.pdf] carries geometry, [in/b.pdf] is corrupt, [in/c.pdf] and
    [in/long.pdf] parse without geometry. *)
Definition parse (filename : string)
  : Py.result (option (list (MetaRow Q)) * option (list Q)) :=
  if String.eqb filename "in/a.pdf" then Py.Ok (Some meta_a, Some limit_a)
  else if String.eqb filename "in/b.pdf"
       then Py.Raise (Py.Exception "No /Root object")
       else Py.Ok (None, None).

(** [gs] writes one file per page: two for [a.pdf], one for [c.pdf],
    twelve for [long.pdf]. *)
Definition pages (filename : string) : nat :=
  if String.eqb filename "in/a.pdf" then 2%nat
  else if String.eqb filename "in/c.pdf" then 1%nat
  else if String.eqb filename "in/long.pdf" then 12%nat
  else 0%nat.

Definition entries (tmp_dir filename : string) : list string :=
  map (gs_page_file (Py.basename filename)) (seq 1 (pages filename)).

Definition with_content (o : Obj Q) (c : option (list (Detection Q)))
  : Obj Q :=
  {| obj_orig_w := obj_orig_w o; obj_orig_h := obj_orig_h o;
     obj_dataset_id := obj_dataset_id o; obj_pdf_name := obj_pdf_name o;
     obj_meta := obj_meta o; obj_dims := obj_dims o;
     obj_pdf_limit := obj_pdf_limit o; obj_page_num := obj_page_num o;
     obj_content := c; obj_xgboost_content := obj_xgboost_content o |}.

Definition with_xgboost (o : Obj Q) (x : option (list (XgbEntry Q)))
  : Obj Q :=
  {| obj_orig_w := obj_orig_w o; obj_orig_h := obj_orig_h o;
     obj_dataset_id := obj_dataset_id o; obj_pdf_name := obj_pdf_name o;
     obj_meta := obj_meta o; obj_dims := obj_dims o;
     obj_pdf_limit := obj_pdf_limit o; obj_page_num := obj_page_num o;
     obj_content := obj_content o; obj_xgboost_content := x |}.

(** The detector finds a heading and a paragraph on every page. *)
Definition detections : list (Detection Q) :=
  [ ([10; 20; 300; 60], [(9 # 10, "Section Header"); (1 # 10, "Body Text")],
     "Introduction");
    ([10; 80; 300; 400], [(7 # 10, "Body Text"); (3 # 10, "Figure")],
     "Lorem ipsum") ].

Definition xgboost (o : Obj Q) : Py.result (Obj Q) :=
  match obj_content o with
  | Some cs =>
      Py.Ok (with_xgboost o
               (Some (map (fun c : Detection Q =>
                             let '(bb, _, text) := c in
                             (bb, "Body Text", text, 8 # 10)) cs)))
  | None => Py.Raise (Py.KeyError "content")
  end.

Definition router (df : list (ResultRow Q)) (name : string)
  : Py.result Agg :=
  if String.eqb name "pdfs" then Py.Ok (List.length df)
  else Py.Raise (Py.KeyError name).

Definition build
           (names : list string)
           (parse_fn : string ->
                       Py.result (option (list (MetaRow Q))
                                  * option (list Q)))
           (entries_fn : string -> string -> list string)
           (open_fn : string -> Py.result (Z * Z))
           (detect_fn : Obj Q -> Py.result (Obj Q))
  : World Q Agg :=
  {| get_pdf_names := fun _ => names;
     parse_pdf := parse_fn;
     subprocess_run := fun _ => Py.Ok 0%Z;
     scandir := entries_fn;
     image_open := open_fn;
     resize_png := fun _ => (1920, 2485)%Z;
     propose_and_pad := fun _ it => Py.Ok (item_obj it);
     detect := detect_fn;
     regroup := fun o => Py.Ok o;
     pool_text := fun _ o => Py.Ok o;
     xgboost_postprocess := xgboost;
     rules_postprocess := fun o => Py.Ok o;
     aggregate_router := router |}.

Definition batch : list string := ["in/a.pdf"; "in/b.pdf"; "in/c.pdf"].

Definition decode (path : string) : Py.result (Z * Z) :=
  Py.Ok (5100, 6600)%Z.

Definition detector (o : Obj Q) : Py.result (Obj Q) :=
  Py.Ok (with_content o (Some detections)).

(** Three documents, the second of which does not parse. *)
Definition world : World Q Agg :=
  build batch parse entries decode detector.

(** Only the corrupt document. *)
Definition world_all_corrupt : World Q Agg :=
  build ["in/b.pdf"] parse entries decode detector.

(** A twelve-page document. *)
Definition world_long : World Q Agg :=
  build ["in/long.pdf"] parse entries decode detector.

(** The second document parses, but the page file [gs] left for it
    cannot be decoded. *)
Definition parse_lenient (filename : string)
  : Py.result (option (list (MetaRow Q)) * option (list Q)) :=
  if String.eqb filename "in/a.pdf" then Py.Ok (Some meta_a, Some limit_a)
  else Py.Ok (None, None).

Definition entries_one_each (tmp_dir filename : string) : list string :=
  [gs_page_file (Py.basename filename) 1].

Definition decode_b_truncated (path : string) : Py.result (Z * Z) :=
  if String.eqb path "/tmp/cosmos/images/b.pdf_1"
  then Py.Raise (Py.OSError "cannot identify image file")
  else Py.Ok (5100, 6600)%Z.

Definition world_undecodable : World Q Agg :=
  build batch parse_lenient entries_one_each decode_b_truncated detector.

(** The detector fails on the page of the third document. *)
Definition detector_fails_on_c (o : Obj Q) : Py.result (Obj Q) :=
  if String.eqb (obj_pdf_name o) "c.pdf"
  then Py.Raise (Py.Exception "CUDA out of memory")
  else detector o.

Definition world_failing_stage : World Q Agg :=
  build batch parse entries decode detector_fails_on_c.

(** [gs] left a file for the third document whose name does not end in a
    digit. *)
Definition entries_bad_suffix (tmp_dir filename : string) : list string :=
  if String.eqb filename "in/c.pdf" then ["c.pdf_x"]
  else entries tmp_dir filename.

Definition world_bad_suffix : World Q Agg :=
  build batch parse entries_bad_suffix decode detector.

Definition self (sem xgb rules : bool) : Ingest :=
  __init__ "tcp://scheduler:8786" sem None (Some "/tmp/cosmos") xgb rules.

(** A full run: every stage, one aggregation. *)
Definition full_run : Dask.run (list (ResultRow Q)) :=
  ingest world (self true true true) "in" "ds" "out" true false ["pdfs"].

Definition frame : list (ResultRow Q) :=
  match snd full_run with
  | Py.Ok df => df
  | Py.Raise _ => []
  end.

(** The pages of the document that carries geometry. *)
Definition pages_a : list (PageItem Q) :=
  match pdf_to_images world "ds" (Some "/tmp/cosmos/images")
                      (Some "in/a.pdf") with
  | Py.Ok (Some items) => items
  | _ => []
  end.

Definition pages_long : list (PageItem Q) :=
  match pdf_to_images world_long "ds" (Some "/tmp/cosmos/images")
                      (Some "in/long.pdf") with
  | Py.Ok (Some items) => items
  | _ => []
  end.

(** Runs that the design would reject at start-up. *)
Definition run_rules_only : Dask.run (list (ResultRow Q)) :=
  ingest world (self true false true) "in" "ds" "out" true false [].

Definition run_bogus : Dask.run (list (ResultRow Q)) :=
  ingest world (self true true true) "in" "ds" "out" true false ["bogus"].

(** Runs in which one page of one document goes wrong. *)
Definition run_undecodable : Dask.run (list (ResultRow Q)) :=
  ingest world_undecodable (self true true true) "in" "ds" "out" true
         false [].

Definition run_failing_stage : Dask.run (list (ResultRow Q)) :=
  ingest world_failing_stage (self true true true) "in" "ds" "out" true
         false [].

Definition run_bad_suffix : Dask.run (list (ResultRow Q)) :=
  ingest world_bad_suffix (self true true true) "in" "ds" "out" true
         false [].

Definition run_all_corrupt : Dask.run (list (ResultRow Q)) :=
  ingest world_all_corrupt (self true true true) "in" "ds" "out" true
         false [].

(** The work items of the batch, and the page of the third document. *)
Definition work_items : list (PageItem Q) :=
  match snd (rasterize world_failing_stage (self true true true)
                       "in" "ds") with
  | Py.Ok items => items
  | Py.Raise _ => []
  end.

Definition blank_obj : Obj Q :=
  {| obj_orig_w := 612; obj_orig_h := 792; obj_dataset_id := "ds";
     obj_pdf_name := "a.pdf"; obj_meta := None;
     obj_dims := [0; 0; 1920; 2485]%Z; obj_pdf_limit := None;
     obj_page_num := 1%Z; obj_content := None;
     obj_xgboost_content := None |}.

Definition page_c : PageItem Q := nth 2 work_items (InMemory blank_obj).

(** A terminal work item with two detections and their postprocess
    output. *)
Definition obj_done : Obj Q :=
  with_xgboost (with_content blank_obj (Some detections))
    (Some [ ([10; 20; 300; 60], "Section Header", "Introduction", 8 # 10);
            ([10; 80; 300; 400], "Body Text", "Lorem ipsum", 6 # 10) ]).

(** A detection without any (score, class) pair. *)
Definition obj_no_classes : Obj Q :=
  with_content blank_obj (Some [ ([10; 20; 300; 60], [], "Introduction") ]).

(** Two detections, postprocess output for the first only. *)
Definition obj_short_post : Obj Q :=
  with_xgboost (with_content blank_obj (Some detections))
    (Some [ ([10; 20; 300; 60], "Section Header", "Introduction",
             8 # 10) ]).

End Demo.

(* ================================================================== *)
(** ** [Ingest.remove_watermarks] and [Ingest._remove_watermark]       *)
(* ================================================================== *)

Module Pike.

(** What can end the body of the [try] of [_remove_watermark]: the two
    classes it has a handler for, and everything else. *)
Inductive exc : Type :=
| PdfError (msg : string)
| RuntimeError (msg : string)
| Other (e : Py.exc).

Inductive result (A : Type) : Type :=
| Ok (a : A)
| Raise (e : exc).
Arguments Ok {A} a.
Arguments Raise {A} e.

Definition bind {A B} (r : result A) (k : A -> result B) : result B :=
  match r with
  | Ok a => k a
  | Raise e => Raise e
  end.

Fixpoint for_each {A B} (f : A -> result B) (xs : list A)
  : result (list B) :=
  match xs with
  | [] => Ok []
  | x :: xs' =>
      bind (f x) (fun y =>
      bind (for_each f xs') (fun ys => Ok (y :: ys)))
  end.

(** One instruction of a content stream: [(operands, operator)], the
    operator as [str(operator)] shows it. *)
Definition Instruction : Type := (list string * string)%type.

(** A page of the opened document: what [parse_content_stream] makes of
    it, and its [Resources] entry as it is copied into the new document
    (line 178); either may raise. *)
Record SrcPage : Type := {
  content_stream : result (list Instruction);
  resources : result string
}.

(** A page of the document that is built: what is unparsed into
    [Contents], and the copied [Resources]. *)
Record NewPage : Type := {
  Contents : list Instruction;
  Resources : string
}.

(** [pikepdf] and the directory listing: [pdf_open] is
    [pikepdf.Pdf.open] with the pages of the document, [pdf_save] is
    lines 179-180 (dropping the unreferenced resources and saving), and
    [listdir] is what [glob] reads of a directory. *)
Record World : Type := {
  pdf_open : string -> result (list SrcPage);
  pdf_save : string -> list NewPage -> result unit;
  listdir : string -> list string
}.

Inductive event : Type :=
| LogError (msg : string)
| Save (path : string) (pdf : list NewPage).

(** Lines 163-174: the instructions that are kept.  [BDC] is the flag of
    the loop. *)
Fixpoint strip_marked (BDC : bool) (stream : list Instruction)
  : list Instruction :=
  match stream with
  | [] => []
  | (operands, operator) :: rest =>
      if String.eqb operator "BDC" then strip_marked true rest
      else if BDC then
             if String.eqb operator "EMC" then strip_marked false rest
             else strip_marked true rest
           else (operands, operator) :: strip_marked false rest
  end.

(** Lines 163-178 for one page. *)
Definition clean_page (page : SrcPage) : result NewPage :=
  bind (content_stream page) (fun stream =>
  let commands := strip_marked false stream in
  bind (resources page) (fun res =>
  Ok {| Contents := commands; Resources := res |})).

(** The body of the [try], lines 160-180. *)
Definition attempt (W : World) (filename target_directory : string)
  : result (string * list NewPage) :=
  bind (pdf_open W filename) (fun target =>
  bind (for_each clean_page target) (fun new =>
  let path := Py.path_join target_directory (Py.basename filename) in
  bind (pdf_save W path new) (fun _ =>
  Ok (path, new)))).

(** [Ingest._remove_watermark]: the events, and the value returned
    ([None] after a handled error) or the exception that leaves. *)
Definition _remove_watermark (W : World)
           (filename target_directory : string)
  : list event * Py.result (option string) :=
  match attempt W filename target_directory with
  | Ok (path, new) => ([Save path new], Py.Ok (Some filename))
  | Raise (PdfError msg) =>
      ([LogError ("Error in file: " ++ filename); LogError msg],
       Py.Ok None)
  | Raise (RuntimeError msg) =>
      ([LogError ("Error in file: " ++ filename); LogError msg],
       Py.Ok None)
  | Raise (Other e) => ([], Py.Raise e)
  end.

(** The loop of lines 152-153. *)
Fixpoint each_file (W : World) (target_directory : string)
         (pdfs : list string) : list event * Py.result unit :=
  match pdfs with
  | [] => ([], Py.Ok tt)
  | p :: rest =>
      match _remove_watermark W p target_directory with
      | (l1, Py.Ok _) =>
          let (l2, r) := each_file W target_directory rest in
          (l1 ++ l2, r)
      | (l1, Py.Raise e) => (l1, Py.Raise e)
      end
  end.

(** [Ingest.remove_watermarks] *)
Definition remove_watermarks (W : World)
           (pdf_directory target_directory : string)
  : list event * Py.result unit :=
  let pdfs := Glob.glob pdf_directory (listdir W pdf_directory) "*" in
  each_file W target_directory pdfs.

(** The same installation with another listing of the directories. *)
Definition with_listdir (W : World) (entries : string -> list string)
  : World :=
  {| pdf_open := pdf_open W; pdf_save := pdf_save W; listdir := entries |}.

(** The paths written, in order. *)
Fixpoint saved (log : list event) : list (string * list NewPage) :=
  match log with
  | [] => []
  | Save path pdf :: log' => (path, pdf) :: saved log'
  | LogError _ :: log' => saved log'
  end.

(** An order-preserving selection from a stream. *)
Inductive subsequence {A : Type} : list A -> list A -> Prop :=
| sub_nil : subsequence [] []
| sub_skip x s t : subsequence s t -> subsequence s (x :: t)
| sub_keep x s t : subsequence s t -> subsequence (x :: s) (x :: t).

End Pike.

(* ================================================================== *)
(** ** [Ingest.write_images_for_annotation]                            *)
(* ================================================================== *)

(** [str(n)] for an integer. *)
Definition str_of_Z (z : Z) : string :=
  match z with
  | Zneg p => String "-" (Py.decimal (Pos.to_nat p))
  | _ => Py.decimal (Z.to_nat z)
  end.

(** What the method does to the outside: the tasks it submits and the
    tree it removes, as before, and the files it copies. *)
Inductive shell_event : Type :=
| Client (e : Dask.event)
| Copy (src dst : string).

Section Annotation.

Context {Num Agg : Type} `{PyNum Num}.
Variable W : World Num Agg.

(** [shutil.copy(src, dst)] *)
Variable shutil_copy : string -> string -> Py.result unit.

(** Line 139: the unpacking of one element of [images] and the path
    built from it.  A dictionary does not unpack into three names. *)
Definition annotation_path (it : PageItem Num) : Py.result string :=
  match it with
  | Pickled tmp_dir pdf_name pn _ =>
      Py.Ok (tmp_dir ++ "/" ++ pdf_name ++ "_" ++ str_of_Z pn)%string
  | InMemory _ =>
      Py.Raise (Py.ValueError "too many values to unpack (expected 3)")
  end.

(** Lines 141-143 for one path. *)
Definition annotation_target (img_dir path : string) : string :=
  let bname := Py.basename path in
  let new_bname := (bname ++ ".png")%string in
  Py.path_join img_dir new_bname.

(** The loop of lines 140-143: the copies made, and whether it got
    through. *)
Fixpoint copy_all (img_dir : string) (paths : list string)
  : list shell_event * Py.result unit :=
  match paths with
  | [] => ([], Py.Ok tt)
  | path :: rest =>
      match shutil_copy path (annotation_target img_dir path) with
      | Py.Ok _ =>
          let (l, r) := copy_all img_dir rest in
          (Copy path (annotation_target img_dir path) :: l, r)
      | Py.Raise e => ([], Py.Raise e)
      end
  end.

Definition write_images_for_annotation (self : Ingest)
           (pdf_dir img_dir : string) : list shell_event * Py.result unit :=
  match rasterize W self pdf_dir "na" with
  | (log, Py.Raise e) => (map Client log, Py.Raise e)
  | (log, Py.Ok images) =>
      match Py.for_each annotation_path images with
      | Py.Raise e => (map Client log, Py.Raise e)
      | Py.Ok paths =>
          match copy_all img_dir paths with
          | (copies, Py.Raise e) =>
              (map Client log ++ copies, Py.Raise e)
          | (copies, Py.Ok _) =>
              match tmp_dir self with
              | Some d =>
                  (map Client log ++ copies ++ [Client (Dask.Rmtree d)],
                   Py.Ok tt)
              | None =>
                  (map Client log ++ copies,
                   Py.Raise (Py.TypeError "rmtree: path is None"))
              end
          end
      end
  end.

End Annotation.

(* ================================================================== *)
(** ** The shape of the table and the files of a run                   *)
(* ================================================================== *)

Section Table.

Context {Num Agg : Type} `{PyNum Num}.

(** One row per detection of a terminal work item, in detection order,
    each with the fields [final_obj] gives it (lines 98-116). *)
Definition item_rows (obj : Obj Num) : list (Row Num) :=
  match obj_content obj with
  | Some content =>
      map (fun ic => spec_row obj (fst ic) (snd ic)) (Py.enumerate content)
  | None => []
  end.

End Table.

(** The write of one aggregate table, line 123. *)
Definition aggregate_write (dataset_id result_path aggregation : string)
  : Dask.event :=
  Dask.ToParquet
    (Py.path_join result_path
                  (dataset_id ++ "_" ++ aggregation ++ ".parquet")%string).

(** The write of the main table, line 124. *)
Definition table_write (dataset_id result_path : string) : Dask.event :=
  Dask.ToParquet (Py.path_join result_path (dataset_id ++ ".parquet")%string).

(* ================================================================== *)
(** ** More concrete installations                                     *)
(* ================================================================== *)

Module DemoPike.

Import Pike.

(** A page with a watermark between [BDC] and [EMC]. *)
Definition marked_stream : list Instruction :=
  [ (["1"; "0"; "0"; "1"; "0"; "0"], "cm");
    (["/Artifact"; "<</Subtype /Watermark>>"], "BDC");
    (["/F1"; "48"], "Tf");
    (["(DRAFT)"], "Tj");
    ([], "EMC");
    (["/F2"; "11"], "Tf");
    (["(Results)"], "Tj") ].

Definition plain_stream : list Instruction :=
  [ (["/F2"; "11"], "Tf"); (["(Appendix)"], "Tj") ].

Definition good_pdf : list SrcPage :=
  [ {| content_stream := Ok marked_stream; resources := Ok "<</Font 4 0 R>>" |};
    {| content_stream := Ok plain_stream; resources := Ok "<</Font 5 0 R>>" |} ].

Definition open_pdf (filename : string) : result (list SrcPage) :=
  if String.eqb filename "in/broken.pdf"
  then Raise (PdfError "unable to find trailer dictionary")
  else Ok good_pdf.

(** What is written for [good_pdf]. *)
Definition cleaned : list NewPage :=
  [ {| Contents := [ (["1"; "0"; "0"; "1"; "0"; "0"], "cm");
                     (["/F2"; "11"], "Tf");
                     (["(Results)"], "Tj") ];
       Resources := "<</Font 4 0 R>>" |};
    {| Contents := plain_stream; Resources := "<</Font 5 0 R>>" |} ].

(** The second file cannot be read by the user who runs the job. *)
Definition open_pdf_denied (filename : string) : result (list SrcPage) :=
  if String.eqb filename "in/broken.pdf"
  then Raise (Other (Py.OSError "Permission denied"))
  else Ok good_pdf.

(** A directory with a dot file and a file that is not a PDF. *)
Definition world : World :=
  {| pdf_open := open_pdf;
     pdf_save := fun _ _ => Ok tt;
     listdir := fun _ => ["a.pdf"; ".DS_Store"; "broken.pdf"; "b.pdf"] |}.

Definition world_denied : World :=
  {| pdf_open := open_pdf_denied;
     pdf_save := fun _ _ => Ok tt;
     listdir := fun _ => ["a.pdf"; ".DS_Store"; "broken.pdf"; "b.pdf"] |}.

End DemoPike.

Module DemoMore.

Import QArith.
Local Open Scope Q_scope.

(** A document whose declared page box has no width. *)
Definition parse_flat (filename : string)
  : Py.result (option (list (MetaRow Q)) * option (list Q)) :=
  Py.Ok (Some Demo.meta_a, Some [0; 0; 0; 792]).

Definition world_flat_page : World Q Demo.Agg :=
  Demo.build ["in/a.pdf"] parse_flat Demo.entries Demo.decode Demo.detector.

(** Geometry without a page box. *)
Definition parse_no_limit (filename : string)
  : Py.result (option (list (MetaRow Q)) * option (list Q)) :=
  Py.Ok (Some Demo.meta_a, None).

Definition world_no_limit : World Q Demo.Agg :=
  Demo.build ["in/a.pdf"] parse_no_limit Demo.entries Demo.decode
             Demo.detector.

(** The detector finds nothing on any page. *)
Definition detector_blind (o : Obj Q) : Py.result (Obj Q) :=
  Py.Ok (Demo.with_content o (Some [])).

Definition world_blank_pages : World Q Demo.Agg :=
  Demo.build Demo.batch Demo.parse Demo.entries Demo.decode detector_blind.

(** Copies always succeed. *)
Definition copy_ok (src dst : string) : Py.result unit := Py.Ok tt.

(** The copy of the second page of the first document fails. *)
Definition copy_fails_once (src dst : string) : Py.result unit :=
  if String.eqb src "/tmp/cosmos/images/a.pdf_2"
  then Py.Raise (Py.OSError "No space left on device")
  else Py.Ok tt.

Definition first_page_c : string := "/tmp/cosmos/images/c.pdf_1".

End DemoMore.

Ltac in_list := repeat first [left; reflexivity | right].

(* ================================================================== *)
(** ** Properties of the pattern matcher                               *)
(* ================================================================== *)

Module GlobFacts.

Import Glob.

Lemma find_close_app p :
  find_close (p ++ one_more) = find_close p.
Proof.
  induction p as [|c p IH]; simpl; [reflexivity|].
  destruct (Ascii.eqb c "]"); [reflexivity|]. now rewrite IH.
Qed.

Lemma find_close_bound p k :
  find_close p = Some k -> (k < List.length p)%nat.
Proof.
  revert k. induction p as [|c p IH]; simpl; intros k Hk; [discriminate|].
  destruct (Ascii.eqb c "]").
  - inversion Hk. lia.
  - destruct (find_close p) as [k'|]; simpl in Hk; [|discriminate].
    inversion Hk. specialize (IH k' eq_refl). lia.
Qed.

Lemma bracket_end_app rest :
  bracket_end (rest ++ one_more) = bracket_end rest.
Proof.
  unfold bracket_end.
  destruct rest as [|c [|d rest]]; simpl.
  - reflexivity.
  - destruct (Ascii.eqb c "!"); simpl; [reflexivity|].
    destruct (Ascii.eqb c "]"); simpl; reflexivity.
  - destruct (Ascii.eqb c "!"); simpl.
    + destruct (Ascii.eqb d "]"); simpl; now rewrite find_close_app.
    + destruct (Ascii.eqb c "]"); simpl;
        destruct (Ascii.eqb d "]"); simpl; now rewrite ?find_close_app.
Qed.

Lemma bracket_end_bound rest j :
  bracket_end rest = Some j -> (j < List.length rest)%nat.
Proof.
  unfold bracket_end.
  set (j0 := match rest with
             | c :: _ => if is_char c "!" then 1%nat else 0%nat
             | [] => 0%nat
             end).
  set (j1 := match nth_error rest j0 with
             | Some c => if is_char c "]" then S j0 else j0
             | None => j0
             end).
  destruct (find_close (skipn j1 rest)) as [k|] eqn:Hk; simpl;
    [|discriminate].
  intros Heq. inversion Heq; subst. clear Heq.
  apply find_close_bound in Hk. rewrite length_skipn in Hk. lia.
Qed.

(** The tail of the pattern is read the same way whatever precedes it. *)
Lemma translate_from_app pat :
  forall skip, (skip <= List.length pat)%nat ->
    translate_from skip (pat ++ one_more)
    = translate_from skip pat ++ [Lit "_"; AnyChar].
Proof.
  induction pat as [|c rest IH]; intros skip Hskip.
  - simpl in Hskip. replace skip with 0%nat by lia. reflexivity.
  - simpl. destruct skip as [|k].
    + destruct (Ascii.eqb c "*"); [now rewrite IH by lia|].
      destruct (Ascii.eqb c "?"); [now rewrite IH by lia|].
      destruct (Ascii.eqb c "["); [|now rewrite IH by lia].
      rewrite bracket_end_app.
      destruct (bracket_end rest) as [j|] eqn:Hj; [|now rewrite IH by lia].
      apply bracket_end_bound in Hj.
      rewrite firstn_app, IH by lia.
      replace (j - List.length rest)%nat with 0%nat by lia.
      simpl. now rewrite app_nil_r.
    + apply IH. simpl in Hskip. lia.
Qed.

Lemma match_star ts name :
  match_toks (Star :: ts) name
  = match_toks ts name
    || match name with
       | [] => false
       | _ :: n' => match_toks (Star :: ts) n'
       end.
Proof. destruct name; reflexivity. Qed.

(** A name matched by a pattern that ends in an underscore and a question
    mark ends in an underscore and one more character. *)
Lemma match_toks_tail ts :
  forall name,
    match_toks (ts ++ [Lit "_"; AnyChar]) name = true ->
    exists pre c, name = pre ++ ["_"%char; c].
Proof.
  induction ts as [|t ts IH]; intros name Hm.
  - destruct name as [|a [|b [|x name]]];
      cbn [app match_toks accepts] in Hm; try discriminate;
      apply andb_true_iff in Hm as [Ha Hrest]; try discriminate.
    unfold accepts in Ha. apply Ascii.eqb_eq in Ha. subst. now exists [], b.
  - assert (Hone : forall a n',
               match_toks (ts ++ [Lit "_"; AnyChar]) n' = true ->
               exists pre c, a :: n' = pre ++ ["_"%char; c]).
    { intros a n' Hn. destruct (IH n' Hn) as (pre & c & ->).
      now exists (a :: pre), c. }
    destruct t; rewrite <- app_comm_cons in Hm.
    1,2,4: destruct name as [|a n']; cbn [match_toks] in Hm;
      [discriminate|];
      apply andb_true_iff in Hm as [_ Hm]; now apply Hone.
    induction name as [|a n' IHn].
    + rewrite match_star, orb_false_r in Hm. now apply IH.
    + rewrite match_star in Hm. apply orb_true_iff in Hm as [Hm|Hm].
      * now apply IH.
      * destruct (IHn Hm) as (pre & c & ->). now exists (a :: pre), c.
Qed.

Lemma list_ascii_of_string_app s1 s2 :
  list_ascii_of_string (s1 ++ s2)
  = list_ascii_of_string s1 ++ list_ascii_of_string s2.
Proof.
  induction s1 as [|c s1 IH]; simpl; [reflexivity|]. now rewrite IH.
Qed.

Lemma string_of_list_ascii_app l1 l2 :
  string_of_list_ascii (l1 ++ l2)
  = (string_of_list_ascii l1 ++ string_of_list_ascii l2)%string.
Proof.
  induction l1 as [|c l1 IH]; simpl; [reflexivity|]. now rewrite IH.
Qed.

Lemma fnmatch_one_more name pdf_name :
  fnmatch name (page_pattern pdf_name) = true ->
  exists pre c,
    list_ascii_of_string name = pre ++ ["_"%char; c].
Proof.
  unfold fnmatch, translate, page_pattern.
  rewrite list_ascii_of_string_app.
  change (list_ascii_of_string "_?") with one_more.
  rewrite translate_from_app by lia. apply match_toks_tail.
Qed.

Lemma glob1_In entries pattern name :
  In name (glob1 entries pattern) ->
  In name entries /\ fnmatch name pattern = true.
Proof.
  unfold glob1. intros Hin. apply filter_In in Hin as [Hin Hm].
  split; [|exact Hm].
  destruct (ishidden pattern); [exact Hin|].
  now apply filter_In in Hin.
Qed.

(** *** Decimal numerals *)

Lemma string_of_uint_digits (u : uint) :
  Forall (fun c => Py.is_digit c = true)
         (list_ascii_of_string (NilEmpty.string_of_uint u)).
Proof.
  induction u; simpl; constructor; auto.
Qed.

Lemma to_uint_two_digits k :
  (10 <= k)%nat ->
  exists a b rest, Py.decimal k = String a (String b rest).
Proof.
  intros Hk. unfold Py.decimal.
  pose proof (Unsigned.of_to k) as Hof.
  destruct (Nat.to_uint k) as [|u|u|u|u|u|u|u|u|u|u];
    try (destruct u; simpl; try (eexists _, _, _; reflexivity));
    cbv in Hof; lia.
Qed.

Lemma second_to_last_digit (x d pre : list ascii) (u c : ascii) :
  Forall (fun c => Py.is_digit c = true) d ->
  (2 <= List.length d)%nat ->
  x ++ d = pre ++ [u; c] ->
  Py.is_digit u = true.
Proof.
  intros Hd Hlen Heq.
  destruct (exists_last (l := d)) as (d1 & z & ->);
    [intros ->; simpl in Hlen; lia|].
  destruct (exists_last (l := d1)) as (d2 & y & ->).
  { intros ->. simpl in Hlen. lia. }
  replace (x ++ (d2 ++ [y]) ++ [z]) with ((x ++ d2 ++ [y]) ++ [z]) in Heq
    by now rewrite <- !app_assoc.
  replace (pre ++ [u; c]) with ((pre ++ [u]) ++ [c]) in Heq
    by now rewrite <- app_assoc.
  apply app_inj_tail in Heq as [Heq _].
  rewrite app_assoc in Heq. apply app_inj_tail in Heq as [_ <-].
  rewrite Forall_forall in Hd. apply Hd.
  apply in_or_app. left. apply in_or_app. right. now left.
Qed.

(** The file of a page numbered ten or more is never matched. *)
Lemma late_page_not_matched pdf_name k :
  (10 <= k)%nat ->
  fnmatch (gs_page_file pdf_name k) (page_pattern pdf_name) = false.
Proof.
  intros Hk.
  destruct (fnmatch _ _) eqn:Hm; [exfalso|reflexivity].
  apply fnmatch_one_more in Hm as (pre & c & Heq).
  unfold gs_page_file in Heq.
  rewrite !list_ascii_of_string_app, app_assoc in Heq.
  destruct (to_uint_two_digits k Hk) as (a & b & rest & Hdec).
  apply (second_to_last_digit _ (list_ascii_of_string (Py.decimal k)))
    in Heq.
  - discriminate.
  - apply string_of_uint_digits.
  - rewrite Hdec. simpl. lia.
Qed.

(** *** Names without pattern characters *)

Lemma translate_from_literal p :
  existsb magic_char p = false ->
  translate_from 0 p = map Lit p.
Proof.
  induction p as [|c p IH]; simpl; [reflexivity|].
  unfold magic_char at 1. simpl. intros Hp.
  apply orb_false_iff in Hp as [Hc Hp].
  apply orb_false_iff in Hc as [Hc Hbracket].
  apply orb_false_iff in Hc as [Hstar Hquestion].
  rewrite Hstar, Hquestion, Hbracket. now rewrite IH.
Qed.

Lemma match_toks_literal p ts n :
  match_toks (map Lit p ++ ts) (p ++ n) = match_toks ts n.
Proof.
  induction p as [|c p IH]; simpl; [reflexivity|].
  now rewrite Ascii.eqb_refl, IH.
Qed.

Lemma decimal_one_digit k :
  (k <= 9)%nat -> exists c, Py.decimal k = String c EmptyString.
Proof.
  intros Hk.
  do 10 (destruct k as [|k]; [eexists; reflexivity|]). lia.
Qed.

(** The file of a page numbered up to nine is matched when the name of
    the document is free of pattern characters. *)
Lemma early_page_matched pdf_name k :
  has_magic pdf_name = false -> (k <= 9)%nat ->
  fnmatch (gs_page_file pdf_name k) (page_pattern pdf_name) = true.
Proof.
  intros Hmagic Hk. destruct (decimal_one_digit k Hk) as [c Hc].
  unfold fnmatch, translate, page_pattern, gs_page_file. rewrite Hc.
  rewrite !list_ascii_of_string_app.
  change (list_ascii_of_string "_?") with one_more.
  rewrite translate_from_app by lia.
  rewrite (translate_from_literal _ Hmagic), match_toks_literal.
  reflexivity.
Qed.

Lemma ishidden_page_file pdf_name k :
  ishidden (gs_page_file pdf_name k) = ishidden (page_pattern pdf_name).
Proof. destruct pdf_name; reflexivity. Qed.

Lemma glob1_intro entries pattern name :
  In name entries -> fnmatch name pattern = true ->
  ishidden name = ishidden pattern ->
  In name (glob1 entries pattern).
Proof.
  intros Hin Hm Hhidden. unfold glob1. apply filter_In. split; [|exact Hm].
  destruct (ishidden pattern); [exact Hin|].
  apply filter_In. split; [exact Hin|]. now rewrite Hhidden.
Qed.

End GlobFacts.
(* ================================================================== *)
(** ** Properties of the library functions                             *)
(* ================================================================== *)

Section PyFacts.

Context {A B : Type}.
Variable f : A -> Py.result B.

(** A comprehension that finishes produced one value per element. *)
Lemma for_each_Forall2 (xs : list A) :
  forall ys, Py.for_each f xs = Py.Ok ys ->
             Forall2 (fun x y => f x = Py.Ok y) xs ys.
Proof.
  induction xs as [|x xs IH]; simpl; intros ys Hys.
  - inversion Hys. constructor.
  - destruct (f x) as [y|e] eqn:Hx; simpl in Hys; [|discriminate].
    destruct (Py.for_each f xs) as [ys'|e] eqn:Hxs; simpl in Hys;
      [|discriminate].
    inversion Hys; subst. constructor; auto.
Qed.

(** A comprehension whose body never raises is a [map]. *)
Lemma for_each_map (g : A -> B) (xs : list A) :
  (forall x, In x xs -> f x = Py.Ok (g x)) ->
  Py.for_each f xs = Py.Ok (map g xs).
Proof.
  induction xs as [|x xs IH]; simpl; intros Hall; [reflexivity|].
  rewrite (Hall x (or_introl eq_refl)). simpl.
  rewrite IH by (intros; apply Hall; now right). reflexivity.
Qed.

(** One element that raises ends the comprehension. *)
Lemma for_each_raises (xs : list A) (x : A) (e : Py.exc) :
  In x xs -> f x = Py.Raise e ->
  exists e', Py.for_each f xs = Py.Raise e'.
Proof.
  induction xs as [|a xs IH]; simpl; intros Hin Hx; [contradiction|].
  destruct Hin as [->|Hin].
  - rewrite Hx. simpl. eauto.
  - destruct (f a); simpl; [|eauto].
    destruct (IH Hin Hx) as [e' ->]. simpl. eauto.
Qed.

End PyFacts.

Lemma map_const_repeat {A B} (b : B) (xs : list A) :
  map (fun _ => b) xs = repeat b (List.length xs).
Proof.
  induction xs; simpl; congruence.
Qed.

Lemma enumerate_from_length {A} (xs : list A) (i : nat) :
  List.length (Py.enumerate_from i xs) = List.length xs.
Proof.
  revert i. induction xs; simpl; intros; [reflexivity|]. now rewrite IHxs.
Qed.

Lemma enumerate_from_nth {A} (xs : list A) :
  forall i k x, nth_error xs k = Some x ->
                nth_error (Py.enumerate_from i xs) k = Some ((i + k)%nat, x).
Proof.
  induction xs as [|a xs IH]; intros i [|k] x Hk; simpl in *; try discriminate.
  - inversion Hk; subst. now rewrite Nat.add_0_r.
  - rewrite (IH (S i) k x Hk). f_equal. f_equal. lia.
Qed.

Lemma enumerate_from_In {A} (xs : list A) :
  forall i k x, In (k, x) (Py.enumerate_from i xs) ->
                (i <= k)%nat /\ nth_error xs (k - i) = Some x.
Proof.
  induction xs as [|a xs IH]; simpl; intros i k x Hin; [contradiction|].
  destruct Hin as [Heq|Hin].
  - inversion Heq; subst. rewrite Nat.sub_diag. auto.
  - destruct (IH _ _ _ Hin) as [Hle Hnth]. split; [lia|].
    replace (k - i)%nat with (S (k - S i)) by lia. exact Hnth.
Qed.

(* ================================================================== *)
(** ** The stage chain                                                 *)
(* ================================================================== *)

Section Proofs.

Context {Num Agg : Type} `{PyNum Num}.
Variable W : World Num Agg.

(** The submissions of the chain: one block per stage of the order. *)
Lemma stage_chain_log self visualize skip_ocr items :
  fst (stage_chain W self visualize skip_ocr items)
  = flat_map (stage_block (List.length items))
             (order_for self visualize skip_ocr).
Proof.
  unfold stage_chain, Dask.client_map, Dask.ready, order_for,
    spec_stage_order, stage_block.
  destruct (use_semantic_detection self),
    (use_xgboost_postprocess self), (use_rules_postprocess self);
    simpl; rewrite ?length_map, ?map_const_repeat, ?length_map,
             ?app_nil_r, <- ?app_assoc; reflexivity.
Qed.

(** The futures of the chain: every work item through the stages. *)
Lemma stage_chain_futures self visualize skip_ocr items :
  snd (stage_chain W self visualize skip_ocr items)
  = Py.Ok (map (through_stages W visualize
                  (tl (order_for self visualize skip_ocr))) items).
Proof.
  unfold stage_chain, Dask.client_map, Dask.ready, order_for,
    spec_stage_order, through_stages.
  destruct (use_semantic_detection self),
    (use_xgboost_postprocess self), (use_rules_postprocess self);
    simpl; rewrite ?map_map; reflexivity.
Qed.

(** C6.  The stage chain is applied in a fixed order.  The submissions
    come in one block per stage, each block holding that stage once per
    work item: the proposal stage first; then, exactly when semantic
    detection is enabled, detection, regroup and text pooling in that
    order, text pooling with the skip-OCR flag; the classifier
    postprocess only within the detection branch, and the rule
    postprocess only within the classifier branch.  Every future holds
    its work item taken through these stages in that order. *)
Theorem stage_chain_order self visualize skip_ocr items :
  fst (stage_chain W self visualize skip_ocr items)
  = flat_map (stage_block (List.length items))
             (order_for self visualize skip_ocr)
  /\ snd (stage_chain W self visualize skip_ocr items)
     = Py.Ok (map (through_stages W visualize
                     (tl (order_for self visualize skip_ocr))) items)
  /\ order_for self visualize skip_ocr
     = [Dask.T_propose_and_pad visualize]
       ++ (if use_semantic_detection self
           then [Dask.T_detect; Dask.T_regroup; Dask.T_pool_text skip_ocr]
           else [])
       ++ (if use_semantic_detection self && use_xgboost_postprocess self
           then [Dask.T_xgboost_postprocess] else [])
       ++ (if use_semantic_detection self && use_xgboost_postprocess self
              && use_rules_postprocess self
           then [Dask.T_rules_postprocess] else [])
  /\ (ran Dask.T_xgboost_postprocess
          (fst (stage_chain W self visualize skip_ocr items)) ->
      ran Dask.T_detect
          (fst (stage_chain W self visualize skip_ocr items)))
  /\ (ran Dask.T_rules_postprocess
          (fst (stage_chain W self visualize skip_ocr items)) ->
      ran Dask.T_xgboost_postprocess
          (fst (stage_chain W self visualize skip_ocr items))).
Proof.
  pose proof (stage_chain_log self visualize skip_ocr items) as Hlog.
  split; [exact Hlog|].
  split; [apply stage_chain_futures|].
  split.
  { unfold order_for, spec_stage_order.
    destruct (use_semantic_detection self),
      (use_xgboost_postprocess self), (use_rules_postprocess self);
      reflexivity. }
  rewrite Hlog. unfold order_for, spec_stage_order, ran.
  destruct items as [|it items].
  { split; intros (r & p & Hin); exfalso; revert Hin;
      destruct (use_semantic_detection self),
        (use_xgboost_postprocess self), (use_rules_postprocess self);
      simpl; tauto. }
  split; intros (r & p & Hin); revert Hin;
    destruct (use_semantic_detection self),
      (use_xgboost_postprocess self), (use_rules_postprocess self);
    intros Hin; apply in_flat_map in Hin; destruct Hin as (t & Ht & Hin);
    apply repeat_spec in Hin; simpl in Ht;
    repeat (destruct Ht as [<-|Ht]; [try discriminate|]);
    try contradiction;
    eexists _, _; apply in_flat_map; eexists;
    (split; [|simpl; left; reflexivity]); simpl; tauto.
Qed.

(* ================================================================ *)
(** ** The dispatch on the tmp directory                            *)
(* ================================================================ *)

(** C10.  [ingest] on an object constructed without a tmp directory
    raises [NotImplementedError] before anything is submitted; on an
    object constructed with a tmp directory it is [_ingest_local]. *)
Theorem ingest_without_tmp_dir
        scheduler_address sem client xgb rules
        pdf_directory dataset_id result_path skip_ocr visualize
        aggregations :
  ingest W (__init__ scheduler_address sem client None xgb rules)
         pdf_directory dataset_id result_path skip_ocr visualize
         aggregations
  = ([], Py.Raise
           (Py.NotImplementedError
              "Distributed setup currently not implemented via Ingest class. Set a tmp directory."))
  /\ forall d,
      ingest W (__init__ scheduler_address sem client (Some d) xgb rules)
             pdf_directory dataset_id result_path skip_ocr visualize
             aggregations
      = _ingest_local W
          (__init__ scheduler_address sem client (Some d) xgb rules)
          pdf_directory dataset_id result_path visualize false skip_ocr
          aggregations.
Proof.
  split; [reflexivity|]. intros d. reflexivity.
Qed.

(* ================================================================ *)
(** ** Runs of the orchestrator                                     *)
(* ================================================================ *)

Lemma bind_ok_inv {A B} (m : Dask.run A) (k : A -> Dask.run B) l b :
  Dask.bind m k = (l, Py.Ok b) ->
  exists l1 a l2, m = (l1, Py.Ok a) /\ k a = (l2, Py.Ok b) /\ l = l1 ++ l2.
Proof.
  destruct m as [l1 [a|e]]; simpl; [|discriminate].
  destruct (k a) as [l2 r] eqn:Hk. intros Heq. inversion Heq; subst.
  eauto 6.
Qed.

Lemma bind_ok {A B} (m : Dask.run A) (k : A -> Dask.run B) l a :
  m = (l, Py.Ok a) ->
  Dask.bind m k = (l ++ fst (k a), snd (k a)).
Proof.
  intros ->. simpl. now destruct (k a).
Qed.

Lemma rasterize_log self pdf_directory dataset_id :
  fst (rasterize W self pdf_directory dataset_id)
  = match images_tmp self with
    | Some tmp =>
        map (fun pdf =>
               Dask.Submit (Dask.T_pdf_to_images dataset_id tmp pdf)
                           Dask.process None)
            (get_pdf_names W pdf_directory)
    | None => []
    end.
Proof.
  unfold rasterize, get_images_tmp, Dask.submit_each, Dask.results,
    Dask.lift.
  destruct (images_tmp self) as [tmp|]; simpl; [|reflexivity].
  destruct (Py.for_each _ _); simpl; now rewrite app_nil_r.
Qed.

(** [build_frame] that returns a frame went through rasterisation and
    the whole stage chain. *)
Lemma build_frame_ok_inv self pdf_directory dataset_id visualize skip_ocr
      log df :
  build_frame W self pdf_directory dataset_id visualize skip_ocr
  = (log, Py.Ok df) ->
  exists items futs objs results,
    snd (rasterize W self pdf_directory dataset_id) = Py.Ok items
    /\ snd (stage_chain W self visualize skip_ocr items) = Py.Ok futs
    /\ Py.for_each (fun x => x) futs = Py.Ok objs
    /\ collect objs = Py.Ok results
    /\ with_detect_columns results = Py.Ok df
    /\ log = fst (rasterize W self pdf_directory dataset_id)
             ++ fst (stage_chain W self visualize skip_ocr items).
Proof.
  unfold build_frame. intros Hrun.
  apply bind_ok_inv in Hrun as (l1 & items & l1' & Hr & Hrun & ->).
  apply bind_ok_inv in Hrun as (l2 & futs & l2' & Hs & Hrun & ->).
  apply bind_ok_inv in Hrun as (l3 & objs & l3' & Hf & Hrun & ->).
  apply bind_ok_inv in Hrun as (l4 & results & l4' & Hc & Hrun & ->).
  unfold Dask.results, Dask.lift in *.
  inversion Hf; subst. inversion Hc; subst. inversion Hrun; subst.
  exists items, futs, objs, results.
  rewrite Hr, Hs. simpl. rewrite !app_nil_r. auto 10.
Qed.

Lemma aggregate_all_stops result_df dataset_id result_path pre a post e :
  Forall (fun x => exists v, aggregate_router W result_df x = Py.Ok v) pre ->
  aggregate_router W result_df a = Py.Raise e ->
  aggregate_all W result_df dataset_id result_path (pre ++ a :: post)
  = (map (fun x => Dask.ToParquet
                     (Py.path_join result_path
                        (dataset_id ++ "_" ++ x ++ ".parquet")%string))
         pre,
     Py.Raise e).
Proof.
  intros Hpre Ha. induction Hpre as [|x pre [v Hx] _ IH]; simpl.
  - rewrite Ha. reflexivity.
  - rewrite Hx. unfold Dask.lift. simpl. rewrite IH. reflexivity.
Qed.

(** C3, as the code has it.  With the classifier postprocess flag off,
    the rule postprocess flag is ignored: events and outcome of the run
    are those of the run with both flags off, whatever the rule flag
    says.  No configuration error is raised for the combination. *)
Theorem rules_flag_ignored_without_classifier_flag
        scheduler_address sem client tmp rules
        pdf_directory dataset_id result_path skip_ocr visualize
        aggregations :
  ingest W (__init__ scheduler_address sem client tmp false rules)
         pdf_directory dataset_id result_path skip_ocr visualize
         aggregations
  = ingest W (__init__ scheduler_address sem client tmp false false)
           pdf_directory dataset_id result_path skip_ocr visualize
           aggregations.
Proof.
  destruct tmp as [d|]; [|reflexivity].
  unfold ingest, _ingest_local, build_frame, stage_chain. simpl.
  destruct sem; reflexivity.
Qed.

(** C7, as the code has it.  An aggregation name is handed to
    [aggregate_router] only once the frame is built.  When the router
    raises for a name, the run ends with that exception after every
    document was submitted for rasterisation, after every stage of the
    chain was submitted for every work item, and after the aggregations
    that precede the name were written. *)
Theorem aggregation_name_checked_after_stages
        self pdf_directory dataset_id result_path visualize aggregate
        skip_ocr log df pre a post e :
  build_frame W self pdf_directory dataset_id visualize skip_ocr
  = (log, Py.Ok df) ->
  Forall (fun x => exists v, aggregate_router W df x = Py.Ok v) pre ->
  aggregate_router W df a = Py.Raise e ->
  _ingest_local W self pdf_directory dataset_id result_path visualize
                aggregate skip_ocr (pre ++ a :: post)
  = (log ++ map (fun x => Dask.ToParquet
                            (Py.path_join result_path
                               (dataset_id ++ "_" ++ x ++ ".parquet")%string))
                pre,
     Py.Raise e)
  /\ (forall pdf, In pdf (get_pdf_names W pdf_directory) ->
                  exists tmp,
                    In (Dask.Submit
                          (Dask.T_pdf_to_images dataset_id tmp pdf)
                          Dask.process None) log)
  /\ exists items,
      snd (rasterize W self pdf_directory dataset_id) = Py.Ok items
      /\ forall t,
          In t (order_for self visualize skip_ocr) ->
          incl (stage_block (List.length items) t) log.
Proof.
  intros Hframe Hpre Ha. split; [|split].
  - unfold _ingest_local. rewrite (bind_ok _ _ _ _ Hframe).
    rewrite (aggregate_all_stops _ dataset_id result_path _ _ post _ Hpre Ha).
    reflexivity.
  - apply build_frame_ok_inv in Hframe
      as (items & futs & objs & results & Hr & _ & _ & _ & _ & ->).
    intros pdf Hin. rewrite rasterize_log.
    unfold rasterize, get_images_tmp in Hr.
    destruct (images_tmp self) as [tmp|]; [|discriminate].
    exists tmp. apply in_or_app. left.
    apply in_map_iff. eauto.
  - apply build_frame_ok_inv in Hframe
      as (items & futs & objs & results & Hr & _ & _ & _ & _ & ->).
    exists items. split; [exact Hr|]. intros t Ht ev Hev.
    apply in_or_app. right.
    rewrite stage_chain_log. apply in_flat_map. eauto.
Qed.

(* ================================================================ *)
(** ** The collector                                                *)
(* ================================================================ *)

Lemma zip_star_ok {X Y} (cls : list (X * Y)) :
  cls <> [] -> Py.zip_star cls = Py.Ok (map fst cls, map snd cls).
Proof. destruct cls; [congruence|reflexivity]. Qed.

Lemma zip_star_inv {X Y} (cls : list (X * Y)) a b :
  Py.zip_star cls = Py.Ok (a, b) ->
  cls <> [] /\ a = map fst cls /\ b = map snd cls.
Proof.
  destruct cls; simpl; intros Heq; inversion Heq; subst.
  repeat split; try reflexivity; discriminate.
Qed.

Lemma final_obj_spec (obj : Obj Num) ind c :
  has_classes c ->
  postprocess_covers obj (S ind) ->
  final_obj obj ind c = Py.Ok (spec_row obj ind c).
Proof.
  destruct c as [[bb cls] text]. unfold has_classes, postprocess_covers,
    final_obj, spec_row. simpl. intros Hcls Hpost.
  rewrite (zip_star_ok cls Hcls). simpl.
  destruct (obj_xgboost_content obj) as [post|]; simpl; [|reflexivity].
  unfold Py.getitem.
  destruct (nth_error post ind) as [[[[b0 pc] t0] ps]|] eqn:Hnth.
  - reflexivity.
  - apply nth_error_None in Hnth. lia.
Qed.

Lemma final_obj_inv (obj : Obj Num) ind c r :
  final_obj obj ind c = Py.Ok r ->
  row_classes r = map snd (snd (fst c))
  /\ row_scores r = map fst (snd (fst c))
  /\ snd (fst c) <> [].
Proof.
  destruct c as [[bb cls] text]. unfold final_obj. simpl.
  destruct (Py.zip_star cls) as [[sc cl]|e] eqn:Hz; simpl; [|discriminate].
  apply zip_star_inv in Hz as (Hne & -> & ->).
  destruct (obj_xgboost_content obj) as [post|]; simpl.
  - destruct (Py.getitem post ind) as [[[[b0 pc] t0] ps]|e]; simpl;
      [|discriminate].
    intros Heq; inversion Heq; subst; simpl; auto.
  - intros Heq; inversion Heq; subst; simpl; auto.
Qed.

(** C4, as the code has it.  For a terminal work item whose detections
    each carry at least one (score, class) pair and whose postprocess
    output, when present, has an entry for every detection, the
    collector returns exactly one row per detection, in order: identity
    copied from the item, classes and scores unzipped from the pairs,
    and the postprocess class and score taken at the same index (both
    [None] without postprocess output).  An item without detections
    yields no row and no error. *)
Theorem collector_rows (obj : Obj Num) content :
  obj_content obj = Some content ->
  Forall has_classes content ->
  postprocess_covers obj (List.length content) ->
  exists rows,
    collect_item obj = Py.Ok rows
    /\ List.length rows = List.length content
    /\ (forall ind c, nth_error content ind = Some c ->
                      nth_error rows ind = Some (spec_row obj ind c))
    /\ (content = [] -> rows = []).
Proof.
  intros Hcontent Hcls Hpost.
  exists (map (fun ic => spec_row obj (fst ic) (snd ic))
              (Py.enumerate content)).
  split; [|split; [|split]].
  - unfold collect_item. rewrite Hcontent. apply for_each_map.
    intros [ind c] Hin. simpl.
    apply enumerate_from_In in Hin as [_ Hnth].
    rewrite Nat.sub_0_r in Hnth.
    apply final_obj_spec.
    + rewrite Forall_forall in Hcls. apply Hcls.
      eapply nth_error_In; eauto.
    + assert (ind < List.length content)%nat
        by (apply nth_error_Some; congruence).
      unfold postprocess_covers in *.
      destruct (obj_xgboost_content obj); [lia|exact I].
  - rewrite length_map. apply enumerate_from_length.
  - intros ind c Hnth. unfold Py.enumerate.
    erewrite map_nth_error
      by (apply (enumerate_from_nth content 0 ind c Hnth)).
    reflexivity.
  - intros ->. reflexivity.
Qed.

Lemma Forall2_In_r {X Y} (R : X -> Y -> Prop) xs ys y :
  Forall2 R xs ys -> In y ys -> exists x, In x xs /\ R x y.
Proof.
  induction 1 as [|x y' xs ys Hxy _ IH]; simpl; [contradiction|].
  intros [->|Hin]; [eauto|]. destruct (IH Hin) as (x0 & ? & ?). eauto.
Qed.

Lemma collect_rows (objs : list (Obj Num)) results r :
  collect objs = Py.Ok results -> In r results ->
  List.length (row_classes r) = List.length (row_scores r)
  /\ row_classes r <> [].
Proof.
  unfold collect.
  destruct (Py.for_each collect_item objs) as [per_item|e] eqn:Hall;
    simpl; [|discriminate].
  intros Heq Hin. inversion Heq; subst. clear Heq.
  apply in_concat in Hin as (rows & Hrows & Hin).
  apply for_each_Forall2 in Hall.
  destruct (Forall2_In_r _ _ _ _ Hall Hrows) as (obj & _ & Hitem).
  unfold collect_item in Hitem.
  destruct (obj_content obj) as [content|]; [|discriminate].
  apply for_each_Forall2 in Hitem.
  destruct (Forall2_In_r _ _ _ _ Hitem Hin) as ([ind c] & _ & Hrow).
  apply final_obj_inv in Hrow as (-> & -> & Hne).
  rewrite !length_map. split; [reflexivity|].
  simpl in *. destruct (snd (fst c)); [now elim Hne|discriminate].
Qed.

Lemma for_each_compose {X Y Z} (f : Y -> Py.result Z) (g : X -> Y) xs :
  Py.for_each f (map g xs) = Py.for_each (fun x => f (g x)) xs.
Proof.
  induction xs as [|x xs IH]; simpl; [reflexivity|]. now rewrite IH.
Qed.

Lemma combine3_In {X Y Z} (P : X -> Y -> Prop) (Q : X -> Z -> Prop) xs :
  forall ys zs x y z,
    Forall2 P xs ys -> Forall2 Q xs zs ->
    In (x, (y, z)) (combine xs (combine ys zs)) ->
    In x xs /\ P x y /\ Q x z.
Proof.
  induction xs as [|a xs IH]; intros ys zs x y z Hp Hq Hin;
    [contradiction|].
  inversion Hp; subst. inversion Hq; subst. simpl in Hin.
  destruct Hin as [Heq|Hin].
  - inversion Heq; subst. simpl. auto.
  - destruct (IH _ _ _ _ _ H4 H6 Hin) as (? & ? & ?). simpl. auto.
Qed.

Lemma with_detect_columns_inv (results : list (Row Num)) df r :
  with_detect_columns results = Py.Ok df -> In r df ->
  In (row r) results
  /\ Py.getitem0 (row_classes (row r)) = Py.Ok (detect_cls r)
  /\ Py.getitem0 (row_scores (row r)) = Py.Ok (detect_score r).
Proof.
  destruct results as [|r0 results]; [discriminate|].
  remember (r0 :: results) as rs eqn:Hrs.
  assert (Hcol : forall X name (get : Row Num -> X),
             column name get rs = Py.Ok (map get rs))
    by (subst rs; reflexivity).
  clear Hrs. unfold with_detect_columns. rewrite !Hcol. cbn [Py.bind].
  rewrite !for_each_compose.
  destruct (Py.for_each (fun x => Py.getitem0 (row_classes x)) rs)
    as [dc|e] eqn:Hdc; simpl; [|discriminate].
  destruct (Py.for_each (fun x => Py.getitem0 (row_scores x)) rs)
    as [ds|e] eqn:Hds; simpl; [|discriminate].
  intros Heq Hin. inversion Heq; subst. clear Heq.
  apply in_map_iff in Hin as ([x [y z]] & <- & Hin). simpl.
  apply for_each_Forall2 in Hdc. apply for_each_Forall2 in Hds.
  exact (combine3_In _ _ _ _ _ _ _ _ Hdc Hds Hin).
Qed.

Lemma ingest_local_frame self pdf_directory dataset_id result_path
      visualize aggregate skip_ocr aggregations log table :
  _ingest_local W self pdf_directory dataset_id result_path visualize
                aggregate skip_ocr aggregations = (log, Py.Ok table) ->
  exists log0,
    build_frame W self pdf_directory dataset_id visualize skip_ocr
    = (log0, Py.Ok table).
Proof.
  unfold _ingest_local. intros Hrun.
  apply bind_ok_inv in Hrun as (l1 & df & l1' & Hframe & Hrun & ->).
  apply bind_ok_inv in Hrun as (l2 & [] & l2' & _ & Hrun & ->).
  apply bind_ok_inv in Hrun as (l3 & [] & l3' & _ & Hrun & ->).
  apply bind_ok_inv in Hrun as (l4 & tmp & l4' & _ & Hrun & ->).
  apply bind_ok_inv in Hrun as (l5 & [] & l5' & _ & Hrun & ->).
  inversion Hrun; subst. eauto.
Qed.

(** C2.  In every row of the frame that [_ingest_local] produces,
    [classes] and [scores] have the same length, [detect_cls] is
    [classes[0]] and [detect_score] is [scores[0]]. *)
Theorem result_rows_parallel_lists
        self pdf_directory dataset_id result_path visualize aggregate
        skip_ocr aggregations log table :
  _ingest_local W self pdf_directory dataset_id result_path visualize
                aggregate skip_ocr aggregations = (log, Py.Ok table) ->
  forall r, In r table ->
    List.length (row_classes (row r)) = List.length (row_scores (row r))
    /\ nth_error (row_classes (row r)) 0 = Some (detect_cls r)
    /\ nth_error (row_scores (row r)) 0 = Some (detect_score r).
Proof.
  intros Hrun r Hin.
  apply ingest_local_frame in Hrun as (log0 & Hframe).
  apply build_frame_ok_inv in Hframe
    as (items & futs & objs & results & _ & _ & _ & Hc & Hd & _).
  destruct (with_detect_columns_inv _ _ _ Hd Hin) as (Hrow & Hcls & Hsc).
  destruct (collect_rows _ _ _ Hc Hrow) as (Hlen & _).
  split; [exact Hlen|].
  unfold Py.getitem0 in *.
  destruct (row_classes (row r)); [discriminate|].
  destruct (row_scores (row r)); [discriminate|].
  simpl. split; congruence.
Qed.

(* ================================================================ *)
(** ** The geometry frame                                           *)
(* ================================================================ *)

Lemma loc_assign_column (k : Z) (set : Num -> MetaRow Num -> MetaRow Num)
      (get : MetaRow Num -> Num) (s : Num) (df : list (MetaRow Num)) :
  loc_assign (series_eq (map meta_page df) k) set
             (series_mul (map get df) s) df
  = map (fun r => if Z.eqb (meta_page r) k
                  then set (num_mul (get r) s) r else r) df.
Proof.
  induction df as [|r df IH]; simpl; [reflexivity|]. now rewrite IH.
Qed.

Lemma rescale_meta_rows meta page_num scale_w scale_h :
  rescale_meta meta page_num scale_w scale_h
  = scaled_on_page meta page_num scale_w scale_h.
Proof.
  unfold rescale_meta, scaled_on_page.
  rewrite !loc_assign_column, !map_map.
  apply map_ext. intros [pg a b c d t].
  unfold set_x1, set_x2, set_y1, set_y2, scale_box. cbn.
  destruct (Z.eqb pg (page_num - 1)) eqn:Hpg; cbn;
    repeat (rewrite Hpg; cbn); reflexivity.
Qed.

(** The page object built from a decodable page file of a document with
    geometry. *)
Lemma page_object_with_geometry dataset_id tmp pdf_name meta limit image
      page_num size w h orig_w orig_h scale_w scale_h :
  page_num_of image = Py.Ok page_num ->
  image_open W image = Py.Ok size ->
  resize_png W size = (w, h) ->
  subscript limit 2 = Py.Ok orig_w ->
  subscript limit 3 = Py.Ok orig_h ->
  num_div (num_of_Z w) orig_w = Some scale_w ->
  num_div (num_of_Z h) orig_h = Some scale_h ->
  exists it,
    page_object W dataset_id tmp pdf_name (Some meta) limit image = Py.Ok it
    /\ item_obj it
       = {| obj_orig_w := orig_w; obj_orig_h := orig_h;
            obj_dataset_id := dataset_id; obj_pdf_name := pdf_name;
            obj_meta := Some (scaled_on_page meta page_num scale_w scale_h);
            obj_dims := [0; 0; w; h]%Z; obj_pdf_limit := limit;
            obj_page_num := page_num;
            obj_content := None; obj_xgboost_content := None |}.
Proof.
  intros Hpage Hopen Hresize Hw Hh Hsw Hsh.
  unfold page_object, true_div.
  rewrite Hpage, Hopen. cbn [Py.bind]. destruct size as [img_w img_h].
  rewrite Hresize, Hw, Hh. cbn [Py.bind]. rewrite Hsw, Hsh. cbn [Py.bind].
  rewrite rescale_meta_rows.
  destruct tmp; eexists; split; reflexivity.
Qed.

Lemma page_object_geometry dataset_id tmp pdf_name meta limit image it :
  page_object W dataset_id tmp pdf_name (Some meta) limit image
  = Py.Ok it ->
  exists size w h orig_w orig_h scale_w scale_h,
    image_open W image = Py.Ok size
    /\ resize_png W size = (w, h)
    /\ subscript limit 2 = Py.Ok orig_w
    /\ subscript limit 3 = Py.Ok orig_h
    /\ num_div (num_of_Z w) orig_w = Some scale_w
    /\ num_div (num_of_Z h) orig_h = Some scale_h
    /\ obj_dims (item_obj it) = [0; 0; w; h]%Z
    /\ obj_orig_w (item_obj it) = orig_w
    /\ obj_orig_h (item_obj it) = orig_h
    /\ obj_pdf_limit (item_obj it) = limit
    /\ obj_meta (item_obj it)
       = Some (scaled_on_page meta (obj_page_num (item_obj it))
                              scale_w scale_h).
Proof.
  unfold page_object, true_div.
  destruct (page_num_of image) as [page_num|e]; simpl; [|discriminate].
  destruct (image_open W image) as [[img_w img_h]|e]; simpl;
    [|discriminate].
  destruct (resize_png W (img_w, img_h)) as [w h] eqn:Hresize.
  destruct (subscript limit 2) as [orig_w|e]; simpl; [|discriminate].
  destruct (subscript limit 3) as [orig_h|e]; simpl; [|discriminate].
  destruct (num_div (num_of_Z w) orig_w) as [scale_w|] eqn:Hw; simpl;
    [|discriminate].
  destruct (num_div (num_of_Z h) orig_h) as [scale_h|] eqn:Hh; simpl;
    [|discriminate].
  intros Heq. inversion Heq; subst. clear Heq.
  exists (img_w, img_h), w, h, orig_w, orig_h, scale_w, scale_h.
  rewrite <- rescale_meta_rows.
  destruct tmp; simpl; auto 12.
Qed.

(** C5.  For a document whose parse returned geometry, the object of a
    page carries the geometry frame with the boxes of that page scaled
    per axis: x-coordinates multiplied by [w / limit[2]], y-coordinates by
    [h / limit[3]], where [(w, h)] is the rendered size and [limit] the
    page box that [parse_pdf] returned.  The original extents recorded in
    the object are those of [limit], not the pixel size of the decoded
    image.  The first part builds the object of one page; the second
    reads every object that [pdf_to_images] returns. *)
Theorem geometry_scaled_by_declared_page_box
        dataset_id tmp filename meta limit :
  (forall image page_num size w h orig_w orig_h scale_w scale_h,
      page_num_of image = Py.Ok page_num ->
      image_open W image = Py.Ok size ->
      resize_png W size = (w, h) ->
      subscript limit 2 = Py.Ok orig_w ->
      subscript limit 3 = Py.Ok orig_h ->
      num_div (num_of_Z w) orig_w = Some scale_w ->
      num_div (num_of_Z h) orig_h = Some scale_h ->
      exists it,
        page_object W dataset_id tmp (Py.basename filename) (Some meta)
                    limit image = Py.Ok it
        /\ obj_page_num (item_obj it) = page_num
        /\ obj_dims (item_obj it) = [0; 0; w; h]%Z
        /\ obj_orig_w (item_obj it) = orig_w
        /\ obj_orig_h (item_obj it) = orig_h
        /\ obj_meta (item_obj it)
           = Some (scaled_on_page meta page_num scale_w scale_h))
  /\ (forall items,
         parse_pdf W filename = Py.Ok (Some meta, limit) ->
         pdf_to_images W dataset_id tmp (Some filename)
         = Py.Ok (Some items) ->
         forall it, In it items ->
           exists image size w h orig_w orig_h scale_w scale_h,
             image_open W image = Py.Ok size
             /\ resize_png W size = (w, h)
             /\ subscript limit 2 = Py.Ok orig_w
             /\ subscript limit 3 = Py.Ok orig_h
             /\ num_div (num_of_Z w) orig_w = Some scale_w
             /\ num_div (num_of_Z h) orig_h = Some scale_h
             /\ obj_dims (item_obj it) = [0; 0; w; h]%Z
             /\ obj_orig_w (item_obj it) = orig_w
             /\ obj_orig_h (item_obj it) = orig_h
             /\ obj_pdf_limit (item_obj it) = limit
             /\ obj_meta (item_obj it)
                = Some (scaled_on_page meta (obj_page_num (item_obj it))
                                       scale_w scale_h)).
Proof.
  split.
  - intros image page_num size w h orig_w orig_h scale_w scale_h
           Hpage Hopen Hresize Hw Hh Hsw Hsh.
    destruct (page_object_with_geometry
                dataset_id tmp (Py.basename filename) meta limit image
                page_num size w h orig_w orig_h scale_w scale_h
                Hpage Hopen Hresize Hw Hh Hsw Hsh) as (it & Hit & Hobj).
    exists it. rewrite Hobj. simpl. auto 6.
  - intros items Hparse Hrun it Hin. unfold pdf_to_images in Hrun.
    rewrite Hparse in Hrun.
    destruct (subprocess_run W _) as [status|e]; simpl in Hrun;
      [|discriminate].
    destruct (Py.for_each _ _) as [objs|e] eqn:Hobjs; simpl in Hrun;
      [|discriminate].
    inversion Hrun; subst. clear Hrun.
    apply for_each_Forall2 in Hobjs.
    destruct (Forall2_In_r _ _ _ _ Hobjs Hin) as (image & _ & Hit).
    exists image. eapply page_object_geometry; eauto.
Qed.

(* ================================================================ *)
(** ** Failures                                                     *)
(* ================================================================ *)

Lemma pdf_to_images_parse_failure dataset_id tmp filename :
  parses W filename = false ->
  pdf_to_images W dataset_id tmp (Some filename) = Py.Ok (Some []).
Proof.
  unfold parses, pdf_to_images.
  destruct (parse_pdf W filename) as [mr|e]; [discriminate|].
  now destruct e.
Qed.

Lemma snd_bind {X Y} (m : Dask.run X) (k : X -> Dask.run Y) :
  snd (Dask.bind m k) = Py.bind (snd m) (fun a => snd (k a)).
Proof.
  destruct m as [l [a|e]]; simpl; [|reflexivity]. now destruct (k a).
Qed.

Lemma rasterize_outcome (V : World Num Agg) self pdf_directory dataset_id :
  snd (rasterize V self pdf_directory dataset_id)
  = match images_tmp self with
    | Some tmp =>
        images <- Py.for_each (fun x => x)
                    (map (fun pdf => pdf_to_images V dataset_id (Some tmp)
                                                   (Some pdf))
                         (get_pdf_names V pdf_directory)) ;;
        Py.Ok (List.concat (not_none images))
    | None => Py.Raise (Py.AttributeError "images_tmp")
    end.
Proof.
  unfold rasterize, get_images_tmp, Dask.submit_each, Dask.results,
    Dask.lift.
  destruct (images_tmp self) as [tmp|]; simpl; [|reflexivity].
  now destruct (Py.for_each _ _).
Qed.

(** Elements that yield an empty page list can be left out. *)
Lemma skip_empty {X Y} (f : X -> Py.result (option (list Y)))
      (keep : X -> bool) (xs : list X) :
  (forall x, keep x = false -> f x = Py.Ok (Some [])) ->
  (images <- Py.for_each (fun x => x) (map f xs) ;;
   Py.Ok (List.concat (not_none images)))
  = (images <- Py.for_each (fun x => x) (map f (filter keep xs)) ;;
     Py.Ok (List.concat (not_none images))).
Proof.
  intros Hskip. induction xs as [|x xs IH]; simpl; [reflexivity|].
  destruct (keep x) eqn:Hkeep; simpl.
  - destruct (f x) as [pages|e]; simpl; [|reflexivity].
    destruct (Py.for_each _ (map f xs)) as [r1|e1];
      destruct (Py.for_each _ (map f (filter keep xs))) as [r2|e2];
      simpl in *; try discriminate; try congruence.
    inversion IH as [Hcat]. destruct pages; simpl; congruence.
  - rewrite (Hskip x Hkeep). simpl. rewrite <- IH.
    now destruct (Py.for_each _ (map f xs)).
Qed.

(** C1, as the code has it.  A document on which [parse_pdf] raises
    yields an empty page list, so it contributes no work item and no
    row, and the exception does not leave [pdf_to_images].  The work
    items and the outcome of the run are those of the same run on the
    batch without such documents; for three documents of which only the
    second fails to parse, that batch is the first and the third. *)
Theorem unparsable_documents_are_left_out
        self pdf_directory dataset_id result_path visualize aggregate
        skip_ocr aggregations :
  (forall tmp filename,
      parses W filename = false ->
      pdf_to_images W dataset_id tmp (Some filename) = Py.Ok (Some []))
  /\ snd (rasterize W self pdf_directory dataset_id)
     = snd (rasterize (without_unparsable W) self pdf_directory
                      dataset_id)
  /\ snd (_ingest_local W self pdf_directory dataset_id result_path
                        visualize aggregate skip_ocr aggregations)
     = snd (_ingest_local (without_unparsable W) self pdf_directory
                          dataset_id result_path visualize aggregate
                          skip_ocr aggregations)
  /\ (forall d1 d2 d3,
         get_pdf_names W pdf_directory = [d1; d2; d3] ->
         parses W d1 = true -> parses W d2 = false ->
         parses W d3 = true ->
         get_pdf_names (without_unparsable W) pdf_directory = [d1; d3]).
Proof.
  assert (Hr : snd (rasterize W self pdf_directory dataset_id)
               = snd (rasterize (without_unparsable W) self pdf_directory
                                dataset_id)).
  { rewrite !rasterize_outcome. destruct (images_tmp self) as [tmp|];
      [|reflexivity].
    apply (skip_empty
             (fun pdf => pdf_to_images W dataset_id (Some tmp) (Some pdf))
             (parses W)).
    intros x Hx. now apply pdf_to_images_parse_failure. }
  split; [intros; now apply pdf_to_images_parse_failure|].
  split; [exact Hr|]. split.
  - unfold _ingest_local, build_frame. rewrite !snd_bind, Hr. reflexivity.
  - intros d1 d2 d3 Hnames H1 H2 H3. simpl. unfold parsable_names.
    rewrite Hnames. simpl. now rewrite H1, H2, H3.
Qed.

Lemma page_num_of_bad_suffix image c :
  Py.last_char image = Some c -> Py.digit_value c = None ->
  page_num_of image = Py.Raise (Py.Exception image).
Proof.
  unfold page_num_of, Py.int_of_char. now intros -> ->.
Qed.

Lemma rasterize_failure self pdf_directory dataset_id tmp pdf e :
  images_tmp self = Some tmp ->
  In pdf (get_pdf_names W pdf_directory) ->
  pdf_to_images W dataset_id (Some tmp) (Some pdf) = Py.Raise e ->
  exists e', snd (rasterize W self pdf_directory dataset_id) = Py.Raise e'.
Proof.
  intros Htmp Hin Hpdf. rewrite rasterize_outcome, Htmp.
  destruct (for_each_raises (fun x => x)
              (map (fun pdf => pdf_to_images W dataset_id (Some tmp)
                                             (Some pdf))
                   (get_pdf_names W pdf_directory))
              (Py.Raise e) e) as [e' ->]; simpl; eauto.
  rewrite <- Hpdf.
  exact (in_map (fun pdf => pdf_to_images W dataset_id (Some tmp)
                                          (Some pdf)) _ _ Hin).
Qed.

(** C8, as the code has it.  A failure of [parse_pdf] is absorbed (the
    document has no pages) and the exit status of the rasterising
    subprocess is never looked at.  Any other exception is not absorbed:
    a page file whose name does not end in a digit makes
    [pdf_to_images] raise, an exception of [pdf_to_images] for one
    document ends the run, and an exception of any stage for any one
    work item ends the run. *)
Theorem failures_that_are_absorbed_and_that_are_not
        self pdf_directory dataset_id result_path visualize aggregate
        skip_ocr aggregations :
  (* a failure of parse_pdf leaves the document out *)
  (forall tmp filename e,
      parse_pdf W filename = Py.Raise e ->
      pdf_to_images W dataset_id tmp (Some filename) = Py.Ok (Some []))
  (* the exit status of gs is not looked at *)
  /\ (forall status tmp filename,
         pdf_to_images (with_exit_status W status) dataset_id tmp filename
         = pdf_to_images W dataset_id tmp filename)
  (* a page file whose last character is no digit *)
  /\ (forall tmp filename meta limit status image c,
         parse_pdf W filename = Py.Ok (meta, limit) ->
         subprocess_run W (gs_argv (Py.fstr tmp) (Py.basename filename)
                                   filename) = Py.Ok status ->
         In image (Glob.glob (Py.fstr tmp)
                             (scandir W (Py.fstr tmp) filename)
                             (page_pattern (Py.basename filename))) ->
         Py.last_char image = Some c -> Py.digit_value c = None ->
         exists e,
           pdf_to_images W dataset_id tmp (Some filename) = Py.Raise e)
  (* an exception of the rasteriser ends the run *)
  /\ (forall tmp pdf e,
         images_tmp self = Some tmp ->
         In pdf (get_pdf_names W pdf_directory) ->
         pdf_to_images W dataset_id (Some tmp) (Some pdf) = Py.Raise e ->
         exists e',
           snd (_ingest_local W self pdf_directory dataset_id result_path
                              visualize aggregate skip_ocr aggregations)
           = Py.Raise e')
  (* an exception of a stage, for any one item, ends the run *)
  /\ (forall items it e,
         snd (rasterize W self pdf_directory dataset_id) = Py.Ok items ->
         In it items ->
         through_stages W visualize
           (tl (order_for self visualize skip_ocr)) it = Py.Raise e ->
         exists e',
           snd (_ingest_local W self pdf_directory dataset_id result_path
                              visualize aggregate skip_ocr aggregations)
           = Py.Raise e').
Proof.
  split; [|split; [|split; [|split]]].
  - intros tmp filename e He. apply pdf_to_images_parse_failure.
    unfold parses. now rewrite He.
  - intros status tmp [filename|]; [|reflexivity].
    unfold pdf_to_images. simpl.
    destruct (parse_pdf W filename) as [[meta limit]|e]; [|reflexivity].
    now destruct (subprocess_run W _).
  - intros tmp filename meta limit status image c Hparse Hgs Hin Hlast Hc.
    unfold pdf_to_images. rewrite Hparse, Hgs. simpl.
    destruct (for_each_raises
                (page_object W dataset_id tmp (Py.basename filename)
                             meta limit)
                _ image (Py.Exception image) Hin) as [e' ->].
    + unfold page_object.
      now rewrite (page_num_of_bad_suffix image c Hlast Hc).
    + simpl. eauto.
  - intros tmp pdf e Htmp Hin Hpdf.
    destruct (rasterize_failure self pdf_directory dataset_id tmp pdf e
                Htmp Hin Hpdf) as [e' He'].
    exists e'. unfold _ingest_local, build_frame.
    rewrite !snd_bind, He'. reflexivity.
  - intros items it e Hitems Hin Hstage.
    pose proof (stage_chain_futures self visualize skip_ocr items) as Hfuts.
    destruct (for_each_raises (fun x => x)
                (map (through_stages W visualize
                        (tl (order_for self visualize skip_ocr))) items)
                (Py.Raise e) e) as [e' He'].
    { rewrite <- Hstage. exact (in_map _ _ _ Hin). }
    { reflexivity. }
    exists e'. unfold _ingest_local, build_frame.
    rewrite !snd_bind, Hitems. cbn [Py.bind].
    rewrite !snd_bind, Hfuts. cbn [Py.bind].
    rewrite !snd_bind. unfold Dask.results, Dask.lift. cbn [snd].
    rewrite He'. reflexivity.
Qed.

(* ================================================================ *)
(** ** The pages that are picked up                                 *)
(* ================================================================ *)

Lemma page_num_of_range image n :
  page_num_of image = Py.Ok n -> (0 <= n <= 9)%Z.
Proof.
  unfold page_num_of, Py.int_of_char, Py.digit_value.
  destruct (Py.last_char image) as [c|]; [|discriminate].
  destruct ((48 <=? nat_of_ascii c)%nat && (nat_of_ascii c <=? 57)%nat)
    eqn:Hc; [|discriminate].
  apply andb_true_iff in Hc as [Hlo Hhi].
  apply Nat.leb_le in Hlo. apply Nat.leb_le in Hhi.
  intros Heq. inversion Heq; subst. lia.
Qed.

Lemma page_object_page_num dataset_id tmp pdf_name meta limit image it :
  page_object W dataset_id tmp pdf_name meta limit image = Py.Ok it ->
  page_num_of image = Py.Ok (obj_page_num (item_obj it)).
Proof.
  unfold page_object.
  destruct (page_num_of image) as [page_num|e]; simpl; [|discriminate].
  destruct (image_open W image) as [[img_w img_h]|e]; simpl;
    [|discriminate].
  destruct (resize_png W (img_w, img_h)) as [w h].
  destruct meta as [meta|]; simpl.
  - destruct (subscript limit 2) as [orig_w|e]; simpl; [|discriminate].
    destruct (subscript limit 3) as [orig_h|e]; simpl; [|discriminate].
    destruct (true_div (num_of_Z w) orig_w); simpl; [|discriminate].
    destruct (true_div (num_of_Z h) orig_h); simpl; [|discriminate].
    intros Heq; inversion Heq; subst. now destruct tmp.
  - intros Heq; inversion Heq; subst. now destruct tmp.
Qed.

(** C9.  The page lookup matches only names that end in an underscore
    and exactly one more character, so the file of a page numbered ten
    or more is never matched, whatever the directory holds; every work
    item of a document comes from a matched file and has a page number
    between 0 and 9.  The files of the pages up to nine are matched (for
    a document name free of pattern characters), so it is the pages from
    ten on that are lost. *)
Theorem only_single_character_pages dataset_id tmp filename :
  (forall entries name,
      In name (Glob.glob1 entries (page_pattern (Py.basename filename))) ->
      exists pre c,
        name = (pre ++ String "_" (String c EmptyString))%string)
  /\ (forall entries k,
         (10 <= k)%nat ->
         ~ In (gs_page_file (Py.basename filename) k)
              (Glob.glob1 entries (page_pattern (Py.basename filename))))
  /\ (forall items,
         pdf_to_images W dataset_id tmp (Some filename)
         = Py.Ok (Some items) ->
         forall it, In it items ->
           (0 <= obj_page_num (item_obj it) <= 9)%Z
           /\ exists name,
               In name (Glob.glob1 (scandir W (Py.fstr tmp) filename)
                                   (page_pattern (Py.basename filename)))
               /\ page_num_of (Py.path_join (Py.fstr tmp) name)
                  = Py.Ok (obj_page_num (item_obj it)))
  /\ (forall entries k,
         Glob.has_magic (Py.basename filename) = false ->
         (k <= 9)%nat ->
         In (gs_page_file (Py.basename filename) k) entries ->
         In (gs_page_file (Py.basename filename) k)
            (Glob.glob1 entries (page_pattern (Py.basename filename)))).
Proof.
  split; [|split; [|split]]; cycle 3.
  { intros entries k Hmagic Hk Hin.
    apply GlobFacts.glob1_intro; [exact Hin| |].
    - now apply GlobFacts.early_page_matched.
    - apply GlobFacts.ishidden_page_file. }
  - intros entries name Hin.
    apply GlobFacts.glob1_In in Hin as [_ Hm].
    apply GlobFacts.fnmatch_one_more in Hm as (pre & c & Heq).
    exists (string_of_list_ascii pre), c.
    rewrite <- (string_of_list_ascii_of_string name), Heq.
    now rewrite GlobFacts.string_of_list_ascii_app.
  - intros entries k Hk Hin.
    apply GlobFacts.glob1_In in Hin as [_ Hm].
    now rewrite (GlobFacts.late_page_not_matched _ k Hk) in Hm.
  - intros items Hrun it Hin. unfold pdf_to_images in Hrun.
    destruct (parse_pdf W filename) as [[meta limit]|e].
    + destruct (subprocess_run W _) as [status|e]; simpl in Hrun;
        [|discriminate].
      destruct (Py.for_each _ _) as [objs|e] eqn:Hobjs; simpl in Hrun;
        [|discriminate].
      inversion Hrun; subst. clear Hrun.
      apply for_each_Forall2 in Hobjs.
      destruct (Forall2_In_r _ _ _ _ Hobjs Hin) as (image & Himage & Hit).
      apply page_object_page_num in Hit. split.
      * eapply page_num_of_range; eauto.
      * unfold Glob.glob in Himage.
        apply in_map_iff in Himage as (name & <- & Hname). eauto.
    + assert (items = []) as -> by (destruct e; now inversion Hrun).
      contradiction.
Qed.

End Proofs.

(* ================================================================== *)
(** ** The theorems on the concrete installation                       *)
(* ================================================================== *)

Example three_document_batch :
  map (fun r => (row_pdf_name (row r), row_page_num (row r))) Demo.frame
  = [("a.pdf", 1%Z); ("a.pdf", 1%Z); ("a.pdf", 2%Z); ("a.pdf", 2%Z);
     ("c.pdf", 1%Z); ("c.pdf", 1%Z)].
Proof. vm_compute. reflexivity. Qed.

Example twelve_pages_nine_items :
  map (fun it => obj_page_num (item_obj it)) Demo.pages_long
  = [1; 2; 3; 4; 5; 6; 7; 8; 9]%Z.
Proof. vm_compute. reflexivity. Qed.

(** A batch that yields no row at all: the frame has no column to derive
    [detect_cls] from. *)
Example empty_frame_has_no_columns :
  snd Demo.run_all_corrupt = Py.Raise (Py.KeyError "classes").
Proof. vm_compute. reflexivity. Qed.

Lemma stage_chain_order_witness :
  ran Dask.T_detect
      (fst (stage_chain Demo.world (Demo.self true true true) false true
                        Demo.pages_a))
  /\ ran Dask.T_xgboost_postprocess
         (fst (stage_chain Demo.world (Demo.self true true true) false true
                           Demo.pages_a)).
Proof.
  pose proof (stage_chain_order Demo.world (Demo.self true true true)
                                false true Demo.pages_a)
    as (_ & _ & _ & Hx & Hr).
  assert (Hrules : ran Dask.T_rules_postprocess
                       (fst (stage_chain Demo.world
                               (Demo.self true true true) false true
                               Demo.pages_a))).
  { exists Dask.process, None. vm_compute. in_list. }
  split; [apply Hx; apply Hr; exact Hrules | apply Hr; exact Hrules].
Defined.

Lemma result_rows_parallel_lists_witness :
  Forall (fun r =>
            List.length (row_classes (row r))
            = List.length (row_scores (row r))
            /\ nth_error (row_classes (row r)) 0 = Some (detect_cls r)
            /\ nth_error (row_scores (row r)) 0 = Some (detect_score r))
         Demo.frame.
Proof.
  apply Forall_forall. intros r Hr.
  apply (result_rows_parallel_lists
           Demo.world (Demo.self true true true) "in" "ds" "out"
           false false true ["pdfs"] (fst Demo.full_run) Demo.frame);
    [vm_compute; reflexivity | exact Hr].
Defined.

Lemma collector_rows_witness :
  exists rows,
    collect_item Demo.obj_done = Py.Ok rows
    /\ List.length rows = List.length Demo.detections
    /\ (forall ind c,
           nth_error Demo.detections ind = Some c ->
           nth_error rows ind = Some (spec_row Demo.obj_done ind c))
    /\ (Demo.detections = [] -> rows = []).
Proof.
  apply (collector_rows Demo.obj_done Demo.detections).
  - reflexivity.
  - repeat constructor; unfold has_classes; simpl; discriminate.
  - unfold postprocess_covers. simpl. lia.
Defined.

Lemma geometry_scaled_by_declared_page_box_witness :
  (exists it,
      page_object Demo.world "ds" (Some "/tmp/cosmos/images") "a.pdf"
                  (Some Demo.meta_a) (Some Demo.limit_a)
                  "/tmp/cosmos/images/a.pdf_2" = Py.Ok it
      /\ obj_page_num (item_obj it) = 2%Z
      /\ obj_orig_w (item_obj it) = num_of_Z 612%Z)
  /\ List.length Demo.pages_a = 2%nat
  /\ Forall (fun it =>
               obj_orig_w (item_obj it) = num_of_Z 612%Z
               /\ obj_orig_h (item_obj it) = num_of_Z 792%Z)
            Demo.pages_a.
Proof.
  pose proof (geometry_scaled_by_declared_page_box
                Demo.world "ds" (Some "/tmp/cosmos/images") "in/a.pdf"
                Demo.meta_a (Some Demo.limit_a)) as [Hbuild Hread].
  split; [|split; [vm_compute; reflexivity|]].
  - destruct (Hbuild "/tmp/cosmos/images/a.pdf_2" 2%Z (5100, 6600)%Z
                     1920%Z 2485%Z (num_of_Z 612%Z) (num_of_Z 792%Z)
                     (QArith_base.Qdiv (num_of_Z 1920%Z) (num_of_Z 612%Z))
                     (QArith_base.Qdiv (num_of_Z 2485%Z) (num_of_Z 792%Z)))
      as (it & Hit & Hpage & _ & Hw & _);
      try (vm_compute; reflexivity).
    exists it. auto.
  - apply Forall_forall. intros it Hit.
    assert (Hrun : pdf_to_images Demo.world "ds" (Some "/tmp/cosmos/images")
                                 (Some "in/a.pdf")
                   = Py.Ok (Some Demo.pages_a))
      by (vm_compute; reflexivity).
    destruct (Hread Demo.pages_a eq_refl Hrun it Hit)
      as (image & size & w & h & ow & oh & sw & sh
          & _ & _ & Hw & Hh & _ & _ & _ & <- & <- & _).
    simpl in Hw, Hh. inversion Hw. inversion Hh. split; reflexivity.
Defined.

Lemma unparsable_documents_are_left_out_witness :
  get_pdf_names (without_unparsable Demo.world) "in"
  = ["in/a.pdf"; "in/c.pdf"].
Proof.
  pose proof (unparsable_documents_are_left_out
                Demo.world (Demo.self true true true) "in" "ds" "out"
                false false true []) as (_ & _ & _ & Hthree).
  apply (Hthree "in/a.pdf" "in/b.pdf" "in/c.pdf"); reflexivity.
Defined.

Lemma aggregation_name_checked_after_stages_witness :
  snd (_ingest_local Demo.world (Demo.self true true true) "in" "ds" "out"
                     false false true ["pdfs"; "bogus"; "pdfs"])
  = Py.Raise (Py.KeyError "bogus").
Proof.
  assert (Hframe :
            build_frame Demo.world (Demo.self true true true) "in" "ds"
                        false true
            = (fst (build_frame Demo.world (Demo.self true true true)
                                "in" "ds" false true),
               Py.Ok Demo.frame))
    by (vm_compute; reflexivity).
  assert (Hpre : Forall (fun x => exists v,
                             aggregate_router Demo.world Demo.frame x
                             = Py.Ok v) ["pdfs"])
    by (repeat constructor; eexists; vm_compute; reflexivity).
  pose proof (aggregation_name_checked_after_stages
                Demo.world (Demo.self true true true) "in" "ds" "out"
                false false true _ Demo.frame ["pdfs"] "bogus" ["pdfs"]
                (Py.KeyError "bogus") Hframe Hpre eq_refl) as [Heq _].
  change (["pdfs"; "bogus"; "pdfs"]) with (["pdfs"] ++ "bogus" :: ["pdfs"]).
  rewrite Heq. reflexivity.
Defined.

Lemma failures_that_are_absorbed_and_that_are_not_witness :
  pdf_to_images Demo.world "ds" (Some "/tmp/cosmos/images") (Some "in/b.pdf")
  = Py.Ok (Some [])
  /\ (exists e,
         pdf_to_images Demo.world_bad_suffix "ds"
                       (Some "/tmp/cosmos/images") (Some "in/c.pdf")
         = Py.Raise e)
  /\ (exists e, snd (_ingest_local Demo.world_bad_suffix
                       (Demo.self true true true) "in" "ds" "out"
                       false false true []) = Py.Raise e)
  /\ (exists e, snd (_ingest_local Demo.world_failing_stage
                       (Demo.self true true true) "in" "ds" "out"
                       false false true []) = Py.Raise e).
Proof.
  pose proof (failures_that_are_absorbed_and_that_are_not
                Demo.world (Demo.self true true true) "in" "ds" "out"
                false false true []) as (Hparse & _).
  pose proof (failures_that_are_absorbed_and_that_are_not
                Demo.world_bad_suffix (Demo.self true true true)
                "in" "ds" "out" false false true [])
    as (_ & _ & Hsuffix & Hraster & _).
  pose proof (failures_that_are_absorbed_and_that_are_not
                Demo.world_failing_stage (Demo.self true true true)
                "in" "ds" "out" false false true [])
    as (_ & _ & _ & _ & Hstage).
  split; [|split; [|split]].
  - apply (Hparse _ _ (Py.Exception "No /Root object")). reflexivity.
  - apply (Hsuffix (Some "/tmp/cosmos/images") "in/c.pdf" None None 0%Z
                   "/tmp/cosmos/images/c.pdf_x" "x"%char);
      try reflexivity.
    vm_compute. in_list.
  - apply (Hraster "/tmp/cosmos/images" "in/c.pdf"
                   (Py.Exception "/tmp/cosmos/images/c.pdf_x")).
    + reflexivity.
    + simpl. in_list.
    + vm_compute. reflexivity.
  - apply (Hstage Demo.work_items Demo.page_c
                  (Py.Exception "CUDA out of memory")).
    + vm_compute. reflexivity.
    + vm_compute. in_list.
    + vm_compute. reflexivity.
Defined.

Lemma only_single_character_pages_witness :
  ~ In (gs_page_file "long.pdf" 10)
       (Glob.glob1 (Demo.entries "/tmp/cosmos/images" "in/long.pdf")
                   (page_pattern "long.pdf"))
  /\ In (gs_page_file "long.pdf" 9)
        (Glob.glob1 (Demo.entries "/tmp/cosmos/images" "in/long.pdf")
                    (page_pattern "long.pdf"))
  /\ Forall (fun it => (0 <= obj_page_num (item_obj it) <= 9)%Z)
            Demo.pages_long.
Proof.
  pose proof (only_single_character_pages
                Demo.world_long "ds" (Some "/tmp/cosmos/images")
                "in/long.pdf") as (_ & Hlate & Hitems & Hearly).
  split; [|split].
  - apply (Hlate (Demo.entries "/tmp/cosmos/images" "in/long.pdf") 10%nat).
    lia.
  - apply (Hearly (Demo.entries "/tmp/cosmos/images" "in/long.pdf") 9%nat).
    + reflexivity.
    + lia.
    + vm_compute. in_list.
  - apply Forall_forall. intros it Hit.
    apply (Hitems Demo.pages_long); [vm_compute; reflexivity | exact Hit].
Defined.

(* ================================================================== *)
(** ** Where the code departs from the design document                 *)
(* ================================================================== *)

(** C1: a document whose rasterisation raises is not left out.  When a
    page file of the second document cannot be decoded, or a page file of
    the third has a name that does not end in a digit (the exception of
    line 223), the exception leaves [ingest] and no table is written. *)
Lemma rasterizer_exception_escapes :
  snd Demo.run_undecodable
  = Py.Raise (Py.OSError "cannot identify image file")
  /\ ~ In (Dask.ToParquet "out/ds.parquet") (fst Demo.run_undecodable)
  /\ snd Demo.run_bad_suffix
     = Py.Raise (Py.Exception "/tmp/cosmos/images/c.pdf_x")
  /\ ~ In (Dask.ToParquet "out/ds.parquet") (fst Demo.run_bad_suffix).
Proof.
  split; [vm_compute; reflexivity|].
  split; [vm_compute; intuition discriminate|].
  split; [vm_compute; reflexivity|].
  vm_compute. intuition discriminate.
Qed.

(** C3: with the rule flag set and the classifier flag clear the run goes
    through; the rule stage is just not scheduled. *)
Lemma rules_flag_alone_is_not_rejected :
  (exists df, snd Demo.run_rules_only = Py.Ok df)
  /\ ~ fails_before_work Demo.run_rules_only
  /\ ~ ran Dask.T_rules_postprocess (fst Demo.run_rules_only).
Proof.
  split; [eexists; vm_compute; reflexivity|]. split.
  - intros [[e He] _]. vm_compute in He. discriminate.
  - intros (r & p & Hin). vm_compute in Hin. intuition discriminate.
Qed.

(** C4: a detection without classes, and a postprocess output that is
    shorter than the detections. *)
Lemma collector_raises_on_malformed_items :
  collect_item Demo.obj_no_classes
  = Py.Raise
      (Py.ValueError "not enough values to unpack (expected 2, got 0)")
  /\ collect_item Demo.obj_short_post
     = Py.Raise (Py.IndexError "list index out of range").
Proof. split; reflexivity. Qed.

(** C7: the unknown name is met after every stage was submitted. *)
Lemma unknown_aggregation_fails_after_the_stages :
  snd Demo.run_bogus = Py.Raise (Py.KeyError "bogus")
  /\ ran Dask.T_detect (fst Demo.run_bogus)
  /\ ~ fails_before_work Demo.run_bogus.
Proof.
  assert (Hran : ran Dask.T_detect (fst Demo.run_bogus))
    by (exists Dask.GPU, (Some 8%Z); vm_compute; in_list).
  split; [vm_compute; reflexivity|]. split; [exact Hran|].
  intros [_ Hnone]. destruct Hran as (r & p & Hin). exact (Hnone _ _ _ Hin).
Qed.

(** C8: one page on which the detector fails, or one page file with a
    malformed name, fails the whole run: the exception reaches the caller
    of [ingest] and no table is written. *)
Lemma one_failing_item_fails_the_run :
  snd Demo.run_failing_stage = Py.Raise (Py.Exception "CUDA out of memory")
  /\ ~ In (Dask.ToParquet "out/ds.parquet") (fst Demo.run_failing_stage)
  /\ (exists e, snd Demo.run_bad_suffix = Py.Raise e).
Proof.
  split; [vm_compute; reflexivity|].
  split; [vm_compute; intuition discriminate|].
  eexists. vm_compute. reflexivity.
Qed.

(* ================================================================== *)
(** ** Watermark removal                                               *)
(* ================================================================== *)

Module PikeFacts.

Import Pike.

Lemma strip_marked_subsequence stream :
  forall BDC, subsequence (strip_marked BDC stream) stream.
Proof.
  induction stream as [|[operands operator] rest IH]; intros BDC; simpl.
  - constructor.
  - destruct (String.eqb operator "BDC"); [apply sub_skip, IH|].
    destruct BDC.
    + destruct (String.eqb operator "EMC"); apply sub_skip, IH.
    + apply sub_keep, IH.
Qed.

Lemma strip_marked_no_BDC stream :
  forall BDC i, In i (strip_marked BDC stream) -> snd i <> "BDC".
Proof.
  induction stream as [|[operands operator] rest IH]; intros BDC i; simpl.
  - contradiction.
  - destruct (String.eqb operator "BDC") eqn:Hop; [apply IH|].
    destruct BDC.
    + destruct (String.eqb operator "EMC"); apply IH.
    + intros [<-|Hin]; [|eapply IH; eauto].
      simpl. now apply String.eqb_neq.
Qed.

Lemma strip_marked_clean stream :
  Forall (fun i => snd i <> "BDC") stream ->
  strip_marked false stream = stream.
Proof.
  induction 1 as [|[operands operator] rest Hop _ IH]; simpl;
    [reflexivity|].
  simpl in Hop. apply String.eqb_neq in Hop. rewrite Hop.
  now rewrite IH.
Qed.

(** Inside marked content everything up to the next [EMC] is dropped. *)
Lemma strip_marked_inside body rest :
  Forall (fun i => snd i <> "EMC") body ->
  strip_marked true (body ++ rest) = strip_marked true rest.
Proof.
  induction 1 as [|[operands operator] body Hop _ IH]; simpl;
    [reflexivity|].
  simpl in Hop. apply String.eqb_neq in Hop. rewrite Hop.
  now destruct (String.eqb operator "BDC").
Qed.

Lemma strip_marked_outside pre rest :
  Forall (fun i => snd i <> "BDC") pre ->
  strip_marked false (pre ++ rest) = pre ++ strip_marked false rest.
Proof.
  induction 1 as [|[operands operator] pre Hop _ IH]; simpl;
    [reflexivity|].
  simpl in Hop. apply String.eqb_neq in Hop. rewrite Hop.
  now rewrite IH.
Qed.

(** X1.  The instructions kept for a page are an order-preserving selection
    of the page's content stream: nothing is added or reordered, and no
    [BDC] operator is ever kept, whatever the state of the flag. *)
Theorem kept_instructions_are_a_selection BDC stream :
  subsequence (strip_marked BDC stream) stream
  /\ (forall i, In i (strip_marked BDC stream) -> In i stream)
  /\ (forall i, In i (strip_marked BDC stream) -> snd i <> "BDC").
Proof.
  split; [apply strip_marked_subsequence|]. split.
  - pose proof (strip_marked_subsequence stream BDC) as Hsub.
    induction Hsub; simpl; intros i Hin; auto.
    destruct Hin; auto.
  - intros i. apply strip_marked_no_BDC.
Qed.

(** X2.  A content stream without a [BDC] operator is written back
    unchanged, and cleaning an already cleaned stream changes nothing. *)
Theorem stream_without_BDC_is_kept stream :
  (Forall (fun i => snd i <> "BDC") stream ->
   strip_marked false stream = stream)
  /\ (forall BDC,
         strip_marked false (strip_marked BDC stream)
         = strip_marked BDC stream).
Proof.
  split; [apply strip_marked_clean|].
  intros BDC. apply strip_marked_clean. apply Forall_forall.
  intros i. apply strip_marked_no_BDC.
Qed.

(** X3.  Everything from a [BDC] operator up to and including the next
    [EMC] is dropped, the instructions before it are kept and the
    instructions after it are treated like a fresh stream; a [BDC] that is
    never closed drops the rest of the page. *)
Theorem marked_content_is_cut pre body post open_operands close_operands :
  Forall (fun i => snd i <> "BDC") pre ->
  Forall (fun i => snd i <> "EMC") body ->
  strip_marked false
    (pre ++ (open_operands, "BDC") :: body
         ++ (close_operands, "EMC") :: post)
  = pre ++ strip_marked false post
  /\ strip_marked false (pre ++ (open_operands, "BDC") :: body) = pre.
Proof.
  intros Hpre Hbody. split.
  - rewrite (strip_marked_outside _ _ Hpre). f_equal.
    cbn [strip_marked]. cbn [String.eqb Ascii.eqb Bool.eqb].
    rewrite (strip_marked_inside _ _ Hbody). reflexivity.
  - rewrite (strip_marked_outside _ _ Hpre).
    cbn [strip_marked]. cbn [String.eqb Ascii.eqb Bool.eqb].
    rewrite <- (app_nil_r body), (strip_marked_inside _ _ Hbody).
    simpl. now rewrite app_nil_r.
Qed.

Lemma pike_for_each_Forall2 {A B} (f : A -> result B) (xs : list A) :
  forall ys, for_each f xs = Ok ys ->
             Forall2 (fun x y => f x = Ok y) xs ys.
Proof.
  induction xs as [|x xs IH]; simpl; intros ys Hys.
  - inversion Hys. constructor.
  - destruct (f x) as [y|e] eqn:Hx; simpl in Hys; [|discriminate].
    destruct (for_each f xs) as [ys'|e] eqn:Hxs; simpl in Hys;
      [|discriminate].
    inversion Hys; subst. constructor; auto.
Qed.

Lemma clean_page_inv page new_page :
  clean_page page = Ok new_page ->
  exists stream res,
    content_stream page = Ok stream
    /\ resources page = Ok res
    /\ new_page = {| Contents := strip_marked false stream;
                     Resources := res |}.
Proof.
  unfold clean_page.
  destruct (content_stream page) as [stream|e]; simpl; [|discriminate].
  destruct (resources page) as [res|e]; simpl; [|discriminate].
  intros Heq. inversion Heq. eauto.
Qed.

(** X4.  When the document opens, every page is read and the result is
    saved, [_remove_watermark] saves exactly one document, under the
    base name of the input in the target directory, and returns the input
    file name; the saved document has as many pages as the input, each
    holding the cleaned content stream and the resources of the page it
    comes from. *)
Theorem cleaned_document_is_saved_page_by_page
        W filename target_directory target new :
  pdf_open W filename = Ok target ->
  for_each clean_page target = Ok new ->
  pdf_save W (Py.path_join target_directory (Py.basename filename)) new
  = Ok tt ->
  _remove_watermark W filename target_directory
  = ([Save (Py.path_join target_directory (Py.basename filename)) new],
     Py.Ok (Some filename))
  /\ List.length new = List.length target
  /\ Forall2 (fun page new_page =>
                exists stream res,
                  content_stream page = Ok stream
                  /\ resources page = Ok res
                  /\ Contents new_page = strip_marked false stream
                  /\ Resources new_page = res) target new.
Proof.
  intros Hopen Hclean Hsave. split; [|split].
  - unfold _remove_watermark, attempt.
    rewrite Hopen. cbn [bind]. rewrite Hclean. cbn [bind].
    rewrite Hsave. reflexivity.
  - apply pike_for_each_Forall2 in Hclean. symmetry.
    eapply Forall2_length; eauto.
  - apply pike_for_each_Forall2 in Hclean.
    clear Hopen Hsave.
    induction Hclean as [|page new_page target new Hpage _ IH];
      [constructor|].
    constructor; [|exact IH].
    apply clean_page_inv in Hpage as (stream & res & Hs & Hr & ->).
    exists stream, res. auto.
Qed.

Lemma remove_watermark_cases W filename target_directory :
  (exists path new,
      attempt W filename target_directory = Ok (path, new)
      /\ _remove_watermark W filename target_directory
         = ([Save path new], Py.Ok (Some filename)))
  \/ (exists msg,
         (attempt W filename target_directory = Raise (PdfError msg)
          \/ attempt W filename target_directory = Raise (RuntimeError msg))
         /\ _remove_watermark W filename target_directory
            = ([LogError ("Error in file: " ++ filename); LogError msg],
               Py.Ok None))
  \/ (exists e,
         attempt W filename target_directory = Raise (Other e)
         /\ _remove_watermark W filename target_directory
            = ([], Py.Raise e)).
Proof.
  unfold _remove_watermark.
  destruct (attempt W filename target_directory) as [[path new]|[m|m|e]].
  - left. eauto.
  - right. left. eauto.
  - right. left. eauto.
  - right. right. eauto.
Qed.

Lemma attempt_path W filename target_directory path new :
  attempt W filename target_directory = Ok (path, new) ->
  path = Py.path_join target_directory (Py.basename filename)
  /\ exists target,
      pdf_open W filename = Ok target
      /\ for_each clean_page target = Ok new.
Proof.
  unfold attempt.
  destruct (pdf_open W filename) as [target|e]; simpl; [|discriminate].
  destruct (for_each clean_page target) as [new'|e] eqn:Hclean; simpl;
    [|discriminate].
  destruct (pdf_save W _ new'); simpl; [|discriminate].
  intros Heq. inversion Heq; subst. split; [reflexivity|].
  exists target. split; [reflexivity|exact Hclean].
Qed.

(** X5.  What [_remove_watermark] returns tells what it did: [None]
    means that nothing was saved, a file name is the input file name and
    means that one document was saved under its base name in the target
    directory, and an exception that leaves is one that is neither a
    [PdfError] nor a [RuntimeError] and leaves without anything logged or
    saved. *)
Theorem remove_watermark_result_tells_what_was_saved
        W filename target_directory :
  (snd (_remove_watermark W filename target_directory) = Py.Ok None ->
   saved (fst (_remove_watermark W filename target_directory)) = [])
  /\ (forall returned,
         snd (_remove_watermark W filename target_directory)
         = Py.Ok (Some returned) ->
         returned = filename
         /\ exists new,
             fst (_remove_watermark W filename target_directory)
             = [Save (Py.path_join target_directory
                                   (Py.basename filename)) new])
  /\ (forall e,
         snd (_remove_watermark W filename target_directory) = Py.Raise e ->
         fst (_remove_watermark W filename target_directory) = []
         /\ attempt W filename target_directory = Raise (Other e)).
Proof.
  destruct (remove_watermark_cases W filename target_directory)
    as [(path & new & Ha & ->)|[(msg & Ha & ->)|(e & Ha & ->)]]; simpl.
  - split; [discriminate|]. split; [|discriminate].
    intros returned Heq. inversion Heq; subst. split; [reflexivity|].
    apply attempt_path in Ha as [-> _]. eauto.
  - split; [reflexivity|]. split; [discriminate|discriminate].
  - split; [discriminate|]. split; [discriminate|].
    intros e' Heq. inversion Heq; subst. auto.
Qed.

(** *** The loop over the directory *)

Lemma saved_app l1 l2 : saved (l1 ++ l2) = saved l1 ++ saved l2.
Proof.
  induction l1 as [|[m|path pdf] l1 IH]; simpl; [reflexivity|exact IH|].
  now rewrite IH.
Qed.

Lemma each_file_cons W target_directory p rest :
  each_file W target_directory (p :: rest)
  = match snd (_remove_watermark W p target_directory) with
    | Py.Ok _ =>
        (fst (_remove_watermark W p target_directory)
         ++ fst (each_file W target_directory rest),
         snd (each_file W target_directory rest))
    | Py.Raise e =>
        (fst (_remove_watermark W p target_directory), Py.Raise e)
    end.
Proof.
  simpl. destruct (_remove_watermark W p target_directory) as [l1 [v|e]];
    simpl; [|reflexivity].
  now destruct (each_file W target_directory rest).
Qed.

(** A file with a handled error changes neither what is saved nor how
    the loop ends. *)
Lemma each_file_skips W target_directory pre p post msg :
  attempt W p target_directory = Raise (PdfError msg)
  \/ attempt W p target_directory = Raise (RuntimeError msg) ->
  saved (fst (each_file W target_directory (pre ++ p :: post)))
  = saved (fst (each_file W target_directory (pre ++ post)))
  /\ snd (each_file W target_directory (pre ++ p :: post))
     = snd (each_file W target_directory (pre ++ post)).
Proof.
  intros Hp. induction pre as [|q pre [IHsaved IHsnd]].
  - rewrite !app_nil_l, each_file_cons. unfold _remove_watermark.
    destruct Hp as [-> | ->]; simpl; auto.
  - rewrite <- !app_comm_cons, !each_file_cons.
    destruct (snd (_remove_watermark W q target_directory)); simpl;
      [|auto].
    rewrite !saved_app, IHsaved. auto.
Qed.

Lemma fnmatch_star name : Glob.fnmatch name "*" = true.
Proof.
  unfold Glob.fnmatch. change (Glob.translate "*") with [Glob.Star].
  induction (list_ascii_of_string name) as [|c n IH].
  - reflexivity.
  - rewrite GlobFacts.match_star, IH. apply orb_true_r.
Qed.

Lemma filter_all {A} (f : A -> bool) (xs : list A) :
  (forall x, f x = true) -> filter f xs = xs.
Proof.
  intros Hf. induction xs as [|x xs IH]; simpl; [reflexivity|].
  now rewrite Hf, IH.
Qed.

Lemma glob_star dirname entries :
  Glob.glob dirname entries "*"
  = map (Py.path_join dirname)
        (filter (fun x => negb (Glob.ishidden x)) entries).
Proof.
  unfold Glob.glob, Glob.glob1. simpl Glob.ishidden. cbv iota.
  now rewrite (filter_all _ _ fnmatch_star).
Qed.

Lemma each_file_saved W target_directory pdfs path pdf :
  In (path, pdf) (saved (fst (each_file W target_directory pdfs))) ->
  exists p,
    In p pdfs
    /\ attempt W p target_directory = Ok (path, pdf).
Proof.
  induction pdfs as [|q pdfs IH]; [contradiction|].
  rewrite each_file_cons.
  destruct (remove_watermark_cases W q target_directory)
    as [(path' & new & Ha & Hq)|[(msg & Ha & Hq)|(e & Ha & Hq)]];
    rewrite Hq; simpl.
  - intros [Heq|Hin].
    + inversion Heq; subst. exists q. auto.
    + destruct (IH Hin) as (p & ? & ?). exists p. auto.
  - intros Hin. destruct (IH Hin) as (p & ? & ?). exists p. auto.
  - contradiction.
Qed.


Lemma each_file_with_listdir W entries target_directory pdfs :
  each_file (with_listdir W entries) target_directory pdfs
  = each_file W target_directory pdfs.
Proof.
  induction pdfs as [|p pdfs IH]; [reflexivity|].
  rewrite !each_file_cons, IH. reflexivity.
Qed.

(** X8.  A file on which [pikepdf] raises [PdfError] or [RuntimeError]
    does not stop the run: the documents saved and the outcome are those of
    the same directory without that file. *)
Theorem broken_file_does_not_stop_the_others
        W pdf_directory target_directory pre name post msg :
  listdir W pdf_directory = pre ++ name :: post ->
  attempt W (Py.path_join pdf_directory name) target_directory
  = Raise (PdfError msg)
  \/ attempt W (Py.path_join pdf_directory name) target_directory
     = Raise (RuntimeError msg) ->
  saved (fst (remove_watermarks W pdf_directory target_directory))
  = saved (fst (remove_watermarks
                  (with_listdir W (fun _ => pre ++ post))
                  pdf_directory target_directory))
  /\ snd (remove_watermarks W pdf_directory target_directory)
     = snd (remove_watermarks
              (with_listdir W (fun _ => pre ++ post))
              pdf_directory target_directory).
Proof.
  intros Hlist Hfail. unfold remove_watermarks. rewrite !glob_star.
  rewrite each_file_with_listdir.
  cbn [listdir with_listdir]. rewrite Hlist.
  rewrite !filter_app, !map_app. cbn [filter].
  destruct (negb (Glob.ishidden name)); cbn [map].
  - exact (each_file_skips W target_directory _ _ _ msg Hfail).
  - split; reflexivity.
Qed.

(** X7.  No page of a document that [remove_watermarks] writes holds a
    [BDC] operator. *)
Theorem written_documents_have_no_BDC
        W pdf_directory target_directory path pdf page i :
  In (Save path pdf)
     (fst (remove_watermarks W pdf_directory target_directory)) ->
  In page pdf -> In i (Contents page) ->
  snd i <> "BDC".
Proof.
  intros Hin Hpage Hi.
  assert (Hsaved : exists p,
             attempt W p target_directory = Ok (path, pdf)).
  { unfold remove_watermarks in Hin.
    revert Hin.
    generalize (Glob.glob pdf_directory (listdir W pdf_directory) "*").
    intros pdfs Hin.
    assert (Hs : In (path, pdf)
                    (saved (fst (each_file W target_directory pdfs)))).
    { revert Hin. generalize (fst (each_file W target_directory pdfs)).
      intros log. induction log as [|[m|path' pdf'] log IH]; simpl.
      - contradiction.
      - intros [Hd|Hin]; [discriminate|auto].
      - intros [Hd|Hin]; [inversion Hd; auto|auto]. }
    apply each_file_saved in Hs as (p & _ & Ha). eauto. }
  destruct Hsaved as (p & Ha).
  apply attempt_path in Ha as (_ & target & _ & Hclean).
  apply pike_for_each_Forall2 in Hclean.
  assert (Hsrc : exists src, clean_page src = Ok page).
  { clear - Hclean Hpage. induction Hclean; simpl in Hpage;
      [contradiction|].
    destruct Hpage as [<-|Hpage]; eauto. }
  destruct Hsrc as (src & Hsrc).
  apply clean_page_inv in Hsrc as (stream & res & _ & _ & ->).
  simpl in Hi. eapply strip_marked_no_BDC; eauto.
Qed.

Lemma each_file_app W target_directory pre post :
  each_file W target_directory (pre ++ post)
  = match snd (each_file W target_directory pre) with
    | Py.Ok _ =>
        (fst (each_file W target_directory pre)
         ++ fst (each_file W target_directory post),
         snd (each_file W target_directory post))
    | Py.Raise e => (fst (each_file W target_directory pre), Py.Raise e)
    end.
Proof.
  induction pre as [|q pre IH].
  - simpl. now destruct (each_file W target_directory post).
  - rewrite <- app_comm_cons, !each_file_cons, IH.
    destruct (snd (_remove_watermark W q target_directory)); simpl;
      [|reflexivity].
    destruct (snd (each_file W target_directory pre)); simpl;
      [|reflexivity].
    now rewrite app_assoc.
Qed.

(** X9.  An exception that is neither [PdfError] nor [RuntimeError]
    ends [remove_watermarks] at the file that raised it: the exception
    leaves, what was done for the entries before it stays, and the
    entries after it are not touched. *)
Theorem unhandled_error_ends_the_walk
        W pdf_directory target_directory pre name post e :
  listdir W pdf_directory = pre ++ name :: post ->
  Glob.ishidden name = false ->
  attempt W (Py.path_join pdf_directory name) target_directory
  = Raise (Other e) ->
  snd (remove_watermarks (with_listdir W (fun _ => pre))
                         pdf_directory target_directory) = Py.Ok tt ->
  remove_watermarks W pdf_directory target_directory
  = (fst (remove_watermarks (with_listdir W (fun _ => pre))
                            pdf_directory target_directory),
     Py.Raise e).
Proof.
  intros Hlist Hvisible Hfail. unfold remove_watermarks.
  rewrite !glob_star, each_file_with_listdir.
  cbn [listdir with_listdir]. rewrite Hlist.
  rewrite filter_app, map_app. cbn [filter]. rewrite Hvisible.
  cbn [negb map]. intros Hpre.
  rewrite each_file_app, Hpre, each_file_cons.
  unfold _remove_watermark. rewrite Hfail. cbn [fst snd].
  now rewrite app_nil_r.
Qed.

End PikeFacts.
(* ================================================================== *)
(** ** More on the run of [_ingest_local]                              *)
(* ================================================================== *)

Section MoreProofs.

Context {Num Agg : Type} `{PyNum Num}.
Variable W : World Num Agg.

Lemma fst_bind {X Y} (m : Dask.run X) (k : X -> Dask.run Y) :
  fst (Dask.bind m k)
  = fst m ++ match snd m with
             | Py.Ok a => fst (k a)
             | Py.Raise _ => []
             end.
Proof.
  destruct m as [l [a|e]]; simpl; [|now rewrite app_nil_r].
  now destruct (k a).
Qed.

(** The events up to the frame are the submissions of the rasteriser and
    of the stage chain. *)
Lemma build_frame_log self pdf_directory dataset_id visualize skip_ocr :
  fst (build_frame W self pdf_directory dataset_id visualize skip_ocr)
  = fst (rasterize W self pdf_directory dataset_id)
    ++ match snd (rasterize W self pdf_directory dataset_id) with
       | Py.Ok items => fst (stage_chain W self visualize skip_ocr items)
       | Py.Raise _ => []
       end.
Proof.
  unfold build_frame. rewrite fst_bind. f_equal.
  destruct (snd (rasterize W self pdf_directory dataset_id))
    as [items|e]; [|reflexivity].
  rewrite fst_bind, (stage_chain_futures W). rewrite fst_bind.
  unfold Dask.results, Dask.lift. cbn [fst snd].
  destruct (Py.for_each _ _) as [objs|e]; cbn [app];
    [|now rewrite app_nil_r].
  rewrite fst_bind. cbn [fst snd]. destruct (collect objs); cbn [app fst];
    now rewrite app_nil_r.
Qed.

Lemma build_frame_submits self pdf_directory dataset_id visualize skip_ocr
      ev :
  In ev (fst (build_frame W self pdf_directory dataset_id visualize
                          skip_ocr)) ->
  (exists tmp pdf,
      ev = Dask.Submit (Dask.T_pdf_to_images dataset_id tmp pdf)
                       Dask.process None)
  \/ (exists t,
         In t (order_for self visualize skip_ocr)
         /\ ev = Dask.Submit t (stage_resource t) (stage_priority t)).
Proof.
  rewrite build_frame_log. intros Hin.
  apply in_app_or in Hin as [Hin|Hin].
  - left. rewrite (rasterize_log W) in Hin.
    destruct (images_tmp self) as [tmp|]; [|contradiction].
    apply in_map_iff in Hin as (pdf & <- & _). eauto.
  - right.
    destruct (snd (rasterize W self pdf_directory dataset_id))
      as [items|e]; [|contradiction].
    rewrite (stage_chain_log W) in Hin.
    apply in_flat_map in Hin as (t & Ht & Hin).
    apply repeat_spec in Hin. eauto.
Qed.

Lemma aggregate_all_ok result_df dataset_id result_path aggregations :
  Forall (fun x => exists v, aggregate_router W result_df x = Py.Ok v)
         aggregations ->
  aggregate_all W result_df dataset_id result_path aggregations
  = (map (aggregate_write dataset_id result_path) aggregations, Py.Ok tt).
Proof.
  induction 1 as [|x aggregations [v Hx] _ IH]; simpl; [reflexivity|].
  rewrite Hx. unfold Dask.lift. simpl. rewrite IH. reflexivity.
Qed.

Lemma aggregate_all_cases result_df dataset_id result_path aggregations :
  aggregate_all W result_df dataset_id result_path aggregations
  = (map (aggregate_write dataset_id result_path) aggregations, Py.Ok tt)
  \/ exists k e,
      aggregate_all W result_df dataset_id result_path aggregations
      = (map (aggregate_write dataset_id result_path)
             (firstn k aggregations), Py.Raise e).
Proof.
  induction aggregations as [|x aggregations IH]; simpl; [now left|].
  destruct (aggregate_router W result_df x) as [v|e]; unfold Dask.lift;
    simpl.
  - destruct IH as [-> | (k & e & ->)]; [now left|].
    right. exists (S k), e. reflexivity.
  - right. exists 0%nat, e. reflexivity.
Qed.

(** The three ways a run ends. *)
Lemma ingest_local_cases self pdf_directory dataset_id result_path
      visualize aggregate skip_ocr aggregations :
  let frame := build_frame W self pdf_directory dataset_id visualize
                           skip_ocr in
  let run := _ingest_local W self pdf_directory dataset_id result_path
                           visualize aggregate skip_ocr aggregations in
  (exists e, snd frame = Py.Raise e /\ run = (fst frame, Py.Raise e))
  \/ (exists df k e,
         snd frame = Py.Ok df
         /\ run = (fst frame
                   ++ map (aggregate_write dataset_id result_path)
                          (firstn k aggregations), Py.Raise e))
  \/ (exists df,
         snd frame = Py.Ok df
         /\ run = (fst frame
                   ++ map (aggregate_write dataset_id result_path)
                          aggregations
                   ++ [table_write dataset_id result_path]
                   ++ match tmp_dir self with
                      | Some d => [Dask.Rmtree d]
                      | None => []
                      end,
                   match tmp_dir self with
                   | Some d => Py.Ok df
                   | None => Py.Raise (Py.TypeError "rmtree: path is None")
                   end)).
Proof.
  intros frame run. subst frame run. unfold _ingest_local.
  destruct (build_frame W self pdf_directory dataset_id visualize skip_ocr)
    as [log [df|e]] eqn:Hframe; cbn [fst snd].
  - rewrite (bind_ok _ _ _ _ eq_refl).
    destruct (aggregate_all_cases df dataset_id result_path aggregations)
      as [Hagg | (k & e & Hagg)]; rewrite Hagg.
    + right. right. exists df. split; [reflexivity|].
      unfold table_write, Dask.emit, Dask.lift, Dask.ret.
      destruct (tmp_dir self); simpl; now rewrite ?app_nil_r.
    + right. left. exists df, k, e. split; reflexivity.
  - left. exists e. split; reflexivity.
Qed.





(** X11.  The only task ever submitted with the GPU resource is the
    detection stage, at priority 8, and only when semantic detection is
    switched on. *)
Theorem accelerator_only_for_detection
        self pdf_directory dataset_id result_path skip_ocr visualize
        aggregations t p :
  In (Dask.Submit t Dask.GPU p)
     (fst (ingest W self pdf_directory dataset_id result_path skip_ocr
                  visualize aggregations)) ->
  t = Dask.T_detect /\ p = Some 8%Z /\ use_semantic_detection self = true.
Proof.
  unfold ingest. destruct (tmp_dir self) as [d|]; [|contradiction].
  intros Hin.
  assert (Hframe : In (Dask.Submit t Dask.GPU p)
                      (fst (build_frame W self pdf_directory dataset_id
                                        visualize skip_ocr))).
  { destruct (ingest_local_cases self pdf_directory dataset_id result_path
                visualize false skip_ocr aggregations)
      as [(e & _ & Hrun)|[(df & k & e & _ & Hrun)|(df & _ & Hrun)]];
      rewrite Hrun in Hin; cbn [fst] in Hin; [exact Hin| |].
    - apply in_app_or in Hin as [Hin|Hin]; [exact Hin|].
      apply in_map_iff in Hin as (a & Hev & _). discriminate.
    - apply in_app_or in Hin as [Hin|Hin]; [exact Hin|].
      apply in_app_or in Hin as [Hin|Hin].
      + apply in_map_iff in Hin as (a & Hev & _). discriminate.
      + apply in_app_or in Hin as [Hin|Hin].
        * destruct Hin as [Hev|[]]. discriminate.
        * destruct (tmp_dir self); [destruct Hin as [Hev|[]]|destruct Hin].
          discriminate. }
  apply build_frame_submits in Hframe as [(tmp & pdf & Hev)|(t' & Ht & Hev)].
  - discriminate.
  - inversion Hev as [[Ht' Hres Hp]]. subst t'.
    unfold order_for, spec_stage_order in Ht.
    destruct t; try discriminate.
    split; [reflexivity|]. split; [reflexivity|].
    destruct (use_semantic_detection self); [reflexivity|].
    simpl in Ht. destruct Ht as [Ht|[]]. discriminate.
Qed.

Lemma all_empty {X Y} (f : X -> Py.result (option (list Y))) xs :
  (forall x, In x xs -> f x = Py.Ok (Some [])) ->
  (images <- Py.for_each (fun x => x) (map f xs) ;;
   Py.Ok (List.concat (not_none images)))
  = Py.Ok [].
Proof.
  induction xs as [|x xs IH]; intros Hall; [reflexivity|].
  simpl. rewrite (Hall x (or_introl eq_refl)). simpl.
  specialize (IH (fun y Hy => Hall y (or_intror Hy))).
  destruct (Py.for_each _ (map f xs)) as [images|e]; simpl in *;
    [|discriminate].
  exact IH.
Qed.

Lemma stage_chain_nil self visualize skip_ocr :
  stage_chain W self visualize skip_ocr [] = ([], Py.Ok []).
Proof.
  unfold stage_chain, Dask.client_map, Dask.ready.
  destruct (use_semantic_detection self), (use_xgboost_postprocess self),
    (use_rules_postprocess self); reflexivity.
Qed.

(** X12.  When no document of the directory parses (or the directory is
    empty) the run submits the rasterising tasks and nothing else, and
    fails with [KeyError] on the [classes] column instead of writing an
    empty table. *)
Theorem no_parsable_document_no_table
        self pdf_directory dataset_id result_path visualize aggregate
        skip_ocr aggregations tmp :
  images_tmp self = Some tmp ->
  (forall pdf, In pdf (get_pdf_names W pdf_directory) ->
               parses W pdf = false) ->
  _ingest_local W self pdf_directory dataset_id result_path visualize
                aggregate skip_ocr aggregations
  = (map (fun pdf => Dask.Submit
                       (Dask.T_pdf_to_images dataset_id tmp pdf)
                       Dask.process None)
         (get_pdf_names W pdf_directory),
     Py.Raise (Py.KeyError "classes")).
Proof.
  intros Htmp Hnone.
  assert (Hr : rasterize W self pdf_directory dataset_id
               = (map (fun pdf => Dask.Submit
                                    (Dask.T_pdf_to_images dataset_id tmp pdf)
                                    Dask.process None)
                      (get_pdf_names W pdf_directory), Py.Ok [])).
  { rewrite (surjective_pairing (rasterize W self pdf_directory dataset_id)).
    rewrite (rasterize_log W), rasterize_outcome, Htmp. f_equal.
    apply all_empty. intros pdf Hpdf.
    apply pdf_to_images_parse_failure. now apply Hnone. }
  unfold _ingest_local, build_frame. rewrite Hr.
  cbn [Dask.bind]. rewrite stage_chain_nil. simpl.
  now rewrite !app_nil_r.
Qed.

Lemma collect_nothing (objs : list (Obj Num)) :
  (forall o, In o objs -> obj_content o = Some []) ->
  collect objs = Py.Ok [].
Proof.
  intros Hall. unfold collect.
  rewrite (for_each_map collect_item (fun _ => []) objs).
  - simpl. f_equal. clear Hall. induction objs; simpl; auto.
  - intros o Ho. unfold collect_item. now rewrite (Hall o Ho).
Qed.

(** X13.  When every page goes through the stages but the detector finds
    nothing on any of them, the run fails with [KeyError] on the
    [classes] column and writes no table at all. *)
Theorem no_detection_no_table
        self pdf_directory dataset_id result_path visualize aggregate
        skip_ocr aggregations items objs :
  snd (rasterize W self pdf_directory dataset_id) = Py.Ok items ->
  Py.for_each (fun x => x)
              (map (through_stages W visualize
                      (tl (order_for self visualize skip_ocr))) items)
  = Py.Ok objs ->
  (forall o, In o objs -> obj_content o = Some []) ->
  snd (_ingest_local W self pdf_directory dataset_id result_path visualize
                     aggregate skip_ocr aggregations)
  = Py.Raise (Py.KeyError "classes")
  /\ forall path,
      ~ In (Dask.ToParquet path)
           (fst (_ingest_local W self pdf_directory dataset_id result_path
                               visualize aggregate skip_ocr aggregations)).
Proof.
  intros Hitems Hobjs Hall.
  assert (Hframe : snd (build_frame W self pdf_directory dataset_id
                                    visualize skip_ocr)
                   = Py.Raise (Py.KeyError "classes")).
  { unfold build_frame. rewrite !snd_bind, Hitems. cbn [Py.bind].
    rewrite !snd_bind, (stage_chain_futures W). cbn [Py.bind].
    rewrite !snd_bind. unfold Dask.results, Dask.lift. cbn [snd].
    rewrite Hobjs. cbn [Py.bind]. rewrite !snd_bind. cbn [snd].
    rewrite (collect_nothing objs Hall). reflexivity. }
  destruct (ingest_local_cases self pdf_directory dataset_id result_path
              visualize aggregate skip_ocr aggregations)
    as [(e & Hf & Hrun)|[(df & k & e & Hf & _)|(df & Hf & _)]];
    [|congruence|congruence].
  rewrite Hrun. cbn [fst snd]. split; [congruence|].
  intros path Hin. apply build_frame_submits in Hin
    as [(tmp & pdf & Hev)|(t & _ & Hev)]; discriminate.
Qed.

(** X14.  Without semantic detection the two postprocess flags have no
    effect: the run is the same as with both flags off. *)
Theorem postprocess_flags_need_detection
        scheduler_address client tmp xgb rules
        pdf_directory dataset_id result_path skip_ocr visualize
        aggregations :
  ingest W (__init__ scheduler_address false client tmp xgb rules)
         pdf_directory dataset_id result_path skip_ocr visualize
         aggregations
  = ingest W (__init__ scheduler_address false client tmp false false)
           pdf_directory dataset_id result_path skip_ocr visualize
           aggregations.
Proof.
  destruct tmp as [d|]; reflexivity.
Qed.

(* ================================================================ *)
(** ** More on [pdf_to_images]                                      *)
(* ================================================================ *)

Lemma page_object_plain dataset_id tmp pdf_name limit image it :
  page_object W dataset_id tmp pdf_name None limit image = Py.Ok it ->
  exists page_num size,
    page_num_of image = Py.Ok page_num
    /\ image_open W image = Py.Ok size
    /\ item_obj it
       = {| obj_orig_w := num_of_Z (fst size);
            obj_orig_h := num_of_Z (snd size);
            obj_dataset_id := dataset_id; obj_pdf_name := pdf_name;
            obj_meta := None;
            obj_dims := [0; 0; fst (resize_png W size);
                         snd (resize_png W size)]%Z;
            obj_pdf_limit := limit; obj_page_num := page_num;
            obj_content := None; obj_xgboost_content := None |}.
Proof.
  unfold page_object.
  destruct (page_num_of image) as [page_num|e]; simpl; [|discriminate].
  destruct (image_open W image) as [[img_w img_h]|e]; simpl;
    [|discriminate].
  destruct (resize_png W (img_w, img_h)) as [w h] eqn:Hresize.
  intros Heq. inversion Heq; subst. clear Heq.
  exists page_num, (img_w, img_h). rewrite Hresize.
  destruct tmp; simpl; auto.
Qed.

(** X15.  For a document without text geometry the original width and
    height recorded for a page are the pixel size of the rasterised
    image, the metadata is [None], the page-box limit is passed through
    unread, and the padded dimensions are those of the resized image. *)
Theorem without_geometry_the_image_size_is_recorded
        dataset_id tmp filename limit :
  (forall image page_num size,
      page_num_of image = Py.Ok page_num ->
      image_open W image = Py.Ok size ->
      exists it,
        page_object W dataset_id tmp (Py.basename filename) None limit
                    image = Py.Ok it
        /\ obj_page_num (item_obj it) = page_num
        /\ obj_orig_w (item_obj it) = num_of_Z (fst size)
        /\ obj_orig_h (item_obj it) = num_of_Z (snd size)
        /\ obj_meta (item_obj it) = None
        /\ obj_pdf_limit (item_obj it) = limit)
  /\ (forall items,
         parse_pdf W filename = Py.Ok (None, limit) ->
         pdf_to_images W dataset_id tmp (Some filename)
         = Py.Ok (Some items) ->
         forall it, In it items ->
           exists image size,
             image_open W image = Py.Ok size
             /\ obj_orig_w (item_obj it) = num_of_Z (fst size)
             /\ obj_orig_h (item_obj it) = num_of_Z (snd size)
             /\ obj_dims (item_obj it)
                = [0; 0; fst (resize_png W size);
                   snd (resize_png W size)]%Z
             /\ obj_meta (item_obj it) = None
             /\ obj_pdf_limit (item_obj it) = limit).
Proof.
  split.
  - intros image page_num [img_w img_h] Hpage Hopen.
    unfold page_object. rewrite Hpage, Hopen. cbn [Py.bind].
    destruct (resize_png W (img_w, img_h)) as [w h].
    destruct tmp; eexists; (split; [reflexivity|]); simpl; auto.
  - intros items Hparse Hrun it Hin. unfold pdf_to_images in Hrun.
    rewrite Hparse in Hrun.
    destruct (subprocess_run W _) as [status|e]; simpl in Hrun;
      [|discriminate].
    destruct (Py.for_each _ _) as [objs|e] eqn:Hobjs; simpl in Hrun;
      [|discriminate].
    inversion Hrun; subst. clear Hrun.
    apply for_each_Forall2 in Hobjs.
    destruct (Forall2_In_r _ _ _ _ Hobjs Hin) as (image & _ & Hit).
    apply page_object_plain in Hit as (page_num & size & _ & Hopen & ->).
    exists image, size. simpl. auto 6.
Qed.

Lemma first_page_fails dataset_id tmp filename meta limit status image rest
      e :
  parse_pdf W filename = Py.Ok (meta, limit) ->
  subprocess_run W (gs_argv (Py.fstr tmp) (Py.basename filename) filename)
  = Py.Ok status ->
  Glob.glob (Py.fstr tmp) (scandir W (Py.fstr tmp) filename)
            (page_pattern (Py.basename filename)) = image :: rest ->
  page_object W dataset_id tmp (Py.basename filename) meta limit image
  = Py.Raise e ->
  pdf_to_images W dataset_id tmp (Some filename) = Py.Raise e.
Proof.
  intros Hparse Hgs Hglob Hpage. unfold pdf_to_images.
  rewrite Hparse, Hgs. cbn [Py.bind]. rewrite Hglob.
  cbn [Py.for_each]. rewrite Hpage. reflexivity.
Qed.

(** X16.  For a document with text geometry a missing, short or
    zero-sized page box is not absorbed by the handler around the parser:
    [pdf_to_images] raises [TypeError], [IndexError] or
    [ZeroDivisionError] at the first page. *)
Theorem bad_page_box_is_not_absorbed
        dataset_id tmp filename meta limit status image rest page_num size :
  parse_pdf W filename = Py.Ok (Some meta, limit) ->
  subprocess_run W (gs_argv (Py.fstr tmp) (Py.basename filename) filename)
  = Py.Ok status ->
  Glob.glob (Py.fstr tmp) (scandir W (Py.fstr tmp) filename)
            (page_pattern (Py.basename filename)) = image :: rest ->
  page_num_of image = Py.Ok page_num ->
  image_open W image = Py.Ok size ->
  (limit = None ->
   pdf_to_images W dataset_id tmp (Some filename)
   = Py.Raise (Py.TypeError "'NoneType' object is not subscriptable"))
  /\ (forall l,
         limit = Some l -> (List.length l < 4)%nat ->
         pdf_to_images W dataset_id tmp (Some filename)
         = Py.Raise (Py.IndexError "list index out of range"))
  /\ (forall orig_w orig_h,
         subscript limit 2 = Py.Ok orig_w ->
         subscript limit 3 = Py.Ok orig_h ->
         num_div (num_of_Z (fst (resize_png W size))) orig_w = None
         \/ num_div (num_of_Z (snd (resize_png W size))) orig_h = None ->
         pdf_to_images W dataset_id tmp (Some filename)
         = Py.Raise Py.ZeroDivisionError).
Proof.
  intros Hparse Hgs Hglob Hpage Hopen.
  assert (Hfirst : forall e,
             page_object W dataset_id tmp (Py.basename filename)
                         (Some meta) limit image = Py.Raise e ->
             pdf_to_images W dataset_id tmp (Some filename) = Py.Raise e)
    by (intros e; eapply first_page_fails; eauto).
  destruct size as [img_w img_h].
  split; [|split].
  - intros ->. apply Hfirst. unfold page_object.
    rewrite Hpage, Hopen. cbn [Py.bind].
    now destruct (resize_png W (img_w, img_h)).
  - intros l -> Hlen. apply Hfirst. unfold page_object.
    rewrite Hpage, Hopen. cbn [Py.bind].
    destruct (resize_png W (img_w, img_h)) as [w h].
    unfold subscript, Py.getitem.
    destruct l as [|a [|b [|c [|d l]]]]; simpl in Hlen; try lia;
      reflexivity.
  - intros orig_w orig_h Hw Hh Hzero. apply Hfirst. unfold page_object.
    rewrite Hpage, Hopen. cbn [Py.bind].
    destruct (resize_png W (img_w, img_h)) as [w h].
    rewrite Hw, Hh. cbn [Py.bind]. unfold true_div. cbn [fst snd] in Hzero.
    destruct Hzero as [Hz|Hz].
    + now rewrite Hz.
    + rewrite Hz. now destruct (num_div (num_of_Z w) orig_w).
Qed.

(* ================================================================ *)
(** ** Page files and page numbers                                  *)
(* ================================================================ *)












(* ================================================================ *)
(** ** The table, row by row                                        *)
(* ================================================================ *)

Lemma final_obj_eq (obj : Obj Num) ind c r :
  final_obj obj ind c = Py.Ok r -> r = spec_row obj ind c.
Proof.
  destruct c as [[bb cls] text]. unfold final_obj, spec_row.
  destruct (Py.zip_star cls) as [[sc cl]|e] eqn:Hz; simpl; [|discriminate].
  apply zip_star_inv in Hz as (_ & -> & ->).
  destruct (obj_xgboost_content obj) as [post|]; simpl.
  - unfold Py.getitem.
    destruct (nth_error post ind) as [[[[b0 pc] t0] ps]|]; simpl;
      [|discriminate].
    intros Heq. now inversion Heq.
  - intros Heq. now inversion Heq.
Qed.

Lemma Forall2_eq_map {X Y} (g : X -> Y) xs ys :
  Forall2 (fun x y => y = g x) xs ys -> ys = map g xs.
Proof. induction 1; simpl; congruence. Qed.

Lemma collect_item_eq (obj : Obj Num) rows :
  collect_item obj = Py.Ok rows -> rows = item_rows obj.
Proof.
  unfold collect_item, item_rows.
  destruct (obj_content obj) as [content|]; [|discriminate].
  intros Hrows. apply for_each_Forall2 in Hrows.
  apply Forall2_eq_map.
  eapply Forall2_impl; [|exact Hrows].
  intros [ind c] r Hr. now apply final_obj_eq in Hr.
Qed.

Lemma collect_eq (objs : list (Obj Num)) results :
  collect objs = Py.Ok results ->
  results = List.concat (map item_rows objs).
Proof.
  unfold collect.
  destruct (Py.for_each collect_item objs) as [per_item|e] eqn:Hall;
    simpl; [|discriminate].
  intros Heq. inversion Heq; subst. f_equal.
  apply for_each_Forall2 in Hall. apply Forall2_eq_map.
  eapply Forall2_impl; [|exact Hall].
  intros obj rows Hrows. now apply collect_item_eq in Hrows.
Qed.

Lemma map_fst_combine {X Y} (xs : list X) (ys : list Y) :
  List.length xs = List.length ys -> map fst (combine xs ys) = xs.
Proof.
  revert ys. induction xs as [|x xs IH]; intros [|y ys] Hlen;
    simpl in *; try discriminate; [reflexivity|].
  now rewrite IH by lia.
Qed.

Lemma with_detect_columns_rows (results : list (Row Num)) df :
  with_detect_columns results = Py.Ok df -> map row df = results.
Proof.
  destruct results as [|r0 results]; [discriminate|].
  remember (r0 :: results) as rs eqn:Hrs.
  assert (Hcol : forall X name (get : Row Num -> X),
             column name get rs = Py.Ok (map get rs))
    by (subst rs; reflexivity).
  clear Hrs. unfold with_detect_columns. rewrite !Hcol. cbn [Py.bind].
  rewrite !for_each_compose.
  destruct (Py.for_each (fun x => Py.getitem0 (row_classes x)) rs)
    as [dc|e] eqn:Hdc; simpl; [|discriminate].
  destruct (Py.for_each (fun x => Py.getitem0 (row_scores x)) rs)
    as [ds|e] eqn:Hds; simpl; [|discriminate].
  intros Heq. inversion Heq; subst. clear Heq.
  apply for_each_Forall2, Forall2_length in Hdc.
  apply for_each_Forall2, Forall2_length in Hds.
  rewrite map_map. cbn [row].
  apply map_fst_combine. rewrite length_combine. lia.
Qed.

(** X19.  The rows of the table are, in order, the rows of the work
    items in rasterising order, each item giving one row per detection in
    detection order; the table has as many rows as there are detections. *)
Theorem table_rows_follow_items_and_detections
        self pdf_directory dataset_id visualize skip_ocr log df :
  build_frame W self pdf_directory dataset_id visualize skip_ocr
  = (log, Py.Ok df) ->
  exists items objs,
    snd (rasterize W self pdf_directory dataset_id) = Py.Ok items
    /\ Py.for_each (fun x => x)
                   (map (through_stages W visualize
                           (tl (order_for self visualize skip_ocr))) items)
       = Py.Ok objs
    /\ map row df = List.concat (map item_rows objs)
    /\ List.length df
       = list_sum (map (fun o => List.length (item_rows o)) objs).
Proof.
  intros Hframe.
  apply build_frame_ok_inv in Hframe
    as (items & futs & objs & results & Hr & Hs & Hf & Hc & Hd & _).
  rewrite (stage_chain_futures W) in Hs. inversion Hs; subst futs.
  exists items, objs. split; [exact Hr|]. split; [exact Hf|].
  apply with_detect_columns_rows in Hd. apply collect_eq in Hc.
  split; [congruence|].
  rewrite <- (length_map row), Hd, Hc. clear.
  induction objs as [|o objs IH]; simpl; [reflexivity|].
  now rewrite length_app, IH.
Qed.

End MoreProofs.

(* ================================================================== *)
(** * [Ingest.write_images_for_annotation]                             *)
(* ================================================================== *)

Lemma has_slash_app a b :
  Py.has_slash (a ++ b) = Py.has_slash a || Py.has_slash b.
Proof.
  induction a as [|c a IH]; simpl; [reflexivity|].
  now rewrite IH, orb_assoc.
Qed.

Lemma string_app_assoc (a b c : string) :
  ((a ++ b) ++ c = a ++ (b ++ c))%string.
Proof. induction a as [|x a IH]; simpl; [reflexivity|now rewrite IH]. Qed.

Lemma basename_no_slash p : Py.has_slash (Py.basename p) = false.
Proof.
  induction p as [|c p IH]; simpl; [reflexivity|].
  destruct (Py.has_slash p) eqn:Hp; [exact IH|].
  destruct (Ascii.eqb c Py.slash) eqn:Hc; [exact Hp|].
  simpl. now rewrite Hc, Hp.
Qed.

Lemma basename_after_slash a b :
  Py.has_slash b = false ->
  Py.basename (a ++ String Py.slash b) = b.
Proof.
  intros Hb. induction a as [|c a IH]; simpl.
  - now rewrite Hb.
  - rewrite has_slash_app. simpl. now rewrite orb_true_r.
Qed.

Lemma str_of_Z_digit n :
  (0 <= n <= 9)%Z -> Py.has_slash (str_of_Z n) = false.
Proof.
  intros Hn.
  assert (Hcases : n = 0%Z \/ n = 1%Z \/ n = 2%Z \/ n = 3%Z \/ n = 4%Z
                   \/ n = 5%Z \/ n = 6%Z \/ n = 7%Z \/ n = 8%Z
                   \/ n = 9%Z) by lia.
  repeat (destruct Hcases as [->|Hcases]; [reflexivity|]).
  now subst.
Qed.

Section AnnotationProofs.

Context {Num Agg : Type} `{PyNum Num}.
Variable W : World Num Agg.
Variable shutil_copy : string -> string -> Py.result unit.

Lemma page_object_pickled dataset_id d pdf_name meta limit image it :
  page_object W dataset_id (Some d) pdf_name meta limit image = Py.Ok it ->
  exists n o, it = Pickled d pdf_name n o /\ page_num_of image = Py.Ok n.
Proof.
  unfold page_object.
  destruct (page_num_of image) as [page_num|e]; simpl; [|discriminate].
  destruct (image_open W image) as [[img_w img_h]|e]; simpl;
    [|discriminate].
  destruct (resize_png W (img_w, img_h)) as [w h].
  destruct meta as [meta|]; simpl.
  - destruct (subscript limit 2) as [orig_w|e]; simpl; [|discriminate].
    destruct (subscript limit 3) as [orig_h|e]; simpl; [|discriminate].
    destruct (true_div (num_of_Z w) orig_w); simpl; [|discriminate].
    destruct (true_div (num_of_Z h) orig_h); simpl; [|discriminate].
    intros Heq; inversion Heq; subst. eauto.
  - intros Heq; inversion Heq; subst. eauto.
Qed.

Lemma pdf_to_images_items dataset_id d filename objs :
  pdf_to_images W dataset_id (Some d) (Some filename) = Py.Ok (Some objs) ->
  Forall (fun it => exists n o,
              it = Pickled d (Py.basename filename) n o
              /\ (0 <= n <= 9)%Z) objs.
Proof.
  unfold pdf_to_images.
  destruct (parse_pdf W filename) as [[meta limit]|e].
  - destruct (subprocess_run W _) as [u|e]; simpl; [|discriminate].
    destruct (Py.for_each _ _) as [objs'|e] eqn:Hobjs; simpl;
      [|discriminate].
    intros Heq. inversion Heq; subst. clear Heq.
    apply for_each_Forall2 in Hobjs.
    induction Hobjs as [|image it names objs Hit _ IH]; constructor;
      [|exact IH].
    apply page_object_pickled in Hit as (n & o & -> & Hn).
    apply page_num_of_range in Hn. eauto.
  - intros Heq.
    assert (objs = []) as -> by (destruct e; inversion Heq; reflexivity).
    constructor.
Qed.

Lemma rasterize_items self pdf_directory dataset_id items :
  snd (rasterize W self pdf_directory dataset_id) = Py.Ok items ->
  exists tmp,
    images_tmp self = Some tmp
    /\ Forall (fun it => exists pdf n o,
                   In pdf (get_pdf_names W pdf_directory)
                   /\ it = Pickled tmp (Py.basename pdf) n o
                   /\ (0 <= n <= 9)%Z) items.
Proof.
  rewrite rasterize_outcome.
  destruct (images_tmp self) as [tmp|]; [|discriminate].
  intros Hrun. exists tmp. split; [reflexivity|].
  revert items Hrun.
  induction (get_pdf_names W pdf_directory) as [|pdf pdfs IH];
    intros items; cbn [map Py.for_each].
  - intros Heq. inversion Heq. constructor.
  - destruct (pdf_to_images W dataset_id (Some tmp) (Some pdf))
      as [[objs|]|e] eqn:Hpdf; cbn [Py.bind]; [| |discriminate].
    + destruct (Py.for_each _ _) as [rest|e']; cbn [Py.bind];
        [|discriminate].
      intros Heq. inversion Heq; subst. clear Heq.
      cbn [not_none List.concat]. apply Forall_app. split.
      * apply pdf_to_images_items in Hpdf.
        eapply Forall_impl; [|exact Hpdf].
        intros it (n & o & -> & Hn). exists pdf, n, o.
        split; [now left|]. split; [reflexivity|exact Hn].
      * specialize (IH _ eq_refl).
        eapply Forall_impl; [|exact IH].
        intros it (pdf' & n & o & Hin & -> & Hn).
        exists pdf', n, o.
        split; [now right|]. split; [reflexivity|exact Hn].
    + destruct (Py.for_each _ _) as [rest|e']; cbn [Py.bind];
        [|discriminate].
      intros Heq. inversion Heq; subst. clear Heq.
      cbn [not_none]. specialize (IH _ eq_refl).
      eapply Forall_impl; [|exact IH].
      intros it (pdf' & n & o & Hin & -> & Hn).
      exists pdf', n, o.
      split; [now right|]. split; [reflexivity|exact Hn].
Qed.

Lemma copy_all_ok img_dir paths copies :
  copy_all shutil_copy img_dir paths = (copies, Py.Ok tt) ->
  copies = map (fun p => Copy p (annotation_target img_dir p)) paths.
Proof.
  revert copies. induction paths as [|p paths IH]; intros copies; simpl.
  - intros Heq. now inversion Heq.
  - destruct (shutil_copy p _); [|discriminate].
    destruct (copy_all shutil_copy img_dir paths) as [l r].
    intros Heq. inversion Heq; subst. f_equal. now apply IH.
Qed.

Lemma copy_all_copies img_dir paths ev :
  In ev (fst (copy_all shutil_copy img_dir paths)) ->
  exists src, ev = Copy src (annotation_target img_dir src).
Proof.
  induction paths as [|p paths IH]; simpl; [contradiction|].
  destruct (shutil_copy p _); simpl; [|contradiction].
  destruct (copy_all shutil_copy img_dir paths) as [l r]. simpl in *.
  intros [<-|Hin]; eauto.
Qed.

Lemma copy_all_stops img_dir pre p post e :
  Forall (fun q => shutil_copy q (annotation_target img_dir q) = Py.Ok tt)
         pre ->
  shutil_copy p (annotation_target img_dir p) = Py.Raise e ->
  copy_all shutil_copy img_dir (pre ++ p :: post)
  = (map (fun q => Copy q (annotation_target img_dir q)) pre, Py.Raise e).
Proof.
  intros Hpre Hp. induction Hpre as [|q pre Hq _ IH]; simpl.
  - now rewrite Hp.
  - now rewrite Hq, IH.
Qed.

Lemma annotation_target_of_item img_dir tmp pdf n :
  (0 <= n <= 9)%Z ->
  annotation_target img_dir
    (tmp ++ "/" ++ Py.basename pdf ++ "_" ++ str_of_Z n)%string
  = Py.path_join img_dir
      (Py.basename pdf ++ "_" ++ str_of_Z n ++ ".png")%string.
Proof.
  intros Hn. unfold annotation_target. cbv zeta.
  change ("/" ++ Py.basename pdf ++ "_" ++ str_of_Z n)%string
    with (String Py.slash (Py.basename pdf ++ "_" ++ str_of_Z n)%string).
  rewrite basename_after_slash.
  - f_equal. rewrite !string_app_assoc. reflexivity.
  - rewrite !has_slash_app, basename_no_slash, str_of_Z_digit by exact Hn.
    reflexivity.
Qed.

(** X20.  A successful [write_images_for_annotation] submits the
    rasterising tasks, then copies one file per page item, in order,
    from [<images_tmp>/<pdf>_<page>] to [<img_dir>/<pdf>_<page>.png], and
    removes the tmp directory last. *)
Theorem every_page_image_is_copied_then_tmp_removed
        self pdf_dir img_dir log :
  write_images_for_annotation W shutil_copy self pdf_dir img_dir
  = (log, Py.Ok tt) ->
  exists tmp d items copies,
    images_tmp self = Some tmp
    /\ tmp_dir self = Some d
    /\ snd (rasterize W self pdf_dir "na") = Py.Ok items
    /\ log = map Client (fst (rasterize W self pdf_dir "na"))
             ++ copies ++ [Client (Dask.Rmtree d)]
    /\ Forall2 (fun it ev =>
                  exists pdf n o,
                    In pdf (get_pdf_names W pdf_dir)
                    /\ it = Pickled tmp (Py.basename pdf) n o
                    /\ (0 <= n <= 9)%Z
                    /\ ev = Copy (tmp ++ "/" ++ Py.basename pdf ++ "_"
                                      ++ str_of_Z n)%string
                                 (Py.path_join img_dir
                                    (Py.basename pdf ++ "_" ++ str_of_Z n
                                       ++ ".png")%string))
               items copies.
Proof.
  unfold write_images_for_annotation.
  destruct (rasterize W self pdf_dir "na") as [rlog [items|e]] eqn:Hr;
    [|discriminate].
  destruct (Py.for_each annotation_path items) as [paths|e] eqn:Hpaths;
    [|discriminate].
  destruct (copy_all shutil_copy img_dir paths) as [copies [[]|e]]
    eqn:Hcopy; [|discriminate].
  destruct (tmp_dir self) as [d|]; [|discriminate].
  intros Heq. inversion Heq; subst. clear Heq.
  assert (Hitems : snd (rasterize W self pdf_dir "na") = Py.Ok items)
    by now rewrite Hr.
  destruct (rasterize_items _ _ _ _ Hitems) as (tmp & Htmp & Hall).
  exists tmp, d, items, copies. repeat split; auto.
  apply copy_all_ok in Hcopy. subst copies.
  apply for_each_Forall2 in Hpaths. clear Hr Hitems.
  induction Hpaths as [|it path items paths Hpath _ IH]; cbn [map];
    [constructor|].
  inversion Hall as [|? ? (pdf & n & o & Hin & -> & Hn) Hrest]; subst.
  constructor; [|now apply IH].
  cbn [annotation_path] in Hpath. inversion Hpath; subst. clear Hpath.
  exists pdf, n, o. repeat split; auto; try lia.
  f_equal. exact (annotation_target_of_item img_dir tmp pdf n Hn).
Qed.

(** X21.  When [write_images_for_annotation] fails, the tmp directory
    has not been removed. *)
Theorem annotation_failure_keeps_tmp self pdf_dir img_dir log e :
  write_images_for_annotation W shutil_copy self pdf_dir img_dir
  = (log, Py.Raise e) ->
  forall d, ~ In (Client (Dask.Rmtree d)) log.
Proof.
  unfold write_images_for_annotation.
  pose proof (rasterize_log W self pdf_dir "na") as Hlog.
  destruct (rasterize W self pdf_dir "na") as [rlog r]. simpl in Hlog.
  assert (Hsub : forall d, ~ In (Client (Dask.Rmtree d)) (map Client rlog)).
  { intros d Hin. apply in_map_iff in Hin as (ev & Hev & Hin).
    inversion Hev; subst. clear Hev.
    destruct (images_tmp self); [|contradiction].
    apply in_map_iff in Hin as (pdf & Hd & _). discriminate. }
  assert (Hcopies : forall paths d,
             ~ In (Client (Dask.Rmtree d))
                  (fst (copy_all shutil_copy img_dir paths))).
  { intros paths d Hin. apply copy_all_copies in Hin as (src & Hd).
    discriminate. }
  destruct r as [items|e0].
  - destruct (Py.for_each annotation_path items) as [paths|e1].
    + specialize (Hcopies paths).
      destruct (copy_all shutil_copy img_dir paths) as [copies [u|e2]];
        simpl in Hcopies.
      * destruct (tmp_dir self); [discriminate|].
        intros Heq d Hin. inversion Heq; subst.
        apply in_app_or in Hin as [Hin|Hin];
          [exact (Hsub d Hin)|exact (Hcopies d Hin)].
      * intros Heq d Hin. inversion Heq; subst.
        apply in_app_or in Hin as [Hin|Hin];
          [exact (Hsub d Hin)|exact (Hcopies d Hin)].
    + intros Heq d Hin. inversion Heq; subst. exact (Hsub d Hin).
  - intros Heq d Hin. inversion Heq; subst. exact (Hsub d Hin).
Qed.

(** X22.  The first copy that fails ends
    [write_images_for_annotation]: its exception leaves, the pages before
    it have been copied, the pages after it have not. *)
Theorem a_failed_copy_ends_the_loop
        self pdf_dir img_dir items pre p post e :
  snd (rasterize W self pdf_dir "na") = Py.Ok items ->
  Py.for_each annotation_path items = Py.Ok (pre ++ p :: post) ->
  Forall (fun q => shutil_copy q (annotation_target img_dir q) = Py.Ok tt)
         pre ->
  shutil_copy p (annotation_target img_dir p) = Py.Raise e ->
  write_images_for_annotation W shutil_copy self pdf_dir img_dir
  = (map Client (fst (rasterize W self pdf_dir "na"))
     ++ map (fun q => Copy q (annotation_target img_dir q)) pre,
     Py.Raise e).
Proof.
  intros Hitems Hpaths Hpre Hp. unfold write_images_for_annotation.
  destruct (rasterize W self pdf_dir "na") as [rlog r]. simpl in *.
  subst r. rewrite Hpaths.
  now rewrite (copy_all_stops img_dir pre p post e Hpre Hp).
Qed.

(** On an object built without a tmp directory
    [write_images_for_annotation] raises [AttributeError] for
    [images_tmp] before anything is submitted or copied. *)
Remark annotation_needs_tmp_dir
        scheduler_address sem client xgb rules pdf_dir img_dir :
  write_images_for_annotation W shutil_copy
    (__init__ scheduler_address sem client None xgb rules) pdf_dir img_dir
  = ([], Py.Raise (Py.AttributeError "images_tmp")).
Proof. reflexivity. Qed.

End AnnotationProofs.

(* ================================================================== *)
(** * The further properties on the concrete installations             *)
(* ================================================================== *)

Lemma stream_without_BDC_is_kept_witness :
  Pike.strip_marked false DemoPike.plain_stream = DemoPike.plain_stream.
Proof.
  apply (proj1 (PikeFacts.stream_without_BDC_is_kept DemoPike.plain_stream)).
  repeat (apply Forall_cons; [simpl; discriminate|]). apply Forall_nil.
Defined.

Lemma marked_content_is_cut_witness :
  Pike.strip_marked false DemoPike.marked_stream
  = [ (["1"; "0"; "0"; "1"; "0"; "0"], "cm");
      (["/F2"; "11"], "Tf");
      (["(Results)"], "Tj") ].
Proof.
  assert (Hpre : Forall (fun i : Pike.Instruction => snd i <> "BDC")
                        [ (["1"; "0"; "0"; "1"; "0"; "0"], "cm") ])
    by (repeat (apply Forall_cons; [simpl; discriminate|]);
        apply Forall_nil).
  assert (Hbody : Forall (fun i : Pike.Instruction => snd i <> "EMC")
                         [ (["/F1"; "48"], "Tf"); (["(DRAFT)"], "Tj") ])
    by (repeat (apply Forall_cons; [simpl; discriminate|]);
        apply Forall_nil).
  exact (proj1 (PikeFacts.marked_content_is_cut
                  _ _ [ (["/F2"; "11"], "Tf"); (["(Results)"], "Tj") ]
                  ["/Artifact"; "<</Subtype /Watermark>>"] []
                  Hpre Hbody)).
Defined.

Lemma cleaned_document_is_saved_page_by_page_witness :
  Pike._remove_watermark DemoPike.world "in/a.pdf" "out"
  = ([Pike.Save "out/a.pdf" DemoPike.cleaned], Py.Ok (Some "in/a.pdf"))
  /\ List.length DemoPike.cleaned = 2%nat.
Proof.
  destruct (PikeFacts.cleaned_document_is_saved_page_by_page
              DemoPike.world "in/a.pdf" "out" DemoPike.good_pdf
              DemoPike.cleaned eq_refl eq_refl eq_refl)
    as (Hrun & Hlen & _).
  split; [exact Hrun | exact Hlen].
Defined.

Lemma remove_watermark_result_tells_what_was_saved_witness :
  Pike.saved (fst (Pike._remove_watermark DemoPike.world "in/broken.pdf"
                                          "out")) = [].
Proof.
  apply (proj1 (PikeFacts.remove_watermark_result_tells_what_was_saved
                  DemoPike.world "in/broken.pdf" "out")).
  vm_compute. reflexivity.
Defined.

Lemma written_documents_have_no_BDC_witness :
  Forall (fun page =>
            Forall (fun i : Pike.Instruction => snd i <> "BDC")
                   (Pike.Contents page))
         DemoPike.cleaned.
Proof.
  apply Forall_forall. intros page Hpage.
  apply Forall_forall. intros i Hi.
  apply (PikeFacts.written_documents_have_no_BDC
           DemoPike.world "in" "out" "out/a.pdf" DemoPike.cleaned page i);
    [vm_compute; in_list | exact Hpage | exact Hi].
Defined.

Lemma broken_file_does_not_stop_the_others_witness :
  Pike.saved (fst (Pike.remove_watermarks DemoPike.world "in" "out"))
  = [("out/a.pdf", DemoPike.cleaned); ("out/b.pdf", DemoPike.cleaned)]
  /\ snd (Pike.remove_watermarks DemoPike.world "in" "out") = Py.Ok tt.
Proof.
  destruct (PikeFacts.broken_file_does_not_stop_the_others
              DemoPike.world "in" "out" ["a.pdf"; ".DS_Store"]
              "broken.pdf" ["b.pdf"] "unable to find trailer dictionary"
              eq_refl (or_introl eq_refl)) as [Hsaved Hresult].
  rewrite Hsaved, Hresult. split; vm_compute; reflexivity.
Defined.

Lemma unhandled_error_ends_the_walk_witness :
  Pike.remove_watermarks DemoPike.world_denied "in" "out"
  = ([Pike.Save "out/a.pdf" DemoPike.cleaned],
     Py.Raise (Py.OSError "Permission denied")).
Proof.
  rewrite (PikeFacts.unhandled_error_ends_the_walk
             DemoPike.world_denied "in" "out" ["a.pdf"; ".DS_Store"]
             "broken.pdf" ["b.pdf"] (Py.OSError "Permission denied")
             eq_refl eq_refl eq_refl eq_refl).
  vm_compute. reflexivity.
Defined.


Lemma accelerator_only_for_detection_witness :
  In (Dask.Submit Dask.T_detect Dask.GPU (Some 8%Z)) (fst Demo.full_run)
  /\ use_semantic_detection (Demo.self true true true) = true.
Proof.
  assert (Hin : In (Dask.Submit Dask.T_detect Dask.GPU (Some 8%Z))
                   (fst Demo.full_run))
    by (vm_compute; in_list).
  split; [exact Hin|].
  exact (proj2 (proj2 (accelerator_only_for_detection
                         Demo.world (Demo.self true true true) "in" "ds"
                         "out" true false ["pdfs"] Dask.T_detect
                         (Some 8%Z) Hin))).
Defined.

Lemma no_parsable_document_no_table_witness :
  _ingest_local Demo.world_all_corrupt (Demo.self true true true) "in" "ds"
                "out" false false true ["pdfs"]
  = ([Dask.Submit (Dask.T_pdf_to_images "ds" "/tmp/cosmos/images"
                                        "in/b.pdf")
                  Dask.process None],
     Py.Raise (Py.KeyError "classes")).
Proof.
  apply (no_parsable_document_no_table
           Demo.world_all_corrupt (Demo.self true true true) "in" "ds"
           "out" false false true ["pdfs"] "/tmp/cosmos/images").
  - reflexivity.
  - intros pdf [<-|[]]. vm_compute. reflexivity.
Defined.

Lemma no_detection_no_table_witness :
  snd (_ingest_local DemoMore.world_blank_pages (Demo.self true true true)
                     "in" "ds" "out" false false true ["pdfs"])
  = Py.Raise (Py.KeyError "classes").
Proof.
  pose (items :=
          match snd (rasterize DemoMore.world_blank_pages
                               (Demo.self true true true) "in" "ds") with
          | Py.Ok items => items
          | Py.Raise _ => []
          end).
  pose (objs :=
          match Py.for_each (fun x => x)
                  (map (through_stages DemoMore.world_blank_pages false
                          (tl (order_for (Demo.self true true true)
                                         false true))) items) with
          | Py.Ok objs => objs
          | Py.Raise _ => []
          end).
  apply (no_detection_no_table
           DemoMore.world_blank_pages (Demo.self true true true) "in" "ds"
           "out" false false true ["pdfs"] items objs).
  - vm_compute. reflexivity.
  - vm_compute. reflexivity.
  - intros o Hin. vm_compute in Hin.
    repeat (destruct Hin as [<-|Hin]; [reflexivity|]). contradiction.
Defined.

Lemma without_geometry_the_image_size_is_recorded_witness :
  exists it,
    page_object Demo.world "ds" (Some "/tmp/cosmos/images") "c.pdf" None None
                "/tmp/cosmos/images/c.pdf_1" = Py.Ok it
    /\ obj_page_num (item_obj it) = 1%Z
    /\ obj_orig_w (item_obj it) = num_of_Z 5100%Z
    /\ obj_orig_h (item_obj it) = num_of_Z 6600%Z.
Proof.
  destruct (proj1 (without_geometry_the_image_size_is_recorded
                     Demo.world "ds" (Some "/tmp/cosmos/images") "in/c.pdf"
                     None)
                  "/tmp/cosmos/images/c.pdf_1" 1%Z (5100, 6600)%Z
                  eq_refl eq_refl)
    as (it & Hit & Hpage & Hw & Hh & _).
  exists it. repeat split; assumption.
Defined.

Lemma bad_page_box_is_not_absorbed_witness :
  pdf_to_images DemoMore.world_flat_page "ds" (Some "/tmp/cosmos/images")
                (Some "in/a.pdf")
  = Py.Raise Py.ZeroDivisionError
  /\ pdf_to_images DemoMore.world_no_limit "ds" (Some "/tmp/cosmos/images")
                   (Some "in/a.pdf")
     = Py.Raise (Py.TypeError "'NoneType' object is not subscriptable").
Proof.
  split.
  - assert (Hparse : parse_pdf DemoMore.world_flat_page "in/a.pdf"
                     = Py.Ok (Some Demo.meta_a,
                              Some [num_of_Z 0; num_of_Z 0; num_of_Z 0;
                                    num_of_Z 792]))
      by (vm_compute; reflexivity).
    assert (Hglob : Glob.glob "/tmp/cosmos/images"
                      (scandir DemoMore.world_flat_page
                               "/tmp/cosmos/images" "in/a.pdf")
                      (page_pattern "a.pdf")
                    = ["/tmp/cosmos/images/a.pdf_1";
                       "/tmp/cosmos/images/a.pdf_2"])
      by (vm_compute; reflexivity).
    assert (Hpage : page_num_of "/tmp/cosmos/images/a.pdf_1" = Py.Ok 1%Z)
      by (vm_compute; reflexivity).
    destruct (bad_page_box_is_not_absorbed
                DemoMore.world_flat_page "ds" (Some "/tmp/cosmos/images")
                "in/a.pdf" Demo.meta_a
                (Some [num_of_Z 0; num_of_Z 0; num_of_Z 0; num_of_Z 792])
                0%Z "/tmp/cosmos/images/a.pdf_1"
                ["/tmp/cosmos/images/a.pdf_2"] 1%Z (5100, 6600)%Z
                Hparse eq_refl Hglob Hpage eq_refl)
      as (_ & _ & Hzero).
    apply (Hzero (num_of_Z 0) (num_of_Z 792) eq_refl eq_refl).
    left. vm_compute. reflexivity.
  - assert (Hglob : Glob.glob "/tmp/cosmos/images"
                      (scandir DemoMore.world_no_limit
                               "/tmp/cosmos/images" "in/a.pdf")
                      (page_pattern "a.pdf")
                    = ["/tmp/cosmos/images/a.pdf_1";
                       "/tmp/cosmos/images/a.pdf_2"])
      by (vm_compute; reflexivity).
    assert (Hpage : page_num_of "/tmp/cosmos/images/a.pdf_1" = Py.Ok 1%Z)
      by (vm_compute; reflexivity).
    destruct (bad_page_box_is_not_absorbed
                DemoMore.world_no_limit "ds" (Some "/tmp/cosmos/images")
                "in/a.pdf" Demo.meta_a None
                0%Z "/tmp/cosmos/images/a.pdf_1"
                ["/tmp/cosmos/images/a.pdf_2"] 1%Z (5100, 6600)%Z
                eq_refl eq_refl Hglob Hpage eq_refl)
      as (Hnone & _).
    exact (Hnone eq_refl).
Defined.



Lemma table_rows_follow_items_and_detections_witness :
  exists items objs,
    snd (rasterize Demo.world (Demo.self true true true) "in" "ds")
    = Py.Ok items
    /\ Py.for_each (fun x => x)
         (map (through_stages Demo.world false
                 (tl (order_for (Demo.self true true true) false true)))
              items)
       = Py.Ok objs
    /\ map row Demo.frame = List.concat (map item_rows objs)
    /\ List.length Demo.frame
       = list_sum (map (fun o => List.length (item_rows o)) objs).
Proof.
  apply (table_rows_follow_items_and_detections
           Demo.world (Demo.self true true true) "in" "ds" false true
           (fst (build_frame Demo.world (Demo.self true true true)
                             "in" "ds" false true))).
  vm_compute. reflexivity.
Defined.

Lemma every_page_image_is_copied_then_tmp_removed_witness :
  exists copies,
    fst (write_images_for_annotation Demo.world DemoMore.copy_ok
           (Demo.self true true true) "in" "png")
    = map Client (fst (rasterize Demo.world (Demo.self true true true)
                                 "in" "na"))
      ++ copies ++ [Client (Dask.Rmtree "/tmp/cosmos")].
Proof.
  destruct (every_page_image_is_copied_then_tmp_removed
              Demo.world DemoMore.copy_ok (Demo.self true true true)
              "in" "png"
              (fst (write_images_for_annotation Demo.world DemoMore.copy_ok
                      (Demo.self true true true) "in" "png")))
    as (tmp & d & items & copies & _ & Hd & _ & Hlog & _).
  - vm_compute. reflexivity.
  - exists copies. inversion Hd; subst. exact Hlog.
Defined.

Lemma annotation_failure_keeps_tmp_witness :
  ~ In (Client (Dask.Rmtree "/tmp/cosmos"))
       (fst (write_images_for_annotation Demo.world DemoMore.copy_fails_once
               (Demo.self true true true) "in" "png")).
Proof.
  apply (annotation_failure_keeps_tmp
           Demo.world DemoMore.copy_fails_once (Demo.self true true true)
           "in" "png"
           (fst (write_images_for_annotation Demo.world
                   DemoMore.copy_fails_once (Demo.self true true true)
                   "in" "png"))
           (Py.OSError "No space left on device")).
  vm_compute. reflexivity.
Defined.

Lemma a_failed_copy_ends_the_loop_witness :
  write_images_for_annotation Demo.world DemoMore.copy_fails_once
    (Demo.self true true true) "in" "png"
  = (map Client (fst (rasterize Demo.world (Demo.self true true true)
                                "in" "na"))
     ++ [Copy "/tmp/cosmos/images/a.pdf_1" "png/a.pdf_1.png"],
     Py.Raise (Py.OSError "No space left on device")).
Proof.
  pose (items :=
          match snd (rasterize Demo.world (Demo.self true true true)
                               "in" "na") with
          | Py.Ok items => items
          | Py.Raise _ => []
          end).
  apply (a_failed_copy_ends_the_loop
           Demo.world DemoMore.copy_fails_once (Demo.self true true true)
           "in" "png" items ["/tmp/cosmos/images/a.pdf_1"]
           "/tmp/cosmos/images/a.pdf_2" [DemoMore.first_page_c]
           (Py.OSError "No space left on device")).
  - vm_compute. reflexivity.
  - vm_compute. reflexivity.
  - repeat constructor.
  - reflexivity.
Defined.
